(** * oweb: a command-line client for the Open WebUI HTTP API

    Shallow embedding of [oweb.py] and the properties of its five
    operations ([upload_knowledge], [list_knowledge], [list_models],
    [ask_question], [load_directory]) and of its start-up code.

    The program is sequential Python that talks to three things outside
    itself: the process environment, the local file system and an HTTP
    server.  Each function is embedded as a computation in a small monad
    that threads the chronological list of observable events (lines
    printed, files opened and closed, requests sent) and may end in a
    Python exception. *)

From Stdlib Require Import Ascii.
From stdpp Require Import gmap strings list pretty.

#[local] Set Warnings "-register-all".

#[local] Open Scope string_scope.
#[local] Open Scope Z_scope.
#[local] Open Scope list_scope.

(** ** Python values *)

(** What [response.json()] returns: the values of Python's [json] module.
    A float keeps an opaque mantissa and exponent, nothing computes on it.
    A [dict] is a finite map with string keys. *)
Inductive json :=
  | JNull
  | JBool (b : bool)
  | JInt (z : Z)
  | JFloat (m e : Z)
  | JStr (s : string)
  | JArr (l : list json)
  | JObj (m : gmap string json).

Inductive oserror :=
  | FileNotFoundError
  | PermissionError
  | IsADirectoryError
  | OtherOSError.

(** The exceptions the program can end in. *)
Inductive exn :=
  | ValueError (msg : string)
  | OSError (k : oserror)
  | AttributeError
  | TypeError
  | JSONDecodeError
  | RequestException
  | UnicodeEncodeError
  | SystemExit (code : Z).

Inductive result (A : Type) :=
  | Ok (a : A)
  | Raise (e : exn).
Arguments Ok {A} a.
Arguments Raise {A} e.

(** The text every encoding of the standard output can encode: the
    characters below 128. *)
Definition is_ascii_char (c : ascii) : bool := (nat_of_ascii c <? 128)%nat.

Fixpoint is_ascii (s : string) : bool :=
  match s with
  | "" => true
  | String c s' => is_ascii_char c && is_ascii s'
  end.

(** The parts of the Python library whose output the program only passes
    on to [print]: [str()] of a float, list or dict, and
    [json.dumps(_, indent=2)], whose output is ASCII ([ensure_ascii] is
    left at its default). *)
Class PyLib := {
  str_other : json → string;
  json_dumps_indent2 : json → string;
  json_dumps_ascii : ∀ v, is_ascii (json_dumps_indent2 v) = true
}.

(** The newline character, Python's ["\n"]. *)
Definition NL : string := String "010"%char "".

(** The two characters backslash and [n], Python's ["\\n"]. *)
Definition BSN : string := "\n".

(** [str(v)] as an f-string placeholder computes it. *)
Definition py_str {lib : PyLib} (v : json) : string :=
  match v with
  | JNull => "None"
  | JBool true => "True"
  | JBool false => "False"
  | JInt z => pretty z
  | JStr s => s
  | _ => str_other v
  end.

(** [v.get(k, default)]: only a dict has the method. *)
Definition py_get (v : json) (k : string) (dflt : json) : result json :=
  match v with
  | JObj m => Ok (default dflt (m !! k))
  | _ => Raise AttributeError
  end.

(** The values a [for] loop over [v] binds.  A dict yields its keys and a
    string its characters (as one-element strings); the scalars are not
    iterable.  The loops of the program call [.get] on each value first,
    so a key or a character ends the loop at once, whatever it is: the
    order of the keys and the width of a character play no role. *)
Definition py_iter (v : json) : result (list json) :=
  match v with
  | JArr l => Ok l
  | JObj m => Ok (JStr <$> (map_to_list m).*1)
  | JStr s => Ok ((λ c, JStr (String c "")) <$> String.list_ascii_of_string s)
  | _ => Raise TypeError
  end.

(** [str.lower].  A string is the sequence of the bytes of its UTF-8
    encoding and only the ASCII letters are mapped: no other character
    lowers to one of the characters of [.md], the only text the program
    compares a lowered name with. *)
Definition lower_ascii (c : ascii) : ascii :=
  let n := nat_of_ascii c in
  if ((65 <=? n) && (n <=? 90))%nat then ascii_of_nat (n + 32) else c.

Fixpoint lower (s : string) : string :=
  match s with
  | "" => ""
  | String c s' => String (lower_ascii c) (lower s')
  end.

Fixpoint startswith (s p : string) {struct p} : bool :=
  match p with
  | "" => true
  | String a p' =>
      match s with
      | "" => false
      | String b s' => if decide (a = b) then startswith s' p' else false
      end
  end.

(** [s.endswith(suf)]: [s] is [suf], or its tail ends with [suf]. *)
Fixpoint endswith (s suf : string) : bool :=
  match s with
  | "" => bool_decide (suf = "")
  | String _ s' => bool_decide (s = suf) || endswith s' suf
  end.

(** The scan of [str.replace] for a non-empty [old]: left to right, the
    occurrences replaced do not overlap.  [skip] counts the characters of
    a matched occurrence still to be dropped. *)
Fixpoint replace_go (old new : string) (skip : nat) (s : string) : string :=
  match s with
  | "" => ""
  | String c s' =>
      match skip with
      | S k => replace_go old new k s'
      | O =>
          if startswith s old
          then new +:+ replace_go old new (String.length old - 1) s'
          else String c (replace_go old new 0 s')
      end
  end.

Fixpoint intersperse_after (new s : string) : string :=
  match s with
  | "" => ""
  | String c s' => String c (new +:+ intersperse_after new s')
  end.

(** [s.replace(old, new)]. *)
Definition str_replace (s old new : string) : string :=
  match old with
  | "" => new +:+ intersperse_after new s
  | _ => replace_go old new 0 s
  end.

(** [content.replace(old, new)] on a JSON value: only a string has the
    method. *)
Definition py_replace (v : json) (old new : string) : result string :=
  match v with
  | JStr s => Ok (str_replace s old new)
  | _ => Raise AttributeError
  end.

(** [os.path.join(a, b)] of [posixpath]. *)
Definition path_join (a b : string) : string :=
  if startswith b "/" then b
  else if bool_decide (a = "") || endswith a "/" then a +:+ b
  else a +:+ "/" +:+ b.

(** ** The outside world *)

Record file_obj := { f_name : string; f_content : string }.

Inductive body :=
  | NoBody
  | JsonBody (payload : json)
  | Multipart (files : gmap string file_obj).

Inductive http_method := GET | POST.

Record http_request := {
  rq_method : http_method;
  rq_url : string;
  rq_headers : gmap string string;
  rq_body : body
}.

(** A response: [json_body] is what [response.json()] returns, [None] when
    it raises because the body is not JSON. *)
Record http_response := {
  status_code : Z;
  text : string;
  json_body : option json
}.

Inductive event :=
  | EvPrint (line : string)
  | EvOpen (path : string)
  | EvClose (path : string)
  | EvRequest (rq : http_request).

(** What [os.scandir] finds under a directory.  [os.walk] does not descend
    into a symbolic link to a directory ([DirLink]). *)
Inductive fsnode :=
  | File
  | DirLink
  | Dir (entries : list (string * fsnode)).

Inductive open_outcome :=
  | Opened (content : string)
  | OpenFails (k : oserror).

(** The world as the program sees it: what [open(path, "rb")] does, the
    tree below a path when [os.path.isdir] holds of it, the outcome of a
    call of [requests.get] or [requests.post] given everything that
    happened before (the response it returns, or [None] when the call
    raises: no HTTP response arrives, or [requests] cannot encode the
    request), and the texts the encoding of the standard output can
    encode. *)
Record world := {
  fs_open : string → open_outcome;
  fs_dir : string → option (list (string * fsnode));
  server : list event → http_request → option http_response;
  stdout_encodes : string → bool
}.

(** ** The monad of the program's functions *)

Definition M (A : Type) : Type := list event → result A * list event.

#[global] Instance M_ret : MRet M := λ A a h, (Ok a, h).

#[global] Instance M_bind : MBind M := λ A B f m h,
  match m h with
  | (Ok a, h') => f a h'
  | (Raise e, h') => (Raise e, h')
  end.

Definition raise {A} (e : exn) : M A := λ h, (Raise e, h).

Definition lift {A} (r : result A) : M A := λ h, (r, h).

(** [print] can write a line when it is ASCII or the encoding of the
    standard output can encode it. *)
Definition printable (w : world) (line : string) : bool :=
  is_ascii line || stdout_encodes w line.

(** [print(line)]: the line is written, or the encoding of the standard
    output fails on it and nothing is written. *)
Definition print (w : world) (line : string) : M unit :=
  λ h,
    if printable w line then (Ok tt, h ++ [EvPrint line])
    else (Raise UnicodeEncodeError, h).

(** [for x in l: body x]. *)
Fixpoint for_each {A} (l : list A) (body : A → M unit) : M unit :=
  match l with
  | [] => mret tt
  | x :: l' => body x ;; for_each l' body
  end.

(** [with open(path, "rb") as file: k file]: the file is closed when the
    block is left, by an exception too. *)
Definition with_open {A} (w : world) (path : string) (k : file_obj → M A) : M A :=
  λ h,
    match fs_open w path with
    | OpenFails e => (Raise (OSError e), h ++ [EvOpen path])
    | Opened c =>
        let '(r, h') := k {| f_name := path; f_content := c |} (h ++ [EvOpen path]) in
        (r, h' ++ [EvClose path])
    end.

(** [requests.get] and [requests.post]: the call is made, and either
    returns a response or raises. *)
Definition send (w : world) (rq : http_request) : M http_response :=
  λ h,
    match server w h rq with
    | Some r => (Ok r, h ++ [EvRequest rq])
    | None => (Raise RequestException, h ++ [EvRequest rq])
    end.

Definition requests_get (w : world) (url : string) (headers : gmap string string)
    : M http_response :=
  send w {| rq_method := GET; rq_url := url; rq_headers := headers; rq_body := NoBody |}.

Definition requests_post (w : world) (url : string) (headers : gmap string string)
    (b : body) : M http_response :=
  send w {| rq_method := POST; rq_url := url; rq_headers := headers; rq_body := b |}.

(** [response.json()]. *)
Definition response_json (r : http_response) : M json :=
  match json_body r with
  | Some v => mret v
  | None => raise JSONDecodeError
  end.

(** ** Module start-up *)

(** The module globals [BASE_URL], [API_KEY] and [HEADERS]. *)
Record config := {
  BASE_URL : string;
  API_KEY : string;
  HEADERS : gmap string string
}.

(** [load_dotenv()]: the variables of the [.env] file are added to the
    environment, a variable already set keeps its value. *)
Definition load_dotenv (dotfile env : gmap string string) : gmap string string :=
  env ∪ dotfile.

Definition api_key_message : string :=
  "API key not found. Please set the OPEN_WEBUI_API_KEY environment variable or in .env file.".

Definition bearer (key : string) : string := "Bearer " +:+ key.

(** Lines 8 to 22: the environment is read once; [not API_KEY] holds of
    [None] and of the empty string. *)
Definition module_init (dotfile env : gmap string string) : result config :=
  let environ := load_dotenv dotfile env in
  let base_url := default "http://localhost:3000/api" (environ !! "BASE_URL") in
  match environ !! "OPEN_WEBUI_API_KEY" with
  | None => Raise (ValueError api_key_message)
  | Some key =>
      if bool_decide (key = "") then Raise (ValueError api_key_message)
      else Ok {| BASE_URL := base_url;
                 API_KEY := key;
                 HEADERS := {[ "Authorization" := bearer key;
                               "Content-Type" := "application/json" ]} |}
  end.

(** ** The operations *)

(** The namespace [parse_args] returns, one shape per subcommand. *)
Inductive namespace :=
  | NsUpload (file : string)
  | NsLoadDir (directory : string)
  | NsListKnowledge
  | NsListModels
  | NsAsk (question model : string) (knowledge : option (list string)).

Section Operations.
Context {lib : PyLib} (w : world) (cfg : config).

(** [upload_knowledge(file_path)], lines 24 to 35. *)
Definition upload_knowledge (file_path : string) : M unit :=
  let url := BASE_URL cfg +:+ "/v1/files/" in
  response ← with_open w file_path (λ file,
    let files : gmap string file_obj := {[ "file" := file ]} in
    requests_post w url {[ "Authorization" := bearer (API_KEY cfg) ]} (Multipart files));
  if decide (status_code response = 200) then
    print w "File uploaded successfully.";;
    data ← response_json response;
    print w (json_dumps_indent2 data)
  else
    print w ("Failed to upload file: " +:+ pretty (status_code response));;
    print w (text response).

(** The body of the loop of [list_knowledge], lines 45 to 49. *)
Definition print_document (doc : json) : M unit :=
  meta ← lift (py_get doc "meta" (JObj ∅));
  collection ← lift (py_get meta "collection_name" (JStr "N/A"));
  id ← lift (py_get doc "id" JNull);
  print w ("- ID: " +:+ py_str id);;
  filename ← lift (py_get doc "filename" JNull);
  print w ("  Filename: " +:+ py_str filename);;
  print w ("  Collection: " +:+ py_str collection);;
  print w "".

(** [list_knowledge()], lines 37 to 52. *)
Definition list_knowledge : M unit :=
  let url := BASE_URL cfg +:+ "/v1/files/" in
  response ← requests_get w url (HEADERS cfg);
  if decide (status_code response = 200) then
    data ← response_json response;
    print w "Knowledge documents:";;
    docs ← lift (py_iter data);
    for_each docs print_document
  else
    print w ("Failed to retrieve knowledge documents: " +:+ pretty (status_code response));;
    print w (text response).

(** The body of the loop of [list_models], line 62. *)
Definition print_model (model : json) : M unit :=
  name ← lift (py_get model "name" JNull);
  print w ("- " +:+ py_str name).

(** [list_models()], lines 54 to 65. *)
Definition list_models : M unit :=
  let url := BASE_URL cfg +:+ "/models" in
  response ← requests_get w url (HEADERS cfg);
  if decide (status_code response = 200) then
    data ← response_json response;
    print w "Available models:";;
    models ← lift (py_get data "data" (JArr []));
    models ← lift (py_iter models);
    for_each models print_model
  else
    print w ("Failed to retrieve models: " +:+ pretty (status_code response));;
    print w (text response).

(** The truth value of the argument [knowledge_ids]: [None] and the
    empty list are false. *)
Definition truthy (knowledge_ids : option (list string)) : bool :=
  match knowledge_ids with
  | None | Some [] => false
  | Some (_ :: _) => true
  end.

(** The JSON body of [ask_question], lines 70 to 75. *)
Definition ask_payload (question model : string)
    (knowledge_ids : option (list string)) : gmap string json :=
  let payload : gmap string json :=
    {[ "model" := JStr model;
       "messages" := JArr [JObj {[ "role" := JStr "user";
                                   "content" := JStr question ]}] ]} in
  if truthy knowledge_ids
  then <[ "knowledge_ids" := JArr (JStr <$> default [] knowledge_ids) ]> payload
  else payload.

(** The body of the loop of [ask_question], lines 81 to 85. *)
Definition print_choice (choice : json) : M unit :=
  message ← lift (py_get choice "message" (JObj ∅));
  content ← lift (py_get message "content" (JStr ""));
  formatted_content ← lift (py_replace content BSN NL);
  print w formatted_content;;
  print w "".

(** [ask_question(question, model, knowledge_ids)], lines 67 to 88. *)
Definition ask_question (question model : string)
    (knowledge_ids : option (list string)) : M unit :=
  let url := BASE_URL cfg +:+ "/chat/completions" in
  let payload := ask_payload question model knowledge_ids in
  response ← requests_post w url (HEADERS cfg) (JsonBody (JObj payload));
  if decide (status_code response = 200) then
    data ← response_json response;
    print w "Response:";;
    choices ← lift (py_get data "choices" (JArr []));
    choices ← lift (py_iter choices);
    for_each choices print_choice
  else
    print w ("Failed to get response: " +:+ pretty (status_code response));;
    print w (text response).

(** The names [os.walk] reports as [dirs] and as [files] of a
    directory, in the order of the scan. *)
Definition is_dir_entry (n : fsnode) : bool :=
  match n with
  | File => false
  | DirLink | Dir _ => true
  end.

Definition walk_dirs (entries : list (string * fsnode)) : list string :=
  (filter (λ e, is_dir_entry e.2 = true) entries).*1.

Definition walk_files (entries : list (string * fsnode)) : list string :=
  (filter (λ e, is_dir_entry e.2 = false) entries).*1.

(** [os.walk(top)], top-down: the triple of a directory, then the walks
    of its subdirectories in order.  Only a directory is walked. *)
Fixpoint walk_node (top : string) (n : fsnode)
    : list (string * list string * list string) :=
  match n with
  | File | DirLink => []
  | Dir entries =>
      (top, walk_dirs entries, walk_files entries) ::
      (fix subdirs (es : list (string * fsnode)) :=
         match es with
         | [] => []
         | (name, sub) :: es' => walk_node (path_join top name) sub ++ subdirs es'
         end) entries
  end.

Definition walk (top : string) (entries : list (string * fsnode))
    : list (string * list string * list string) :=
  walk_node top (Dir entries).

(** [file.lower().endswith('.md')]. *)
Definition is_md (file : string) : bool := endswith (lower file) ".md".

(** The list [md_files] built by lines 96 to 100. *)
Definition md_files (directory_path : string) (entries : list (string * fsnode))
    : list string :=
  '(root, _, files) ← walk directory_path entries;
  path_join root <$> filter (λ file, is_md file = true) files.

(** The loop of lines 108 to 110. *)
Definition upload_all (paths : list string) : M unit :=
  for_each paths (λ file_path,
    print w ("Uploading: " +:+ file_path);;
    upload_knowledge file_path).

(** [load_directory(directory_path)], lines 90 to 110. *)
Definition load_directory (directory_path : string) : M unit :=
  match fs_dir w directory_path with
  | None => print w ("Error: " +:+ directory_path +:+ " is not a valid directory")
  | Some entries =>
      let md := md_files directory_path entries in
      match md with
      | [] => print w ("No .md files found in " +:+ directory_path)
      | _ =>
          print w ("Found " +:+ pretty (length md) +:+ " .md files. Uploading...");;
          upload_all md
      end
  end.

(** The dispatch of [main], lines 138 to 147. *)
Definition dispatch (args : namespace) : M unit :=
  match args with
  | NsUpload file => upload_knowledge file
  | NsLoadDir directory => load_directory directory
  | NsListKnowledge => list_knowledge
  | NsListModels => list_models
  | NsAsk question model knowledge => ask_question question model knowledge
  end.
End Operations.

(** [main()]: [parsed] is the outcome of [parser.parse_args()], a
    namespace or the [SystemExit] of a usage error. *)
Definition main {lib : PyLib} (w : world) (cfg : config) (parsed : result namespace) : M unit :=
  args ← lift parsed;
  dispatch w cfg args.

(** A run of the script: the module body, then [main()]. *)
Definition program {lib : PyLib} (w : world) (dotfile env : gmap string string)
    (parsed : result namespace) : result unit * list event :=
  match module_init dotfile env with
  | Raise e => (Raise e, [])
  | Ok cfg => main w cfg parsed []
  end.

(** ** Reading a trace *)

Definition printed (h : list event) : list string :=
  omap (λ e, match e with EvPrint s => Some s | _ => None end) h.

Definition opened (h : list event) : list string :=
  omap (λ e, match e with EvOpen p => Some p | _ => None end) h.

Definition requests_sent (h : list event) : list http_request :=
  omap (λ e, match e with EvRequest rq => Some rq | _ => None end) h.

(** Whether [print] can write every line of a list of print events, and
    the events written before the first line it cannot. *)
Definition event_printable (w : world) (e : event) : bool :=
  match e with
  | EvPrint line => printable w line
  | _ => true
  end.

Definition lines_printable (w : world) (evs : list event) : bool :=
  forallb (event_printable w) evs.

Fixpoint printed_prefix (w : world) (evs : list event) : list event :=
  match evs with
  | [] => []
  | e :: evs' => if event_printable w e then e :: printed_prefix w evs' else []
  end.

(** A computation [m] leaves the projection [π] of the trace as it is. *)
Definition keeps {A B} (π : list event → list B) (m : M A) : Prop :=
  ∀ h, π (m h).2 = π h.

(** The requests of the operations. *)
Definition upload_request (cfg : config) (path content : string) : http_request :=
  {| rq_method := POST;
     rq_url := BASE_URL cfg +:+ "/v1/files/";
     rq_headers := {[ "Authorization" := bearer (API_KEY cfg) ]};
     rq_body := Multipart {[ "file" := {| f_name := path; f_content := content |} ]} |}.

Definition list_knowledge_request (cfg : config) : http_request :=
  {| rq_method := GET;
     rq_url := BASE_URL cfg +:+ "/v1/files/";
     rq_headers := HEADERS cfg;
     rq_body := NoBody |}.

Definition list_models_request (cfg : config) : http_request :=
  {| rq_method := GET;
     rq_url := BASE_URL cfg +:+ "/models";
     rq_headers := HEADERS cfg;
     rq_body := NoBody |}.

Definition ask_request (cfg : config) (question model : string)
    (knowledge_ids : option (list string)) : http_request :=
  {| rq_method := POST;
     rq_url := BASE_URL cfg +:+ "/chat/completions";
     rq_headers := HEADERS cfg;
     rq_body := JsonBody (JObj (ask_payload question model knowledge_ids)) |}.

(** ** The specification's side *)

(** The conversion of a chat answer in the specification's words: every
    two-character sequence backslash, [n] becomes one newline character,
    reading from the left. *)
Fixpoint unescape_newlines (s : string) : string :=
  match s with
  | "" => ""
  | String c s' =>
      match s' with
      | String d s'' =>
          if decide (c = "\"%char ∧ d = "n"%char)
          then String "010"%char (unescape_newlines s'')
          else String c (unescape_newlines s')
      | "" => String c ""
      end
  end.

Definition is_dict (v : json) : bool :=
  match v with
  | JObj _ => true
  | _ => false
  end.

(** The field chain [meta.collection_name] of a knowledge entry. *)
Definition collection_name_of (doc : gmap string json) : option json :=
  match doc !! "meta" with
  | Some (JObj meta) => meta !! "collection_name"
  | _ => None
  end.

(** An entry of a knowledge listing: a mapping whose ["meta"], when it has
    one, is a mapping. *)
Definition knowledge_entry (doc : json) : bool :=
  match doc with
  | JObj m => from_option is_dict true (m !! "meta")
  | _ => false
  end.

(** The lines a knowledge listing shows for an entry: identifier,
    filename, collection name (or the placeholder), and an empty line. *)
Definition document_lines {lib : PyLib} (doc : json) : list event :=
  match doc with
  | JObj m =>
      [ EvPrint ("- ID: " +:+ py_str (default JNull (m !! "id")));
        EvPrint ("  Filename: " +:+ py_str (default JNull (m !! "filename")));
        EvPrint ("  Collection: " +:+ from_option py_str "N/A" (collection_name_of m));
        EvPrint "" ]
  | _ => []
  end.

(** The message content of a choice of a chat response: a mapping whose
    ["message"] is a mapping with a string ["content"]; an absent message
    or content counts as the empty text. *)
Definition content_of (choice : json) : option string :=
  match choice with
  | JObj c =>
      match c !! "message" with
      | None => Some ""
      | Some (JObj m) =>
          match m !! "content" with
          | None => Some ""
          | Some (JStr s) => Some s
          | Some _ => None
          end
      | Some _ => None
      end
  | _ => None
  end.

(** The number of regular files below a directory whose name ends in
    [.md] whatever the case of its letters, at any depth. *)
Fixpoint md_count_node (n : fsnode) : nat :=
  match n with
  | File | DirLink => 0%nat
  | Dir entries =>
      (fix count (es : list (string * fsnode)) : nat :=
         match es with
         | [] => 0%nat
         | (name, sub) :: es' =>
             (match sub with
              | File => if is_md name then 1%nat else 0%nat
              | _ => md_count_node sub
              end + count es')%nat
         end) entries
  end.

Definition md_count (entries : list (string * fsnode)) : nat :=
  md_count_node (Dir entries).

(** The count of one entry of a directory. *)
Definition entry_count (e : string * fsnode) : nat :=
  match e.2 with
  | File => if is_md e.1 then 1%nat else 0%nat
  | _ => md_count_node e.2
  end.

(** The paths lines 98 to 100 collect from the triples of a walk, and the
    walks of the subdirectories of a directory. *)
Definition md_paths (triples : list (string * list string * list string)) : list string :=
  '(root, _, files) ← triples;
  path_join root <$> filter (λ file, is_md file = true) files.

Definition sub_walks (top : string) (entries : list (string * fsnode))
    : list (string * list string * list string) :=
  '(name, sub) ← entries; walk_node (path_join top name) sub.

(** The events of one upload that the server answers with a status other
    than 200. *)
Definition failed_upload_events (cfg : config) (path content : string)
    (r : http_response) : list event :=
  [ EvOpen path;
    EvRequest (upload_request cfg path content);
    EvClose path;
    EvPrint ("Failed to upload file: " +:+ pretty (status_code r));
    EvPrint (text r) ].

(** ** Concrete runs *)

(** A stand-in for the library functions, to run the operations. *)
Definition demo_lib : PyLib :=
  {| str_other := λ _, "<object>";
     json_dumps_indent2 := λ _, "<json>";
     json_dumps_ascii := λ _, eq_refl |}.

Definition demo_cfg : config :=
  {| BASE_URL := "http://localhost:3000/api";
     API_KEY := "sk-test";
     HEADERS := {[ "Authorization" := "Bearer sk-test";
                   "Content-Type" := "application/json" ]} |}.

(** A directory [docs] with two Markdown files, one of them in a
    subdirectory and with an upper-case extension. *)
Definition demo_tree : list (string * fsnode) :=
  [ ("a.md", File);
    ("b.txt", File);
    ("sub", Dir [ ("C.MD", File); ("d.md.bak", File) ]);
    ("link", DirLink) ].

(** A world whose files all open and whose server gives the same answer
    to every request. *)
Definition demo_world (r : http_response) : world :=
  {| fs_open := λ _, Opened "# notes";
     fs_dir := λ p, if bool_decide (p = "docs") then Some demo_tree else None;
     server := λ _ _, Some r;
     stdout_encodes := λ _, true |}.

(** The same, except that [docs/a.md] cannot be opened. *)
Definition unreadable_world (r : http_response) : world :=
  {| fs_open := λ p, if bool_decide (p = "docs/a.md") then OpenFails PermissionError
                     else Opened "# notes";
     fs_dir := λ p, if bool_decide (p = "docs") then Some demo_tree else None;
     server := λ _ _, Some r;
     stdout_encodes := λ _, true |}.

Definition resp_500 : http_response :=
  {| status_code := 500; text := "Internal Server Error"; json_body := None |}.

Definition resp_uploaded : http_response :=
  {| status_code := 200; text := "{}"; json_body := Some (JObj ∅) |}.

(** A chat answer whose content holds a backslash followed by [n]. *)
Definition resp_chat : http_response :=
  {| status_code := 200;
     text := "";
     json_body := Some (JObj {[ "choices" :=
       JArr [ JObj {[ "message" := JObj {[ "content" := JStr "line1\nline2" ]} ]} ] ]}) |}.

(** A knowledge listing: the first entry names its collection, the second
    has no ["meta"], the third a ["meta"] without collection name. *)
Definition resp_listing : http_response :=
  {| status_code := 200;
     text := "";
     json_body := Some (JArr
       [ JObj {[ "id" := JStr "f1"; "filename" := JStr "a.md";
                 "meta" := JObj {[ "collection_name" := JStr "notes" ]} ]};
         JObj {[ "id" := JStr "f2"; "filename" := JStr "b.md" ]};
         JObj {[ "id" := JStr "f3"; "filename" := JStr "c.md";
                 "meta" := JObj ∅ ]} ]) |}.

(** A knowledge listing whose second entry has a null ["meta"]. *)
Definition resp_listing_null_meta : http_response :=
  {| status_code := 200;
     text := "";
     json_body := Some (JArr
       [ JObj {[ "id" := JStr "f1"; "filename" := JStr "a.md" ]};
         JObj {[ "id" := JStr "f2"; "filename" := JStr "b.md"; "meta" := JNull ]};
         JObj {[ "id" := JStr "f3"; "filename" := JStr "c.md" ]} ]) |}.

(** ** More readings of a trace and of a response *)

Definition closed (h : list event) : list string :=
  omap (λ e, match e with EvClose p => Some p | _ => None end) h.

(** The content [open] gives for a path, if it opens. *)
Definition content_at (w : world) (path : string) : option string :=
  match fs_open w path with
  | Opened content => Some content
  | OpenFails _ => None
  end.

Definition is_str (v : json) : bool :=
  match v with
  | JStr _ => true
  | _ => false
  end.

(** The values that are neither iterable nor have a [.get]. *)
Definition is_scalar (v : json) : bool :=
  match v with
  | JNull | JBool _ | JInt _ | JFloat _ _ => true
  | _ => false
  end.

(** The line a model listing shows for a model. *)
Definition model_lines {lib : PyLib} (model : json) : list event :=
  match model with
  | JObj m => [ EvPrint ("- " +:+ py_str (default JNull (m !! "name"))) ]
  | _ => []
  end.

(** The lines of one upload in a directory load that the server answers
    with status 200 and the JSON value [data]. *)
Definition uploaded_lines {lib : PyLib} (data : json) (path : string) : list string :=
  [ "Uploading: " +:+ path;
    "File uploaded successfully.";
    json_dumps_indent2 data ].

(** The paths the program can ask of the server, below the base URL. *)
Definition endpoints : list string :=
  [ "/v1/files/"; "/models"; "/chat/completions" ].

(** A request of the program: authorized with the key of the
    configuration and addressed to one of the three endpoints. *)
Definition well_addressed (cfg : config) (rq : http_request) : Prop :=
  rq_headers rq !! "Authorization" = Some (bearer (API_KEY cfg)) ∧
  ∃ endpoint, endpoint ∈ endpoints ∧ rq_url rq = BASE_URL cfg +:+ endpoint.

(** No name of the tree starts with a slash (a name of a directory entry
    holds none). *)
Fixpoint relative_names (n : fsnode) : bool :=
  match n with
  | File | DirLink => true
  | Dir entries =>
      (fix all (es : list (string * fsnode)) : bool :=
         match es with
         | [] => true
         | (name, sub) :: es' =>
             negb (startswith name "/") && relative_names sub && all es'
         end) entries
  end.

(** ** More concrete runs *)

(** A world with the tree [tree] at [docs] whose server does not answer. *)
Definition offline_world (tree : list (string * fsnode)) : world :=
  {| fs_open := λ _, Opened "# notes";
     fs_dir := λ p, if bool_decide (p = "docs") then Some tree else None;
     server := λ _ _, None;
     stdout_encodes := λ _, true |}.

(** A directory without Markdown files. *)
Definition plain_tree : list (string * fsnode) :=
  [ ("b.txt", File); ("notes.md", Dir [ ("c.markdown", File) ]); ("md", File) ].

Definition resp_not_json : http_response :=
  {| status_code := 200; text := "<html>"; json_body := None |}.

(** A model listing: the second model has no name. *)
Definition resp_models : http_response :=
  {| status_code := 200;
     text := "";
     json_body := Some (JObj {[ "data" :=
       JArr [ JObj {[ "id" := JStr "m1"; "name" := JStr "llama3" ]};
              JObj {[ "id" := JStr "m2" ]} ] ]}) |}.

(** A JSON body that is a list where a mapping is expected. *)
Definition resp_list_body : http_response :=
  {| status_code := 200; text := "[]"; json_body := Some (JArr []) |}.

Definition resp_null_body : http_response :=
  {| status_code := 200; text := "null"; json_body := Some JNull |}.

(** A chat answer whose second choice has a null content. *)
Definition resp_chat_null_content : http_response :=
  {| status_code := 200;
     text := "";
     json_body := Some (JObj {[ "choices" :=
       JArr [ JObj {[ "message" := JObj {[ "content" := JStr "first" ]} ]};
              JObj {[ "message" := JObj {[ "content" := JNull ]} ]};
              JObj {[ "message" := JObj {[ "content" := JStr "third" ]} ]} ] ]}) |}.

(** A knowledge listing wrapped in a mapping. *)
Definition resp_wrapped_listing : http_response :=
  {| status_code := 200;
     text := "";
     json_body := Some (JObj {[ "files" := JArr [] ]}) |}.

(** ** Names of directory entries *)

Fixpoint has_slash (s : string) : bool :=
  match s with
  | "" => false
  | String c s' => bool_decide (c = "/"%char) || has_slash s'
  end.

(** A name as a directory scan reports it: not empty, without slash. *)
Definition proper_name (name : string) : bool :=
  negb (bool_decide (name = "")) && negb (has_slash name).

(** A tree as a file system holds it: proper names, no name twice in a
    directory. *)
Fixpoint proper_names (n : fsnode) : bool :=
  match n with
  | File | DirLink => true
  | Dir entries =>
      bool_decide (NoDup entries.*1) &&
      (fix all (es : list (string * fsnode)) : bool :=
         match es with
         | [] => true
         | (name, sub) :: es' => proper_name name && proper_names sub && all es'
         end) entries
  end.

(** What [os.path.join] puts before a relative name. *)
Definition join_prefix (top : string) : string :=
  if bool_decide (top = "") || endswith top "/" then top else top +:+ "/".

(** ** Runs on a standard output that encodes ASCII only *)

(** The letter e with an acute accent in Latin-1, a character beyond
    ASCII. *)
Definition e_acute : string := String "233"%char "".

(** The world [demo_world] with a standard output of encoding ASCII. *)
Definition ascii_world (r : http_response) : world :=
  {| fs_open := λ _, Opened "# notes";
     fs_dir := λ p, if bool_decide (p = "docs") then Some demo_tree else None;
     server := λ _ _, Some r;
     stdout_encodes := λ _, false |}.

(** A failure whose body is not ASCII. *)
Definition resp_403_accent : http_response :=
  {| status_code := 403;
     text := "Acc" +:+ e_acute +:+ "s refus" +:+ e_acute;
     json_body := None |}.

(** A model listing whose first model has a name that is not ASCII. *)
Definition resp_models_accent : http_response :=
  {| status_code := 200;
     text := "";
     json_body := Some (JObj {[ "data" :=
       JArr [ JObj {[ "name" := JStr ("mod" +:+ e_acute +:+ "le") ]};
              JObj {[ "name" := JStr "llama3" ]} ] ]}) |}.

(** A server that answers the n-th upload with a body of its own. *)
Definition counting_world : world :=
  {| fs_open := λ _, Opened "# notes";
     fs_dir := λ p, if bool_decide (p = "docs") then Some demo_tree else None;
     server := λ h _, Some {| status_code := 200;
                              text := "";
                              json_body := Some (JInt (Z.of_nat (length h))) |};
     stdout_encodes := λ _, true |}.

(** * Properties *)

(** ** The monad *)

Lemma bind_ok {A B} (m : M A) (f : A → M B) h a h' :
  m h = (Ok a, h') → (m ≫= f) h = f a h'.
Proof. intros E. unfold mbind, M_bind. by rewrite E. Qed.

Lemma bind_raise {A B} (m : M A) (f : A → M B) h e h' :
  m h = (Raise e, h') → (m ≫= f) h = (Raise e, h').
Proof. intros E. unfold mbind, M_bind. by rewrite E. Qed.

Lemma for_each_app {A} (l1 l2 : list A) (body : A → M unit) h h1 :
  for_each l1 body h = (Ok tt, h1) →
  for_each (l1 ++ l2) body h = for_each l2 body h1.
Proof.
  revert h. induction l1 as [|x l1 IH]; intros h E; simpl in *.
  - by injection E as ->.
  - unfold mbind, M_bind in *. destruct (body x h) as [[[]|e] h2]; [auto|done].
Qed.

Lemma for_each_app_raise {A} (l1 l2 : list A) (body : A → M unit) h e h1 :
  for_each l1 body h = (Raise e, h1) →
  for_each (l1 ++ l2) body h = (Raise e, h1).
Proof.
  revert h. induction l1 as [|x l1 IH]; intros h E; simpl in *; [done|].
  unfold mbind, M_bind in *. destruct (body x h) as [[[]|e'] h2]; [auto|done].
Qed.

Section Keeps.
Context {B : Type} (π : list event → list B).

Lemma keeps_ret {A} (a : A) : keeps π (mret a : M A).
Proof. by intros h. Qed.

Lemma keeps_raise {A} e : keeps π (raise e : M A).
Proof. by intros h. Qed.

Lemma keeps_lift {A} (r : result A) : keeps π (lift r).
Proof. by intros h. Qed.

Lemma keeps_bind {A C} (m : M A) (f : A → M C) :
  keeps π m → (∀ a, keeps π (f a)) → keeps π (m ≫= f).
Proof.
  intros Hm Hf h. unfold mbind, M_bind. specialize (Hm h).
  destruct (m h) as [[a|e] h1]; simpl in *; [|done].
  by rewrite Hf.
Qed.

Lemma keeps_for_each {A} (l : list A) (body : A → M unit) :
  (∀ x, keeps π (body x)) → keeps π (for_each l body).
Proof.
  intros Hb. induction l as [|x l IH]; simpl.
  - apply keeps_ret.
  - apply keeps_bind; auto.
Qed.

Lemma keeps_response_json r : keeps π (response_json r).
Proof. unfold response_json. destruct (json_body r); by intros h. Qed.
End Keeps.

Lemma requests_sent_app h1 h2 :
  requests_sent (h1 ++ h2) = requests_sent h1 ++ requests_sent h2.
Proof. apply omap_app. Qed.

Lemma opened_app h1 h2 : opened (h1 ++ h2) = opened h1 ++ opened h2.
Proof. apply omap_app. Qed.

(** ** Printing *)

Lemma print_ok w line h :
  printable w line = true → print w line h = (Ok tt, h ++ [EvPrint line]).
Proof. intros E. unfold print. by rewrite E. Qed.

Lemma print_fail w line h :
  printable w line = false → print w line h = (Raise UnicodeEncodeError, h).
Proof. intros E. unfold print. by rewrite E. Qed.

Lemma printable_ascii w line : is_ascii line = true → printable w line = true.
Proof. intros E. unfold printable. by rewrite E. Qed.

Lemma is_ascii_app a b : is_ascii (a +:+ b) = is_ascii a && is_ascii b.
Proof.
  induction a as [|c a IH]; [done|].
  change (is_ascii (String c a +:+ b)) with (is_ascii_char c && is_ascii (a +:+ b)).
  simpl. by rewrite IH, andb_assoc.
Qed.

Lemma is_ascii_pretty_N_char x : is_ascii_char (pretty_N_char x) = true.
Proof.
  destruct x as [|p]; [done|].
  repeat (destruct p as [p|p|]; try done).
Qed.

Lemma is_ascii_pretty_N_go x s :
  is_ascii s = true → is_ascii (pretty_N_go x s) = true.
Proof.
  revert s. induction (N.lt_wf_0 x) as [x _ IH]; intros s Hs.
  destruct (decide (x = 0)%N) as [->|Hx].
  - by rewrite pretty_N_go_0.
  - rewrite pretty_N_go_step by lia. apply IH.
    + apply N.div_lt; lia.
    + simpl. by rewrite is_ascii_pretty_N_char.
Qed.

Lemma is_ascii_pretty_N (x : N) : is_ascii (pretty x) = true.
Proof.
  unfold pretty, pretty_N. destruct (decide _); [done|].
  by apply is_ascii_pretty_N_go.
Qed.

(** The decimal writing of a count or of a status code is ASCII. *)
Lemma is_ascii_pretty_nat (n : nat) : is_ascii (pretty n) = true.
Proof. apply is_ascii_pretty_N. Qed.

Lemma is_ascii_pretty_Z (z : Z) : is_ascii (pretty z) = true.
Proof.
  destruct z as [|p|p]; [done|apply (is_ascii_pretty_N (Npos p))|].
  change (pretty (Zneg p)) with ("-" +:+ pretty (Npos p)).
  by rewrite is_ascii_app, is_ascii_pretty_N.
Qed.

Lemma printable_status w label (z : Z) :
  is_ascii label = true → printable w (label +:+ pretty z) = true.
Proof.
  intros Hl. apply printable_ascii. by rewrite is_ascii_app, Hl, is_ascii_pretty_Z.
Qed.

Lemma printable_found w (n : nat) :
  printable w ("Found " +:+ pretty n +:+ " .md files. Uploading...") = true.
Proof.
  apply printable_ascii. by rewrite !is_ascii_app, is_ascii_pretty_nat.
Qed.

Lemma bind_print_ok {B} w line (f : unit → M B) h :
  printable w line = true →
  (print w line ≫= f) h = f tt (h ++ [EvPrint line]).
Proof. intros E. apply bind_ok. by apply print_ok. Qed.

Lemma bind_print_fail {B} w line (f : unit → M B) h :
  printable w line = false →
  (print w line ≫= f) h = (Raise UnicodeEncodeError, h).
Proof. intros E. apply bind_raise. by apply print_fail. Qed.

(** A printed line is the only event [print] adds. *)
Lemma print_keeps {B} (π : list event → list B) w line :
  (∀ h l, π (h ++ [EvPrint l]) = π h) → keeps π (print w line).
Proof.
  intros Hπ h. unfold print. destruct (printable w line); simpl; [apply Hπ|done].
Qed.

Lemma keeps_requests_print w line : keeps requests_sent (print w line).
Proof.
  apply print_keeps. intros h l. rewrite requests_sent_app. simpl. apply app_nil_r.
Qed.

Lemma keeps_opened_print w line : keeps opened (print w line).
Proof.
  apply print_keeps. intros h l. rewrite opened_app. simpl. apply app_nil_r.
Qed.

(** ** Runs of prints *)

Lemma lines_printable_app w evs1 evs2 :
  lines_printable w (evs1 ++ evs2) = lines_printable w evs1 && lines_printable w evs2.
Proof. apply forallb_app. Qed.

Lemma printed_prefix_app w evs1 evs2 :
  printed_prefix w (evs1 ++ evs2)
  = if lines_printable w evs1 then evs1 ++ printed_prefix w evs2
    else printed_prefix w evs1.
Proof.
  induction evs1 as [|e evs1 IH]; [done|]. simpl.
  destruct (event_printable w e); [|done]. simpl. rewrite IH.
  by destruct (lines_printable w evs1).
Qed.

Lemma printed_prefix_all w evs :
  lines_printable w evs = true → printed_prefix w evs = evs.
Proof.
  induction evs as [|e evs IH]; [done|]. simpl.
  intros [-> Hall]%andb_prop. by rewrite IH.
Qed.

Lemma printed_prefix_prefix w evs : printed_prefix w evs `prefix_of` evs.
Proof.
  induction evs as [|e evs IH]; [done|]. simpl.
  destruct (event_printable w e); [by apply prefix_cons|apply prefix_nil].
Qed.

(** One more print before a run of prints. *)
Lemma prints_cons w line (k : M unit) evs h :
  (∀ h', k h' = (if lines_printable w evs then Ok tt else Raise UnicodeEncodeError,
                 h' ++ printed_prefix w evs)) →
  (print w line;; k) h
  = (if lines_printable w (EvPrint line :: evs) then Ok tt else Raise UnicodeEncodeError,
     h ++ printed_prefix w (EvPrint line :: evs)).
Proof.
  intros Hk. simpl. destruct (printable w line) eqn:Hp.
  - rewrite bind_print_ok, Hk by done. simpl. by rewrite <- app_assoc.
  - rewrite bind_print_fail by done. simpl. by rewrite app_nil_r.
Qed.

Lemma prints_one w line h :
  print w line h
  = (if lines_printable w [EvPrint line] then Ok tt else Raise UnicodeEncodeError,
     h ++ printed_prefix w [EvPrint line]).
Proof.
  simpl. unfold print. destruct (printable w line); simpl; [done|].
  by rewrite app_nil_r.
Qed.

(** A loop whose body prints the lines of each item runs until the first
    line that cannot be printed. *)
Lemma for_each_prints {A} w (l : list A) (body : A → M unit)
    (lines : A → list event) h :
  (∀ x h', x ∈ l →
     body x h' = (if lines_printable w (lines x) then Ok tt else Raise UnicodeEncodeError,
                  h' ++ printed_prefix w (lines x))) →
  for_each l body h
  = (if lines_printable w (l ≫= lines) then Ok tt else Raise UnicodeEncodeError,
     h ++ printed_prefix w (l ≫= lines)).
Proof.
  revert h. induction l as [|x l IH]; intros h Hbody.
  - csimpl. rewrite app_nil_r. reflexivity.
  - change ((x :: l) ≫= lines) with (lines x ++ (l ≫= lines)).
    rewrite lines_printable_app, printed_prefix_app. simpl.
    unfold mbind at 1, M_bind. rewrite (Hbody x h) by left.
    destruct (lines_printable w (lines x)) eqn:Hx; [|done]. simpl.
    rewrite IH by (intros; apply Hbody; by right).
    by rewrite (printed_prefix_all w (lines x)), <- app_assoc.
Qed.

Create HintDb keeps.

#[local] Hint Resolve keeps_ret keeps_raise keeps_lift keeps_response_json
  keeps_requests_print keeps_opened_print : keeps.

Ltac keeps_tac :=
  repeat first
    [ progress intros
    | apply keeps_for_each
    | apply keeps_bind
    | solve [auto with keeps] ].

(** ** One request per operation *)

Section Requests.
Context {lib : PyLib} (w : world) (cfg : config).

Lemma send_requests rq h :
  requests_sent (send w rq h).2 = requests_sent h ++ [rq].
Proof.
  unfold send. destruct (server w h rq); simpl;
    by rewrite requests_sent_app.
Qed.

Lemma after_send_requests {A} rq (k : http_response → M A) h :
  (∀ r, keeps requests_sent (k r)) →
  requests_sent ((send w rq ≫= k) h).2 = requests_sent h ++ [rq].
Proof.
  intros Hk. unfold mbind, M_bind.
  pose proof (send_requests rq h) as Hs.
  destruct (send w rq h) as [[r|e] h1]; simpl in *; [|done].
  by rewrite Hk.
Qed.

Lemma ask_question_requests question model knowledge_ids h :
  requests_sent (ask_question w cfg question model knowledge_ids h).2
  = requests_sent h ++ [ask_request cfg question model knowledge_ids].
Proof.
  unfold ask_question, requests_post. apply after_send_requests.
  intros r. destruct (decide _); keeps_tac.
Qed.
End Requests.

(** ** The body of a question *)

Lemma ask_payload_model question model knowledge_ids :
  ask_payload question model knowledge_ids !! "model" = Some (JStr model).
Proof.
  unfold ask_payload. destruct (truthy knowledge_ids).
  - rewrite lookup_insert_ne by done. by rewrite lookup_insert_eq.
  - by rewrite lookup_insert_eq.
Qed.

Lemma ask_payload_messages question model knowledge_ids :
  ask_payload question model knowledge_ids !! "messages"
  = Some (JArr [JObj {[ "role" := JStr "user"; "content" := JStr question ]}]).
Proof.
  unfold ask_payload. destruct (truthy knowledge_ids).
  - rewrite !lookup_insert_ne by done. by rewrite lookup_singleton_eq.
  - rewrite lookup_insert_ne by done. by rewrite lookup_singleton_eq.
Qed.

Lemma ask_payload_no_knowledge question model knowledge_ids :
  truthy knowledge_ids = false →
  ask_payload question model knowledge_ids !! "knowledge_ids" = None.
Proof.
  intros E. unfold ask_payload. rewrite E.
  rewrite lookup_insert_ne by done. by rewrite lookup_singleton_ne.
Qed.

(** C1, amended.  Every call [ask_question(question, model, knowledge_ids)]
    sends one request, whose JSON body maps ["model"] to the model and
    ["messages"] to a list of exactly one message, a mapping whose
    ["content"] is the question.  The body maps ["knowledge_ids"] to the
    supplied list verbatim when the caller supplied a non-empty list, and
    has no key ["knowledge_ids"] when the caller supplied none or
    supplied the empty list. *)
Theorem ask_question_body (w : world) (cfg : config)
    (question model : string) (knowledge_ids : option (list string)) (h : list event) :
  ∃ payload : gmap string json,
    requests_sent (ask_question w cfg question model knowledge_ids h).2
    = requests_sent h ++
        [ {| rq_method := POST;
             rq_url := BASE_URL cfg +:+ "/chat/completions";
             rq_headers := HEADERS cfg;
             rq_body := JsonBody (JObj payload) |} ] ∧
    payload !! "model" = Some (JStr model) ∧
    (∃ message : gmap string json,
       payload !! "messages" = Some (JArr [JObj message]) ∧
       message !! "content" = Some (JStr question)) ∧
    match knowledge_ids with
    | Some (id :: ids) =>
        payload !! "knowledge_ids" = Some (JArr (JStr <$> id :: ids))
    | Some [] | None => payload !! "knowledge_ids" = None
    end.
Proof.
  exists (ask_payload question model knowledge_ids). split_and!.
  - apply ask_question_requests.
  - apply ask_payload_model.
  - eexists. split; [apply ask_payload_messages|].
    rewrite lookup_insert_ne by done. by rewrite lookup_singleton_eq.
  - destruct knowledge_ids as [[|id ids]|];
      [by apply ask_payload_no_knowledge| |by apply ask_payload_no_knowledge].
    unfold ask_payload. simpl. by rewrite lookup_insert_eq.
Qed.

(** C1 as stated fails: called with the empty list, [ask_question] does
    not send ["knowledge_ids"] as an empty list, the guard
    [if knowledge_ids:] leaves the key out. *)
Lemma ask_question_empty_list_not_sent :
  ¬ ∃ (rq : http_request) (payload : gmap string json),
      requests_sent
        (ask_question (demo_world resp_chat) demo_cfg
           "What is in my notes?" "llama3" (Some []) []).2 = [rq] ∧
      rq_body rq = JsonBody (JObj payload) ∧
      payload !! "knowledge_ids" = Some (JArr []).
Proof.
  intros (rq & payload & Hrq & Hbody & Hk).
  rewrite ask_question_requests in Hrq. simpl in Hrq.
  injection Hrq as <-. simpl in Hbody. injection Hbody as <-.
  by rewrite ask_payload_no_knowledge in Hk.
Qed.

(** ** Uploading a file *)

Lemma upload_knowledge_requests {lib : PyLib} w cfg path content h :
  fs_open w path = Opened content →
  requests_sent (upload_knowledge w cfg path h).2
  = requests_sent h ++ [upload_request cfg path content].
Proof.
  intros Ho. unfold upload_knowledge.
  set (k := λ response : http_response, if decide (status_code response = 200)
    then _ else _).
  assert (Hk : ∀ r, keeps requests_sent (k r)).
  { intros r. unfold k. destruct (decide _); keeps_tac. }
  unfold mbind at 1, M_bind, with_open, requests_post. rewrite Ho.
  fold (upload_request cfg path content).
  pose proof (send_requests w (upload_request cfg path content) (h ++ [EvOpen path])) as Hs.
  rewrite requests_sent_app in Hs. simpl in Hs. rewrite app_nil_r in Hs.
  destruct (send w _ _) as [[r|e] h1]; simpl in *.
  - rewrite Hk, requests_sent_app. simpl. by rewrite app_nil_r.
  - rewrite requests_sent_app. simpl. by rewrite app_nil_r.
Qed.

(** C7.  For every file path that can be opened, [upload_knowledge]
    issues exactly one request: a multipart POST of the file to the
    file-upload endpoint, whose only header is the bearer-token
    [Authorization] header; it carries no [Content-Type] header. *)
Theorem upload_sends_one_multipart_post {lib : PyLib} (w : world) (cfg : config)
    (path content : string) (h : list event) :
  fs_open w path = Opened content →
  ∃ rq : http_request,
    requests_sent (upload_knowledge w cfg path h).2 = requests_sent h ++ [rq] ∧
    rq_method rq = POST ∧
    rq_url rq = BASE_URL cfg +:+ "/v1/files/" ∧
    rq_body rq = Multipart {[ "file" := {| f_name := path; f_content := content |} ]} ∧
    rq_headers rq = {[ "Authorization" := "Bearer " +:+ API_KEY cfg ]} ∧
    rq_headers rq !! "Authorization" = Some ("Bearer " +:+ API_KEY cfg) ∧
    rq_headers rq !! "Content-Type" = None.
Proof.
  intros Ho. exists (upload_request cfg path content). split_and!; try done.
  by apply upload_knowledge_requests.
Qed.

Lemma upload_sends_one_multipart_post_witness :
  fs_open (demo_world resp_uploaded) "docs/a.md" = Opened "# notes" ∧
  ∃ rq : http_request,
    requests_sent
      (upload_knowledge (lib := demo_lib) (demo_world resp_uploaded) demo_cfg "docs/a.md" []).2
    = [] ++ [rq] ∧
    rq_method rq = POST ∧
    rq_url rq = "http://localhost:3000/api" +:+ "/v1/files/" ∧
    rq_body rq = Multipart {[ "file" := {| f_name := "docs/a.md"; f_content := "# notes" |} ]} ∧
    rq_headers rq = {[ "Authorization" := "Bearer " +:+ "sk-test" ]} ∧
    rq_headers rq !! "Authorization" = Some ("Bearer " +:+ "sk-test") ∧
    rq_headers rq !! "Content-Type" = None.
Proof.
  split; [reflexivity|].
  apply (upload_sends_one_multipart_post (lib := demo_lib)
           (demo_world resp_uploaded) demo_cfg "docs/a.md" "# notes" []).
  reflexivity.
Defined.

(** ** A status other than 200 *)

Section Failure.
Context {lib : PyLib} (w : world) (cfg : config) (r : http_response).
Hypothesis not_200 : status_code r ≠ 200.

(** The two prints of a failure branch: the status line is ASCII, the
    body is written if the standard output can encode it. *)
Lemma failure_report label h :
  is_ascii label = true →
  (print w (label +:+ pretty (status_code r));; print w (text r)) h
  = if printable w (text r)
    then (Ok tt, h ++ [EvPrint (label +:+ pretty (status_code r)); EvPrint (text r)])
    else (Raise UnicodeEncodeError, h ++ [EvPrint (label +:+ pretty (status_code r))]).
Proof.
  intros Hl. rewrite bind_print_ok by (by apply printable_status).
  unfold print. destruct (printable w (text r)); [|done].
  by rewrite <- app_assoc.
Qed.

Lemma upload_knowledge_failure path content h :
  fs_open w path = Opened content →
  server w (h ++ [EvOpen path]) (upload_request cfg path content) = Some r →
  upload_knowledge w cfg path h
  = if printable w (text r)
    then (Ok tt, h ++ failed_upload_events cfg path content r)
    else (Raise UnicodeEncodeError,
          h ++ [ EvOpen path;
                 EvRequest (upload_request cfg path content);
                 EvClose path;
                 EvPrint ("Failed to upload file: " +:+ pretty (status_code r)) ]).
Proof.
  intros Ho Hs. unfold upload_knowledge.
  unfold mbind at 1, M_bind, with_open, requests_post, send. rewrite Ho.
  fold (upload_request cfg path content). rewrite Hs.
  destruct (decide _) as [|_]; [done|].
  rewrite failure_report by done. unfold failed_upload_events.
  destruct (printable w (text r)); by rewrite <- !app_assoc.
Qed.

Lemma list_knowledge_failure h :
  server w h (list_knowledge_request cfg) = Some r →
  list_knowledge w cfg h
  = if printable w (text r)
    then (Ok tt, h ++ [ EvRequest (list_knowledge_request cfg);
                        EvPrint ("Failed to retrieve knowledge documents: "
                                 +:+ pretty (status_code r));
                        EvPrint (text r) ])
    else (Raise UnicodeEncodeError,
          h ++ [ EvRequest (list_knowledge_request cfg);
                 EvPrint ("Failed to retrieve knowledge documents: "
                          +:+ pretty (status_code r)) ]).
Proof.
  intros Hs. unfold list_knowledge, requests_get.
  fold (list_knowledge_request cfg).
  unfold mbind at 1, M_bind, send. rewrite Hs.
  destruct (decide _) as [|_]; [done|].
  rewrite failure_report by done.
  destruct (printable w (text r)); by rewrite <- !app_assoc.
Qed.

Lemma list_models_failure h :
  server w h (list_models_request cfg) = Some r →
  list_models w cfg h
  = if printable w (text r)
    then (Ok tt, h ++ [ EvRequest (list_models_request cfg);
                        EvPrint ("Failed to retrieve models: " +:+ pretty (status_code r));
                        EvPrint (text r) ])
    else (Raise UnicodeEncodeError,
          h ++ [ EvRequest (list_models_request cfg);
                 EvPrint ("Failed to retrieve models: " +:+ pretty (status_code r)) ]).
Proof.
  intros Hs. unfold list_models, requests_get.
  fold (list_models_request cfg).
  unfold mbind at 1, M_bind, send. rewrite Hs.
  destruct (decide _) as [|_]; [done|].
  rewrite failure_report by done.
  destruct (printable w (text r)); by rewrite <- !app_assoc.
Qed.

Lemma ask_question_failure question model knowledge_ids h :
  server w h (ask_request cfg question model knowledge_ids) = Some r →
  ask_question w cfg question model knowledge_ids h
  = if printable w (text r)
    then (Ok tt, h ++ [ EvRequest (ask_request cfg question model knowledge_ids);
                        EvPrint ("Failed to get response: " +:+ pretty (status_code r));
                        EvPrint (text r) ])
    else (Raise UnicodeEncodeError,
          h ++ [ EvRequest (ask_request cfg question model knowledge_ids);
                 EvPrint ("Failed to get response: " +:+ pretty (status_code r)) ]).
Proof.
  intros Hs. unfold ask_question, requests_post.
  fold (ask_request cfg question model knowledge_ids).
  unfold mbind at 1, M_bind, send. rewrite Hs.
  destruct (decide _) as [|_]; [done|].
  rewrite failure_report by done.
  destruct (printable w (text r)); by rewrite <- !app_assoc.
Qed.
End Failure.

(** C2, amended.  Whenever the call of an operation ([upload_knowledge]
    of a file that opens, [list_knowledge], [list_models],
    [ask_question]) returns a response whose status code is not 200, the
    operation prints a line with the status code after the request.
    When the standard output can encode the raw text of the response, it
    then prints that text and returns normally; when it cannot, [print]
    raises [UnicodeEncodeError] after the status line and the operation
    does not catch it. *)
Theorem non_200_is_printed_not_raised {lib : PyLib} (w : world) (cfg : config)
    (r : http_response) (h : list event) :
  status_code r ≠ 200 →
  (∀ path content,
     fs_open w path = Opened content →
     server w (h ++ [EvOpen path]) (upload_request cfg path content) = Some r →
     upload_knowledge w cfg path h
     = if printable w (text r)
       then (Ok tt, h ++ [ EvOpen path;
                           EvRequest (upload_request cfg path content);
                           EvClose path;
                           EvPrint ("Failed to upload file: " +:+ pretty (status_code r));
                           EvPrint (text r) ])
       else (Raise UnicodeEncodeError,
             h ++ [ EvOpen path;
                    EvRequest (upload_request cfg path content);
                    EvClose path;
                    EvPrint ("Failed to upload file: " +:+ pretty (status_code r)) ])) ∧
  (server w h (list_knowledge_request cfg) = Some r →
     list_knowledge w cfg h
     = if printable w (text r)
       then (Ok tt, h ++ [ EvRequest (list_knowledge_request cfg);
                           EvPrint ("Failed to retrieve knowledge documents: "
                                    +:+ pretty (status_code r));
                           EvPrint (text r) ])
       else (Raise UnicodeEncodeError,
             h ++ [ EvRequest (list_knowledge_request cfg);
                    EvPrint ("Failed to retrieve knowledge documents: "
                             +:+ pretty (status_code r)) ])) ∧
  (server w h (list_models_request cfg) = Some r →
     list_models w cfg h
     = if printable w (text r)
       then (Ok tt, h ++ [ EvRequest (list_models_request cfg);
                           EvPrint ("Failed to retrieve models: "
                                    +:+ pretty (status_code r));
                           EvPrint (text r) ])
       else (Raise UnicodeEncodeError,
             h ++ [ EvRequest (list_models_request cfg);
                    EvPrint ("Failed to retrieve models: "
                             +:+ pretty (status_code r)) ])) ∧
  (∀ question model knowledge_ids,
     server w h (ask_request cfg question model knowledge_ids) = Some r →
     ask_question w cfg question model knowledge_ids h
     = if printable w (text r)
       then (Ok tt, h ++ [ EvRequest (ask_request cfg question model knowledge_ids);
                           EvPrint ("Failed to get response: "
                                    +:+ pretty (status_code r));
                           EvPrint (text r) ])
       else (Raise UnicodeEncodeError,
             h ++ [ EvRequest (ask_request cfg question model knowledge_ids);
                    EvPrint ("Failed to get response: "
                             +:+ pretty (status_code r)) ])).
Proof.
  intros Hr. split_and!.
  - intros path content. by apply upload_knowledge_failure.
  - by apply list_knowledge_failure.
  - by apply list_models_failure.
  - intros question model knowledge_ids. by apply ask_question_failure.
Qed.

Lemma non_200_is_printed_not_raised_witness :
  status_code resp_500 ≠ 200 ∧
  upload_knowledge (lib := demo_lib) (demo_world resp_500) demo_cfg "docs/a.md" []
  = (Ok tt, [ EvOpen "docs/a.md";
              EvRequest (upload_request demo_cfg "docs/a.md" "# notes");
              EvClose "docs/a.md";
              EvPrint "Failed to upload file: 500";
              EvPrint "Internal Server Error" ]) ∧
  list_knowledge (lib := demo_lib) (demo_world resp_500) demo_cfg []
  = (Ok tt, [ EvRequest (list_knowledge_request demo_cfg);
              EvPrint "Failed to retrieve knowledge documents: 500";
              EvPrint "Internal Server Error" ]) ∧
  list_models (lib := demo_lib) (demo_world resp_500) demo_cfg []
  = (Ok tt, [ EvRequest (list_models_request demo_cfg);
              EvPrint "Failed to retrieve models: 500";
              EvPrint "Internal Server Error" ]) ∧
  ask_question (demo_world resp_500) demo_cfg "What is in my notes?" "llama3" None []
  = (Ok tt, [ EvRequest (ask_request demo_cfg "What is in my notes?" "llama3" None);
              EvPrint "Failed to get response: 500";
              EvPrint "Internal Server Error" ]).
Proof.
  assert (Hr : status_code resp_500 ≠ 200) by (simpl; lia).
  destruct (non_200_is_printed_not_raised (lib := demo_lib)
              (demo_world resp_500) demo_cfg resp_500 [] Hr)
    as (Hup & Hlk & Hlm & Hask).
  split; [exact Hr|]. split_and!.
  - apply (Hup "docs/a.md" "# notes"); reflexivity.
  - apply Hlk; reflexivity.
  - apply Hlm; reflexivity.
  - apply (Hask "What is in my notes?" "llama3" None); reflexivity.
Defined.

(** C2 as stated fails: on a standard output of encoding ASCII, a failure
    whose body is not ASCII makes [print] raise; [list_models] and
    [upload_knowledge] end in that error after the status line. *)
Lemma non_200_unencodable_body_raises :
  status_code resp_403_accent ≠ 200 ∧
  list_models (lib := demo_lib) (ascii_world resp_403_accent) demo_cfg []
  = (Raise UnicodeEncodeError,
     [ EvRequest (list_models_request demo_cfg);
       EvPrint "Failed to retrieve models: 403" ]) ∧
  upload_knowledge (lib := demo_lib) (ascii_world resp_403_accent) demo_cfg "docs/a.md" []
  = (Raise UnicodeEncodeError,
     [ EvOpen "docs/a.md";
       EvRequest (upload_request demo_cfg "docs/a.md" "# notes");
       EvClose "docs/a.md";
       EvPrint "Failed to upload file: 403" ]).
Proof. split; [simpl; lia|]. split; reflexivity. Qed.

(** ** Start-up *)

Lemma module_init_no_key dotfile env :
  load_dotenv dotfile env !! "OPEN_WEBUI_API_KEY" = None ∨
  load_dotenv dotfile env !! "OPEN_WEBUI_API_KEY" = Some "" →
  module_init dotfile env = Raise (ValueError api_key_message).
Proof.
  unfold module_init. by intros [-> | ->].
Qed.

(** With no key in the [.env] file, the process environment decides. *)
Lemma load_dotenv_lookup_env dotfile env k :
  dotfile !! k = None → load_dotenv dotfile env !! k = env !! k.
Proof.
  intros Hd. unfold load_dotenv. rewrite lookup_union, Hd.
  by destruct (env !! k).
Qed.

(** With no key in the [.env] file, an absent or empty variable of the
    process environment ends the module body. *)
Lemma module_init_no_key_in_env dotfile env :
  dotfile !! "OPEN_WEBUI_API_KEY" = None →
  env !! "OPEN_WEBUI_API_KEY" = None ∨ env !! "OPEN_WEBUI_API_KEY" = Some "" →
  module_init dotfile env = Raise (ValueError api_key_message).
Proof.
  intros Hd He. apply module_init_no_key.
  by rewrite (load_dotenv_lookup_env _ _ _ Hd).
Qed.

(** A key set in the process environment is the one used, whatever the
    [.env] file holds. *)
Lemma module_init_key dotfile env key :
  env !! "OPEN_WEBUI_API_KEY" = Some key → key ≠ "" →
  ∃ cfg, module_init dotfile env = Ok cfg ∧ API_KEY cfg = key ∧
         HEADERS cfg !! "Authorization" = Some (bearer key).
Proof.
  intros He Hk. unfold module_init, load_dotenv.
  rewrite (lookup_union_Some_l _ _ _ _ He).
  rewrite bool_decide_eq_false_2 by done.
  eexists. split; [done|]. split; [done|]. simpl. by rewrite lookup_insert_eq.
Qed.

(** C3.  If the environment variable [OPEN_WEBUI_API_KEY], as
    [os.getenv] reads it once [load_dotenv()] has run, is absent or
    empty, then whatever the command the run ends in the [ValueError] of
    the module body, and nothing has happened before it: no request was
    sent, no file opened, nothing printed. *)
Theorem missing_api_key_is_fatal {lib : PyLib} (w : world)
    (dotfile env : gmap string string) (parsed : result namespace) :
  load_dotenv dotfile env !! "OPEN_WEBUI_API_KEY" = None ∨
  load_dotenv dotfile env !! "OPEN_WEBUI_API_KEY" = Some "" →
  program w dotfile env parsed = (Raise (ValueError api_key_message), []) ∧
  requests_sent (program w dotfile env parsed).2 = [].
Proof.
  intros Hkey. unfold program. by rewrite (module_init_no_key _ _ Hkey).
Qed.

Lemma missing_api_key_is_fatal_witness :
  (load_dotenv ∅ {[ "OPEN_WEBUI_API_KEY" := "" ]} !! "OPEN_WEBUI_API_KEY" = None ∨
   load_dotenv ∅ {[ "OPEN_WEBUI_API_KEY" := "" ]} !! "OPEN_WEBUI_API_KEY" = Some "") ∧
  program (lib := demo_lib) (demo_world resp_uploaded) ∅ {[ "OPEN_WEBUI_API_KEY" := "" ]}
    (Ok (NsUpload "docs/a.md"))
  = (Raise (ValueError api_key_message), []) ∧
  requests_sent
    (program (lib := demo_lib) (demo_world resp_uploaded) ∅ {[ "OPEN_WEBUI_API_KEY" := "" ]}
       (Ok (NsUpload "docs/a.md"))).2 = [].
Proof.
  assert (Hkey : load_dotenv ∅ {[ "OPEN_WEBUI_API_KEY" := "" ]} !! "OPEN_WEBUI_API_KEY" = None ∨
                 load_dotenv ∅ {[ "OPEN_WEBUI_API_KEY" := "" ]} !! "OPEN_WEBUI_API_KEY" = Some "")
    by (right; reflexivity).
  split; [exact Hkey|].
  exact (missing_api_key_is_fatal (lib := demo_lib) (demo_world resp_uploaded)
           ∅ {[ "OPEN_WEBUI_API_KEY" := "" ]} (Ok (NsUpload "docs/a.md")) Hkey).
Defined.

(** ** Escaped newlines *)

Lemma unescape_newlines_cons2 c d s :
  unescape_newlines (String c (String d s))
  = if decide (c = "\"%char ∧ d = "n"%char)
    then String "010"%char (unescape_newlines s)
    else String c (unescape_newlines (String d s)).
Proof. reflexivity. Qed.

Lemma replace_go_cons2 c d s :
  replace_go BSN NL 0 (String c (String d s))
  = if decide (c = "\"%char ∧ d = "n"%char)
    then String "010"%char (replace_go BSN NL 0 s)
    else String c (replace_go BSN NL 0 (String d s)).
Proof.
  change (replace_go BSN NL 0 (String c (String d s)))
    with (if startswith (String c (String d s)) BSN
          then NL +:+ replace_go BSN NL 1 (String d s)
          else String c (replace_go BSN NL 0 (String d s))).
  change (replace_go BSN NL 1 (String d s)) with (replace_go BSN NL 0 s).
  unfold BSN at 1. cbn [startswith].
  destruct (decide (c = "\"%char ∧ d = "n"%char)) as [[-> ->]|Hn].
  - by rewrite !decide_True by done.
  - destruct (decide ("\"%char = c)) as [<-|?]; [|done].
    destruct (decide ("n"%char = d)) as [<-|?]; [|done].
    by destruct Hn.
Qed.

Lemma replace_go_unescape s :
  replace_go BSN NL 0 s = unescape_newlines s ∧
  ∀ c, replace_go BSN NL 0 (String c s) = unescape_newlines (String c s).
Proof.
  induction s as [|d s [IH1 IH2]].
  - split; [done|]. intros c. cbn. by destruct (decide _).
  - split; [apply IH2|]. intros c.
    rewrite replace_go_cons2, unescape_newlines_cons2.
    destruct (decide _); by rewrite ?IH1, ?IH2.
Qed.

(** [content.replace("\\n", "\n")] is the conversion the specification
    asks for. *)
Lemma str_replace_unescape s : str_replace s BSN NL = unescape_newlines s.
Proof. apply replace_go_unescape. Qed.

(** No backslash followed by [n] is left in the converted text. *)
Lemma unescape_newlines_complete s p q :
  unescape_newlines s ≠ p +:+ BSN +:+ q.
Proof.
  assert (Hgen : ∀ s p q,
    unescape_newlines s ≠ p +:+ BSN +:+ q ∧
    ∀ c, unescape_newlines (String c s) ≠ p +:+ BSN +:+ q); [|apply Hgen].
  clear. induction s as [|d s IH]; intros p q.
  - split; [by destruct p|]. intros c. by destruct p as [|a [|b p]].
  - split; [apply IH|]. intros c. rewrite unescape_newlines_cons2.
    destruct (decide _) as [[-> ->]|Hn]; destruct p as [|a p].
    + done.
    + change (String a p +:+ BSN +:+ q) with (String a (p +:+ BSN +:+ q)).
      intros [= <- E]. by apply (proj1 (IH p q)).
    + change ("" +:+ BSN +:+ q) with (String "\" (String "n" q)).
      destruct s as [|e s].
      * intros [=]; subst. by destruct Hn.
      * rewrite unescape_newlines_cons2.
        destruct (decide _); intros [=]; subst; by destruct Hn.
    + change (String a p +:+ BSN +:+ q) with (String a (p +:+ BSN +:+ q)).
      intros [= <- E]. by apply (proj2 (IH p q) d).
Qed.

(** ** Printing a chat answer *)

Lemma print_choice_content w choice s h :
  content_of choice = Some s →
  print_choice w choice h
  = (if lines_printable w [EvPrint (unescape_newlines s); EvPrint ""]
     then Ok tt else Raise UnicodeEncodeError,
     h ++ printed_prefix w [EvPrint (unescape_newlines s); EvPrint ""]).
Proof.
  intros Hc.
  assert (Hrun : print_choice w choice h
    = (print w (unescape_newlines s);; print w "") h).
  { unfold print_choice. destruct choice as [| | | | |l|c]; try done. simpl in Hc.
    unfold mbind at 1, M_bind, lift, py_get.
    destruct (c !! "message") as [[| | | | |l|m]|]; try done; simpl.
    - unfold mbind at 1, M_bind.
      destruct (m !! "content") as [[| | | |t|l|m']|]; try done; simpl;
        injection Hc as <-; unfold mbind at 1, M_bind; simpl;
        by rewrite ?(proj1 (replace_go_unescape _)).
    - injection Hc as <-. unfold mbind at 1, M_bind. rewrite lookup_empty. simpl.
      by unfold mbind at 1, M_bind. }
  rewrite Hrun. simpl. rewrite andb_true_r.
  destruct (printable w (unescape_newlines s)) eqn:Hp.
  - rewrite bind_print_ok by done. rewrite print_ok by done.
    by rewrite <- app_assoc.
  - rewrite bind_print_fail by done. by rewrite app_nil_r.
Qed.

Lemma print_choices_contents w choices contents h :
  Forall2 (λ choice s, content_of choice = Some s) choices contents →
  for_each choices (print_choice w) h
  = (if lines_printable w (contents ≫= λ s, [EvPrint (unescape_newlines s); EvPrint ""])
     then Ok tt else Raise UnicodeEncodeError,
     h ++ printed_prefix w
            (contents ≫= λ s, [EvPrint (unescape_newlines s); EvPrint ""])).
Proof.
  intros Hall. revert h.
  induction Hall as [|choice s choices contents Hc _ IH]; intros h.
  - csimpl. rewrite app_nil_r. reflexivity.
  - change ((s :: contents) ≫= λ s, [EvPrint (unescape_newlines s); EvPrint ""])
      with ([EvPrint (unescape_newlines s); EvPrint ""]
            ++ (contents ≫= λ s, [EvPrint (unescape_newlines s); EvPrint ""])).
    rewrite lines_printable_app, printed_prefix_app.
    change (for_each (choice :: choices) (print_choice w) h)
      with ((print_choice w choice ≫= λ _, for_each choices (print_choice w)) h).
    unfold mbind at 1, M_bind. rewrite (print_choice_content w choice s h Hc).
    destruct (lines_printable w [EvPrint (unescape_newlines s); EvPrint ""]) eqn:Hp;
      [|done].
    rewrite IH, (printed_prefix_all w _ Hp). simpl. by rewrite <- app_assoc.
Qed.

Lemma contents_printable w contents :
  Forall (λ s, printable w (unescape_newlines s) = true) contents →
  lines_printable w (contents ≫= λ s, [EvPrint (unescape_newlines s); EvPrint ""]) = true.
Proof.
  induction 1 as [|s contents Hs _ IH]; [done|].
  change ((s :: contents) ≫= λ s, [EvPrint (unescape_newlines s); EvPrint ""])
    with ([EvPrint (unescape_newlines s); EvPrint ""]
          ++ (contents ≫= λ s, [EvPrint (unescape_newlines s); EvPrint ""])).
  rewrite lines_printable_app, IH. simpl. by rewrite Hs.
Qed.

(** A 200 answer that is a mapping: the header, then the loop over the
    choices. *)
Lemma ask_question_200 w cfg question model knowledge_ids r data choices h :
  server w h (ask_request cfg question model knowledge_ids) = Some r →
  status_code r = 200 →
  json_body r = Some (JObj data) →
  default (JArr []) (data !! "choices") = JArr choices →
  ask_question w cfg question model knowledge_ids h
  = for_each choices (print_choice w)
      (h ++ [EvRequest (ask_request cfg question model knowledge_ids);
             EvPrint "Response:"]).
Proof.
  intros Hs Hr Hj Hd. unfold ask_question, requests_post.
  fold (ask_request cfg question model knowledge_ids).
  unfold mbind at 1, M_bind, send. rewrite Hs.
  destruct (decide _) as [_|]; [|done].
  unfold response_json. rewrite Hj.
  unfold mbind at 1, M_bind, mret, M_ret.
  rewrite bind_print_ok by done.
  unfold mbind at 1, M_bind, lift, py_get. rewrite Hd.
  unfold mbind at 1, M_bind, py_iter.
  by rewrite <- !app_assoc.
Qed.

(** C5, amended.  When the call returns status 200 and a JSON mapping
    whose ["choices"] (none when the key is absent) each have a message
    content that is a string (an absent message or content counting as
    the empty text) which the standard output can encode once converted,
    [ask_question] prints ["Response:"], then for each choice in order
    its content with every two-character sequence backslash, [n]
    replaced by one newline character, followed by an empty line, and
    returns normally.  The printed text is what
    [content.replace("\\n", "\n")] computes, and no backslash followed
    by [n] is left in it. *)
Theorem ask_prints_contents_with_newlines (w : world) (cfg : config)
    (question model : string) (knowledge_ids : option (list string))
    (r : http_response) (data : gmap string json)
    (choices : list json) (contents : list string) (h : list event) :
  server w h (ask_request cfg question model knowledge_ids) = Some r →
  status_code r = 200 →
  json_body r = Some (JObj data) →
  default (JArr []) (data !! "choices") = JArr choices →
  mapM content_of choices = Some contents →
  Forall (λ s, printable w (unescape_newlines s) = true) contents →
  ask_question w cfg question model knowledge_ids h
  = (Ok tt,
     h ++ [ EvRequest (ask_request cfg question model knowledge_ids);
            EvPrint "Response:" ]
       ++ (contents ≫= λ s, [EvPrint (unescape_newlines s); EvPrint ""])) ∧
  Forall (λ s, unescape_newlines s = str_replace s BSN NL ∧
               ∀ p q, unescape_newlines s ≠ p +:+ BSN +:+ q) contents.
Proof.
  intros Hs Hr Hj Hd Hc Hp. apply mapM_Some in Hc.
  split; [|apply Forall_forall; intros s _; split;
           [by rewrite str_replace_unescape|apply unescape_newlines_complete]].
  rewrite (ask_question_200 w cfg _ _ _ r data choices h Hs Hr Hj Hd).
  rewrite (print_choices_contents w _ _ _ Hc).
  pose proof (contents_printable w contents Hp) as Hall.
  rewrite Hall, (printed_prefix_all w _ Hall). by rewrite <- !app_assoc.
Qed.

(** The response with content [line1\nline2] (a backslash and an [n]) is
    printed with a line break between [line1] and [line2]. *)
Lemma ask_prints_contents_with_newlines_witness :
  server (demo_world resp_chat) []
    (ask_request demo_cfg "What is in my notes?" "llama3" None) = Some resp_chat ∧
  status_code resp_chat = 200 ∧
  Forall (λ s, printable (demo_world resp_chat) (unescape_newlines s) = true)
    [ "line1\nline2" ] ∧
  ask_question (demo_world resp_chat) demo_cfg "What is in my notes?" "llama3" None []
  = (Ok tt,
     [ EvRequest (ask_request demo_cfg "What is in my notes?" "llama3" None);
       EvPrint "Response:";
       EvPrint ("line1" +:+ NL +:+ "line2");
       EvPrint "" ]).
Proof.
  assert (Hp : Forall (λ s, printable (demo_world resp_chat) (unescape_newlines s) = true)
                 [ "line1\nline2" ]) by (repeat constructor).
  split; [reflexivity|]. split; [reflexivity|]. split; [exact Hp|].
  apply (ask_prints_contents_with_newlines (demo_world resp_chat) demo_cfg
           "What is in my notes?" "llama3" None resp_chat
           {[ "choices" :=
                JArr [ JObj {[ "message" := JObj {[ "content" := JStr "line1\nline2" ]} ]} ] ]}
           [ JObj {[ "message" := JObj {[ "content" := JStr "line1\nline2" ]} ]} ]
           [ "line1\nline2" ] []); try reflexivity.
  exact Hp.
Defined.

(** C5 as stated fails: in a 200 answer with three choices whose second
    content is [null], the first content is printed and the run ends in
    an [AttributeError]; the content of the third choice is never
    printed. *)
Lemma ask_null_content_stops_printing :
  status_code resp_chat_null_content = 200 ∧
  ask_question (demo_world resp_chat_null_content) demo_cfg
    "What is in my notes?" "llama3" None []
  = (Raise AttributeError,
     [ EvRequest (ask_request demo_cfg "What is in my notes?" "llama3" None);
       EvPrint "Response:"; EvPrint "first"; EvPrint "" ]) ∧
  "third" ∉ printed (ask_question (demo_world resp_chat_null_content) demo_cfg
                       "What is in my notes?" "llama3" None []).2.
Proof.
  split; [reflexivity|]. split; [reflexivity|].
  intros Hin. vm_compute in Hin.
  repeat (apply elem_of_cons in Hin as [Hin|Hin]; [discriminate Hin|]).
  by apply elem_of_nil in Hin.
Qed.

(** ** Listing the knowledge documents *)

Section Listing.
Context {lib : PyLib} (w : world).

Lemma print_document_entry doc h :
  knowledge_entry doc = true →
  print_document w doc h
  = (if lines_printable w (document_lines doc) then Ok tt else Raise UnicodeEncodeError,
     h ++ printed_prefix w (document_lines doc)).
Proof.
  intros Hd. destruct doc as [| | | | | |m]; try done. simpl in Hd.
  assert (Hrun : print_document w (JObj m) h
    = (print w ("- ID: " +:+ py_str (default JNull (m !! "id")));;
       print w ("  Filename: " +:+ py_str (default JNull (m !! "filename")));;
       print w ("  Collection: " +:+ from_option py_str "N/A" (collection_name_of m));;
       print w "") h).
  { unfold print_document, collection_name_of, mbind, M_bind, lift, py_get.
    destruct (m !! "meta") as [[| | | | | |meta]|]; try done; simpl;
      rewrite ?lookup_empty; try done.
    by destruct (meta !! "collection_name"). }
  rewrite Hrun. unfold document_lines.
  apply prints_cons. intros h1. apply prints_cons. intros h2.
  apply prints_cons. intros h3. apply prints_one.
Qed.

Lemma print_document_bad_meta m v h :
  m !! "meta" = Some v → is_dict v = false →
  print_document w (JObj m) h = (Raise AttributeError, h).
Proof.
  intros Hm Hv. unfold print_document, mbind, M_bind, lift. simpl.
  rewrite Hm. simpl. by destruct v.
Qed.

Lemma print_documents_entries docs h :
  forallb knowledge_entry docs = true →
  for_each docs (print_document w) h
  = (if lines_printable w (docs ≫= document_lines) then Ok tt
     else Raise UnicodeEncodeError,
     h ++ printed_prefix w (docs ≫= document_lines)).
Proof.
  intros Hall. apply for_each_prints. intros doc h' Hin.
  apply print_document_entry. rewrite forallb_forall in Hall.
  by apply Hall, list_elem_of_In.
Qed.

Lemma list_knowledge_200 cfg r docs h :
  server w h (list_knowledge_request cfg) = Some r →
  status_code r = 200 →
  json_body r = Some (JArr docs) →
  list_knowledge w cfg h
  = for_each docs (print_document w)
      (h ++ [EvRequest (list_knowledge_request cfg); EvPrint "Knowledge documents:"]).
Proof.
  intros Hs Hr Hj. unfold list_knowledge, requests_get.
  fold (list_knowledge_request cfg).
  unfold mbind at 1, M_bind, send. rewrite Hs.
  destruct (decide _) as [_|]; [|done].
  unfold response_json. rewrite Hj.
  unfold mbind at 1, M_bind, mret, M_ret.
  rewrite bind_print_ok by done.
  unfold mbind at 1, M_bind, lift, py_iter.
  by rewrite <- !app_assoc.
Qed.
End Listing.

(** C6, amended.  When the call returns status 200 and a JSON list of
    entries (mappings whose ["meta"], if present, is a mapping) whose
    lines the standard output can encode, [list_knowledge] prints
    ["Knowledge documents:"] and then for each entry in order its
    identifier, its filename, its collection name and an empty line, and
    returns normally; for an entry whose ["meta"] is absent or is a
    mapping without ["collection_name"] the collection line is
    ["  Collection: N/A"]. *)
Theorem list_knowledge_prints_entries {lib : PyLib} (w : world) (cfg : config)
    (r : http_response) (docs : list json) (h : list event) :
  server w h (list_knowledge_request cfg) = Some r →
  status_code r = 200 →
  json_body r = Some (JArr docs) →
  forallb knowledge_entry docs = true →
  lines_printable w (docs ≫= document_lines) = true →
  list_knowledge w cfg h
  = (Ok tt,
     h ++ [ EvRequest (list_knowledge_request cfg);
            EvPrint "Knowledge documents:" ]
       ++ (docs ≫= document_lines)) ∧
  ∀ m : gmap string json,
    JObj m ∈ docs →
    (∀ id, m !! "id" = Some (JStr id) →
       document_lines (JObj m) !! 0%nat = Some (EvPrint ("- ID: " +:+ id))) ∧
    (m !! "id" = None →
       document_lines (JObj m) !! 0%nat = Some (EvPrint "- ID: None")) ∧
    (∀ filename, m !! "filename" = Some (JStr filename) →
       document_lines (JObj m) !! 1%nat
         = Some (EvPrint ("  Filename: " +:+ filename))) ∧
    (m !! "filename" = None →
       document_lines (JObj m) !! 1%nat = Some (EvPrint "  Filename: None")) ∧
    (∀ meta name,
       m !! "meta" = Some (JObj meta) →
       meta !! "collection_name" = Some (JStr name) →
       document_lines (JObj m) !! 2%nat = Some (EvPrint ("  Collection: " +:+ name))) ∧
    (m !! "meta" = None →
       document_lines (JObj m) !! 2%nat = Some (EvPrint "  Collection: N/A")) ∧
    (∀ meta,
       m !! "meta" = Some (JObj meta) →
       meta !! "collection_name" = None →
       document_lines (JObj m) !! 2%nat = Some (EvPrint "  Collection: N/A")) ∧
    document_lines (JObj m) !! 3%nat = Some (EvPrint "").
Proof.
  intros Hs Hr Hj Hall Hp. split.
  - rewrite (list_knowledge_200 w _ _ _ _ Hs Hr Hj).
    rewrite print_documents_entries by done.
    rewrite Hp, (printed_prefix_all w _ Hp). by rewrite <- !app_assoc.
  - intros m _. unfold document_lines, collection_name_of. split_and!.
    + intros id Hid. simpl. by rewrite Hid.
    + intros Hid. simpl. by rewrite Hid.
    + intros filename Hf. simpl. by rewrite Hf.
    + intros Hf. simpl. by rewrite Hf.
    + intros meta name Hm Hn. simpl. by rewrite Hm, Hn.
    + intros Hm. simpl. by rewrite Hm.
    + intros meta Hm Hn. simpl. by rewrite Hm, Hn.
    + done.
Qed.

Lemma list_knowledge_prints_entries_witness :
  server (demo_world resp_listing) [] (list_knowledge_request demo_cfg)
    = Some resp_listing ∧
  status_code resp_listing = 200 ∧
  printed (list_knowledge (lib := demo_lib) (demo_world resp_listing) demo_cfg []).2
  = [ "Knowledge documents:";
      "- ID: f1"; "  Filename: a.md"; "  Collection: notes"; "";
      "- ID: f2"; "  Filename: b.md"; "  Collection: N/A"; "";
      "- ID: f3"; "  Filename: c.md"; "  Collection: N/A"; "" ].
Proof.
  split; [reflexivity|]. split; [reflexivity|].
  destruct (list_knowledge_prints_entries (lib := demo_lib)
              (demo_world resp_listing) demo_cfg resp_listing
              [ JObj {[ "id" := JStr "f1"; "filename" := JStr "a.md";
                        "meta" := JObj {[ "collection_name" := JStr "notes" ]} ]};
                JObj {[ "id" := JStr "f2"; "filename" := JStr "b.md" ]};
                JObj {[ "id" := JStr "f3"; "filename" := JStr "c.md";
                        "meta" := JObj ∅ ]} ] [])
    as [Hrun _]; [reflexivity..|].
  rewrite Hrun. reflexivity.
Defined.

(** C6 as stated fails: the second entry of this 200 listing has a
    ["meta"] that is [null], so that it has no [meta.collection_name],
    and [list_knowledge] prints no placeholder for it: it ends in an
    [AttributeError] after the lines of the first entry. *)
Lemma list_knowledge_null_meta_no_placeholder :
  status_code resp_listing_null_meta = 200 ∧
  collection_name_of {[ "id" := JStr "f2"; "filename" := JStr "b.md"; "meta" := JNull ]}
  = None ∧
  list_knowledge (lib := demo_lib) (demo_world resp_listing_null_meta) demo_cfg []
  = (Raise AttributeError,
     [ EvRequest (list_knowledge_request demo_cfg);
       EvPrint "Knowledge documents:";
       EvPrint "- ID: f1"; EvPrint "  Filename: a.md";
       EvPrint "  Collection: N/A"; EvPrint "" ]) ∧
  "- ID: f2" ∉ printed (list_knowledge (lib := demo_lib)
                          (demo_world resp_listing_null_meta) demo_cfg []).2.
Proof.
  split; [reflexivity|]. split; [reflexivity|]. split; [reflexivity|].
  intros Hin. vm_compute in Hin.
  repeat (apply elem_of_cons in Hin as [Hin|Hin]; [discriminate Hin|]).
  by apply elem_of_nil in Hin.
Qed.

(** C9.  When a 200 listing holds an entry whose ["meta"] key is present
    and maps to [null] or to any other value that is not a mapping, and
    the entries before it are well formed, [list_knowledge] ends in an
    exception and prints nothing, so no ["N/A"], for that entry or the
    later ones.  It prints the lines of the entries before it up to the
    first one the standard output cannot encode; when it can encode them
    all, it prints them all and the exception is the [AttributeError] of
    that entry. *)
Theorem list_knowledge_null_meta_raises {lib : PyLib} (w : world) (cfg : config)
    (r : http_response) (before after : list json) (m : gmap string json)
    (v : json) (h : list event) :
  server w h (list_knowledge_request cfg) = Some r →
  status_code r = 200 →
  json_body r = Some (JArr (before ++ JObj m :: after)) →
  forallb knowledge_entry before = true →
  m !! "meta" = Some v →
  is_dict v = false →
  list_knowledge w cfg h
  = (if lines_printable w (before ≫= document_lines)
     then Raise AttributeError else Raise UnicodeEncodeError,
     h ++ [ EvRequest (list_knowledge_request cfg);
            EvPrint "Knowledge documents:" ]
       ++ printed_prefix w (before ≫= document_lines)) ∧
  (lines_printable w (before ≫= document_lines) = true →
   list_knowledge w cfg h
   = (Raise AttributeError,
      h ++ [ EvRequest (list_knowledge_request cfg);
             EvPrint "Knowledge documents:" ]
        ++ (before ≫= document_lines))).
Proof.
  intros Hs Hr Hj Hall Hm Hv.
  assert (Hrun : list_knowledge w cfg h
    = (if lines_printable w (before ≫= document_lines)
       then Raise AttributeError else Raise UnicodeEncodeError,
       h ++ [ EvRequest (list_knowledge_request cfg);
              EvPrint "Knowledge documents:" ]
         ++ printed_prefix w (before ≫= document_lines))).
  { rewrite (list_knowledge_200 w _ _ _ _ Hs Hr Hj).
    pose proof (print_documents_entries w before
                  (h ++ [EvRequest (list_knowledge_request cfg);
                         EvPrint "Knowledge documents:"]) Hall) as Hb.
    destruct (lines_printable w (before ≫= document_lines)) eqn:Hp.
    - rewrite (for_each_app _ _ _ _ _ Hb). simpl.
      erewrite bind_raise by (by eapply print_document_bad_meta).
      by rewrite <- !app_assoc.
    - rewrite (for_each_app_raise _ _ _ _ _ _ Hb). by rewrite <- !app_assoc. }
  split; [exact Hrun|]. intros Hp. rewrite Hrun, Hp.
  by rewrite (printed_prefix_all w _ Hp).
Qed.

Lemma list_knowledge_null_meta_raises_witness :
  server (demo_world resp_listing_null_meta) [] (list_knowledge_request demo_cfg)
    = Some resp_listing_null_meta ∧
  status_code resp_listing_null_meta = 200 ∧
  list_knowledge (lib := demo_lib) (demo_world resp_listing_null_meta) demo_cfg []
  = (Raise AttributeError,
     [ EvRequest (list_knowledge_request demo_cfg);
       EvPrint "Knowledge documents:";
       EvPrint "- ID: f1"; EvPrint "  Filename: a.md";
       EvPrint "  Collection: N/A"; EvPrint "" ]).
Proof.
  split; [reflexivity|]. split; [reflexivity|].
  rewrite (proj1 (list_knowledge_null_meta_raises (lib := demo_lib)
             (demo_world resp_listing_null_meta) demo_cfg resp_listing_null_meta
             [ JObj {[ "id" := JStr "f1"; "filename" := JStr "a.md" ]} ]
             [ JObj {[ "id" := JStr "f3"; "filename" := JStr "c.md" ]} ]
             {[ "id" := JStr "f2"; "filename" := JStr "b.md"; "meta" := JNull ]}
             JNull [] eq_refl eq_refl eq_refl eq_refl eq_refl eq_refl)).
  reflexivity.
Defined.

(** ** Collecting the Markdown files *)

Lemma lower_app a b : lower (a +:+ b) = lower a +:+ lower b.
Proof. induction a as [|c a IH]; simpl; by rewrite ?IH. Qed.

Lemma endswith_app a b suf : endswith b suf = true → endswith (a +:+ b) suf = true.
Proof.
  intros Hb. induction a as [|c a IH]; [done|].
  simpl. rewrite IH. apply orb_true_r.
Qed.

Lemma is_md_app a b : is_md b = true → is_md (a +:+ b) = true.
Proof. unfold is_md. rewrite lower_app. apply endswith_app. Qed.

(** The path of a file has the extension of its name. *)
Lemma is_md_path_join root file : is_md file = true → is_md (path_join root file) = true.
Proof.
  intros Hf. unfold path_join. destruct (startswith file "/"); [done|].
  destruct (_ || _); by repeat apply is_md_app.
Qed.

(** An induction principle that reaches the entries of a directory. *)
Lemma fsnode_entries_ind (P : fsnode → Prop) :
  P File → P DirLink →
  (∀ entries, Forall (λ e, P e.2) entries → P (Dir entries)) →
  ∀ n, P n.
Proof.
  intros HF HL HD. fix IH 1. intros [| |entries]; [done..|].
  apply HD. induction entries as [|[name sub] entries IHes]; constructor; auto.
Qed.

Lemma walk_node_dir top entries :
  walk_node top (Dir entries)
  = (top, walk_dirs entries, walk_files entries) :: sub_walks top entries.
Proof.
  simpl. f_equal. induction entries as [|[name sub] entries IH]; [done|].
  unfold sub_walks in *. simpl. by rewrite IH.
Qed.

Lemma md_count_node_dir entries :
  md_count_node (Dir entries) = sum_list (entry_count <$> entries).
Proof.
  simpl. induction entries as [|[name sub] entries IH]; [done|].
  simpl. rewrite IH. unfold entry_count. simpl. by destruct sub.
Qed.

Lemma md_paths_app t1 t2 : md_paths (t1 ++ t2) = md_paths t1 ++ md_paths t2.
Proof. apply bind_app. Qed.

Lemma walk_files_cons name sub entries :
  walk_files ((name, sub) :: entries)
  = (if is_dir_entry sub then [] else [name]) ++ walk_files entries.
Proof.
  unfold walk_files. rewrite filter_cons. simpl.
  destruct (decide (is_dir_entry sub = false)) as [->|Hd]; [done|].
  by destruct (is_dir_entry sub).
Qed.

Lemma md_paths_walk_length n top :
  length (md_paths (walk_node top n)) = md_count_node n.
Proof.
  revert top. induction n as [| |entries IH] using fsnode_entries_ind;
    intros top; [done..|].
  rewrite walk_node_dir, md_count_node_dir.
  change (md_paths ((top, walk_dirs entries, walk_files entries) :: sub_walks top entries))
    with ((path_join top <$> filter (λ file, is_md file = true) (walk_files entries))
          ++ md_paths (sub_walks top entries)).
  rewrite length_app, length_fmap.
  induction IH as [|[name sub] entries Hsub _ IHes]; [done|].
  rewrite walk_files_cons, filter_app, length_app.
  change (sub_walks top ((name, sub) :: entries))
    with (walk_node (path_join top name) sub ++ sub_walks top entries).
  rewrite md_paths_app, length_app, fmap_cons. simpl sum_list.
  rewrite <- IHes. simpl in Hsub. rewrite Hsub.
  unfold entry_count. simpl.
  destruct sub as [| |sub]; simpl; try lia.
  rewrite filter_cons. destruct (decide (is_md name = true)) as [->|Hn]; simpl; [lia|].
  destruct (is_md name); [done|]. simpl. lia.
Qed.

(** The list [md_files] has one path per Markdown file of the tree. *)
Lemma md_files_length directory_path entries :
  length (md_files directory_path entries) = md_count entries.
Proof. apply md_paths_walk_length. Qed.

Lemma md_paths_is_md triples : Forall (λ p, is_md p = true) (md_paths triples).
Proof.
  unfold md_paths. apply Forall_forall. intros p Hp.
  apply list_elem_of_bind in Hp as ([[root dirs] files] & Hp & _).
  apply list_elem_of_fmap in Hp as (file & -> & Hf).
  apply list_elem_of_filter in Hf as [Hf _]. by apply is_md_path_join.
Qed.

Lemma md_files_is_md directory_path entries :
  Forall (λ p, is_md p = true) (md_files directory_path entries).
Proof. apply md_paths_is_md. Qed.

(** ** The upload loop *)

Section Loop.
Context {lib : PyLib} (w : world) (cfg : config).

(** What follows the [with] block of [upload_knowledge] opens no file
    and sends no request. *)
Lemma upload_report_keeps {B} (π : list event → list B) (r : http_response) :
  (∀ line, keeps π (print w line)) →
  keeps π (if decide (status_code r = 200)
           then print w "File uploaded successfully.";;
                data ← response_json r; print w (json_dumps_indent2 data)
           else print w ("Failed to upload file: " +:+ pretty (status_code r));;
                print w (text r)).
Proof.
  intros Hp. destruct (decide _); repeat (apply keeps_bind; intros);
    auto using keeps_response_json.
Qed.

(** Every call of [upload_knowledge] tries to open its file, once. *)
Lemma upload_knowledge_opened path h :
  opened (upload_knowledge w cfg path h).2 = opened h ++ [path].
Proof.
  unfold upload_knowledge, mbind at 1, M_bind, with_open, requests_post, send.
  destruct (fs_open w path) as [content|k]; simpl; [|by rewrite opened_app].
  destruct (server w _ _) as [r|]; simpl.
  - rewrite (upload_report_keeps opened r (keeps_opened_print w)).
    rewrite !opened_app. simpl. by rewrite !app_nil_r.
  - rewrite !opened_app. simpl. by rewrite !app_nil_r.
Qed.

(** The requests of a call are for its file. *)
Lemma upload_knowledge_sends path h :
  ∃ rqs, requests_sent (upload_knowledge w cfg path h).2 = requests_sent h ++ rqs ∧
         Forall (λ rq, ∃ content, rq = upload_request cfg path content) rqs.
Proof.
  destruct (fs_open w path) as [content|k] eqn:Ho.
  - exists [upload_request cfg path content]. split.
    + by apply upload_knowledge_requests.
    + repeat constructor. by exists content.
  - exists []. split; [|constructor].
    unfold upload_knowledge, mbind at 1, M_bind, with_open. rewrite Ho. simpl.
    rewrite requests_sent_app. simpl. by rewrite !app_nil_r.
Qed.

Lemma upload_all_cons path paths h :
  upload_all w cfg (path :: paths) h
  = if printable w ("Uploading: " +:+ path)
    then match upload_knowledge w cfg path (h ++ [EvPrint ("Uploading: " +:+ path)]) with
         | (Ok _, h1) => upload_all w cfg paths h1
         | (Raise e, h1) => (Raise e, h1)
         end
    else (Raise UnicodeEncodeError, h).
Proof.
  unfold upload_all at 1. simpl. unfold mbind at 1 2, M_bind, print.
  by destruct (printable w ("Uploading: " +:+ path)).
Qed.

Lemma upload_all_app before after h h1 :
  upload_all w cfg before h = (Ok tt, h1) →
  upload_all w cfg (before ++ after) h = upload_all w cfg after h1.
Proof. apply for_each_app. Qed.

(** The files the loop tries to upload are the first ones of its list,
    in order, and all of them when no upload raises. *)
Lemma upload_all_opened paths h :
  ∃ calls, opened (upload_all w cfg paths h).2 = opened h ++ calls ∧
           calls `prefix_of` paths ∧
           ((upload_all w cfg paths h).1 = Ok tt → calls = paths).
Proof.
  revert h. induction paths as [|path paths IH]; intros h.
  - exists []. by rewrite app_nil_r.
  - rewrite upload_all_cons.
    destruct (printable w ("Uploading: " +:+ path)).
    2:{ exists []. simpl. rewrite app_nil_r. split_and!; [done|apply prefix_nil|done]. }
    pose proof (upload_knowledge_opened path (h ++ [EvPrint ("Uploading: " +:+ path)]))
      as Hop.
    rewrite opened_app in Hop. simpl in Hop. rewrite app_nil_r in Hop.
    destruct (upload_knowledge _ _ _ _) as [[[]|e] h1]; simpl in Hop.
    + destruct (IH h1) as (calls & Hc & Hpre & Hok).
      exists (path :: calls). rewrite Hc, Hop, <- app_assoc. split_and!; try done.
      * by apply prefix_cons.
      * intros Hr. by rewrite Hok.
    + exists [path]. simpl. split_and!; try done.
      by apply prefix_cons, prefix_nil.
Qed.

Lemma upload_all_sends paths h :
  ∃ rqs, requests_sent (upload_all w cfg paths h).2 = requests_sent h ++ rqs ∧
         Forall (λ rq, ∃ path content,
                   path ∈ paths ∧ rq = upload_request cfg path content) rqs.
Proof.
  revert h. induction paths as [|path paths IH]; intros h.
  - exists []. split; [by rewrite app_nil_r|constructor].
  - rewrite upload_all_cons.
    destruct (printable w ("Uploading: " +:+ path)).
    2:{ exists []. simpl. rewrite app_nil_r. split; [done|constructor]. }
    destruct (upload_knowledge_sends path (h ++ [EvPrint ("Uploading: " +:+ path)]))
      as (rqs & Hrq & Hall).
    rewrite requests_sent_app in Hrq. simpl in Hrq. rewrite app_nil_r in Hrq.
    assert (Hall' : Forall (λ rq, ∃ path' content,
              path' ∈ path :: paths ∧ rq = upload_request cfg path' content) rqs).
    { eapply Forall_impl; [exact Hall|]. intros rq [content ->].
      exists path, content. split; [left|done]. }
    destruct (upload_knowledge _ _ _ _) as [[[]|e] h1]; simpl in Hrq.
    + destruct (IH h1) as (rqs' & Hrq' & Hall'').
      exists (rqs ++ rqs'). rewrite Hrq', Hrq, <- app_assoc. split; [done|].
      apply Forall_app. split; [done|].
      eapply Forall_impl; [exact Hall''|]. intros rq (path' & content & Hin & ->).
      exists path', content. split; [by right|done].
    + by exists rqs.
Qed.

(** An upload returns normally when its file opens and the call returns
    a response with a JSON body if the status is 200, with a text the
    standard output can encode if it is not. *)
Lemma upload_knowledge_returns path content r h :
  fs_open w path = Opened content →
  server w (h ++ [EvOpen path]) (upload_request cfg path content) = Some r →
  (status_code r = 200 → is_Some (json_body r)) →
  (status_code r ≠ 200 → printable w (text r) = true) →
  (upload_knowledge w cfg path h).1 = Ok tt.
Proof.
  intros Ho Hs Hj Ht. unfold upload_knowledge.
  unfold mbind at 1, M_bind, with_open, requests_post, send. rewrite Ho.
  fold (upload_request cfg path content). rewrite Hs.
  destruct (decide _) as [Hr|Hr].
  - destruct (Hj Hr) as [data Hd].
    rewrite bind_print_ok by done.
    unfold mbind, M_bind, response_json. rewrite Hd. simpl.
    rewrite print_ok by apply printable_ascii, json_dumps_ascii. done.
  - rewrite bind_print_ok by (by apply printable_status).
    by rewrite print_ok by auto.
Qed.

Lemma upload_all_returns paths h :
  Forall (λ path, ∃ content, fs_open w path = Opened content) paths →
  Forall (λ path, printable w ("Uploading: " +:+ path) = true) paths →
  (∀ path content h',
     path ∈ paths → fs_open w path = Opened content →
     ∃ r, server w h' (upload_request cfg path content) = Some r ∧
          (status_code r = 200 → is_Some (json_body r)) ∧
          (status_code r ≠ 200 → printable w (text r) = true)) →
  (upload_all w cfg paths h).1 = Ok tt.
Proof.
  intros Hopen. revert h.
  induction Hopen as [|path paths [content Ho] _ IH]; intros h Hprint Hsrv; [done|].
  apply Forall_cons in Hprint as [Hp Hprint].
  rewrite upload_all_cons, Hp.
  set (h0 := h ++ [EvPrint ("Uploading: " +:+ path)]).
  destruct (Hsrv path content (h0 ++ [EvOpen path])) as (r & Hs & Hj & Ht);
    [by left|done|].
  pose proof (upload_knowledge_returns path content r h0 Ho Hs Hj Ht) as Hret.
  destruct (upload_knowledge _ _ _ _) as [[[]|e] h1]; [|done].
  apply IH; [done|]. intros p c h' Hin. apply Hsrv. by right.
Qed.

(** [load_directory] on a directory with Markdown files: the count is
    printed, then the loop runs. *)
Lemma load_directory_run directory_path entries h :
  fs_dir w directory_path = Some entries →
  md_files directory_path entries ≠ [] →
  load_directory w cfg directory_path h
  = upload_all w cfg (md_files directory_path entries)
      (h ++ [EvPrint ("Found " +:+ pretty (length (md_files directory_path entries))
                      +:+ " .md files. Uploading...")]).
Proof.
  intros Hd Hmd. unfold load_directory. rewrite Hd.
  destruct (md_files directory_path entries) as [|path paths]; [done|].
  by rewrite bind_print_ok by apply printable_found.
Qed.
End Loop.

(** ** Loading a directory *)

(** C4, amended.  For every directory containing N files whose names end
    in [.md] whatever the case of the letters, at any depth,
    [load_directory] calls the upload operation for the first files of
    the list of these files, in the order of the walk: at most N times,
    and never for a file with another extension, nor does it send a
    request for one.  It calls it exactly N times, once per such file,
    when [load_directory] returns normally, and when for every
    one of these files the line announcing it can be encoded by the
    standard output, the file can be opened, and the call of
    [requests.post] returns a response, with a JSON body when the status
    is 200 and with a text the standard output can encode when it is
    not. *)
Theorem load_directory_uploads_md_files {lib : PyLib} (w : world) (cfg : config)
    (directory_path : string) (entries : list (string * fsnode)) (h : list event) :
  fs_dir w directory_path = Some entries →
  let run := load_directory w cfg directory_path h in
  let md := md_files directory_path entries in
  length md = md_count entries ∧
  ∃ (calls : list string) (rqs : list http_request),
    opened run.2 = opened h ++ calls ∧
    requests_sent run.2 = requests_sent h ++ rqs ∧
    calls `prefix_of` md ∧
    (length calls ≤ md_count entries)%nat ∧
    Forall (λ path, is_md path = true) calls ∧
    Forall (λ rq, ∃ path content,
              is_md path = true ∧ rq = upload_request cfg path content) rqs ∧
    (run.1 = Ok tt → calls = md ∧ length calls = md_count entries) ∧
    (Forall (λ path, ∃ content, fs_open w path = Opened content) md →
     Forall (λ path, printable w ("Uploading: " +:+ path) = true) md →
     (∀ path content h',
        path ∈ md → fs_open w path = Opened content →
        ∃ r, server w h' (upload_request cfg path content) = Some r ∧
             (status_code r = 200 → is_Some (json_body r)) ∧
             (status_code r ≠ 200 → printable w (text r) = true)) →
     (md ≠ [] → run.1 = Ok tt) ∧ calls = md ∧ length calls = md_count entries).
Proof.
  intros Hd run md.
  pose proof (md_files_length directory_path entries) as Hlen.
  pose proof (md_files_is_md directory_path entries) as Hmd.
  split; [done|].
  destruct (decide (md = [])) as [Hnil|Hne].
  - exists [], []. subst run. unfold load_directory. rewrite Hd.
    fold md in Hlen |- *. rewrite Hnil in Hlen |- *. rewrite !app_nil_r.
    pose proof (keeps_opened_print w ("No .md files found in " +:+ directory_path) h)
      as Hko.
    pose proof (keeps_requests_print w ("No .md files found in " +:+ directory_path) h)
      as Hkr.
    split_and!; try done. simpl. lia.
  - subst run. rewrite (load_directory_run w cfg _ _ h Hd Hne). fold md.
    set (h0 := h ++ _).
    destruct (upload_all_opened w cfg md h0) as (calls & Hc & Hpre & Hok).
    destruct (upload_all_sends w cfg md h0) as (rqs & Hrq & Hall).
    exists calls, rqs.
    assert (Hcalls : Forall (λ path, is_md path = true) calls).
    { destruct Hpre as [rest Hrest]. fold md in Hmd. rewrite Hrest in Hmd.
      by apply Forall_app in Hmd as [? _]. }
    split_and!; try done.
    + rewrite Hc. unfold h0. rewrite opened_app. simpl. by rewrite app_nil_r.
    + rewrite Hrq. unfold h0. rewrite requests_sent_app. simpl. by rewrite app_nil_r.
    + rewrite <- Hlen. fold md. by apply prefix_length.
    + eapply Forall_impl; [exact Hall|]. intros rq (path & content & Hin & ->).
      exists path, content. split; [|done].
      fold md in Hmd. by eapply Forall_forall in Hmd.
    + intros Hr. split; [by apply Hok|]. by rewrite (Hok Hr).
    + intros Hopen Hprint Hsrv.
      pose proof (upload_all_returns w cfg md h0 Hopen Hprint Hsrv) as Hr.
      split; [done|]. split; [by apply Hok|]. by rewrite (Hok Hr).
Qed.

Lemma load_directory_uploads_md_files_witness :
  fs_dir (demo_world resp_uploaded) "docs" = Some demo_tree ∧
  md_count demo_tree = 2%nat ∧
  (load_directory (lib := demo_lib) (demo_world resp_uploaded) demo_cfg "docs" []).1
  = Ok tt ∧
  opened (load_directory (lib := demo_lib) (demo_world resp_uploaded) demo_cfg "docs" []).2
  = [ "docs/a.md"; "docs/sub/C.MD" ] ∧
  length (opened (load_directory (lib := demo_lib) (demo_world resp_uploaded)
                    demo_cfg "docs" []).2) = md_count demo_tree.
Proof.
  split; [reflexivity|]. split; [reflexivity|].
  destruct (load_directory_uploads_md_files (lib := demo_lib)
              (demo_world resp_uploaded) demo_cfg "docs" demo_tree [] eq_refl)
    as (_ & calls & rqs & Hop & _ & _ & _ & _ & _ & _ & Hall).
  destruct Hall as (Hret & Hcalls & Hlen).
  - repeat constructor; by exists "# notes".
  - repeat constructor.
  - intros path content h' _ _. exists resp_uploaded.
    split; [reflexivity|]. split; [by eexists|]. intros E. by destruct E.
  - split; [apply Hret; discriminate|].
    rewrite Hop, Hcalls. split; reflexivity.
Defined.

(** C4 as stated fails: [docs] holds two Markdown files, the first cannot
    be opened, and the upload operation is called once, not twice. *)
Lemma load_directory_stops_at_unreadable_file :
  fs_dir (unreadable_world resp_uploaded) "docs" = Some demo_tree ∧
  md_count demo_tree = 2%nat ∧
  opened (load_directory (lib := demo_lib) (unreadable_world resp_uploaded)
            demo_cfg "docs" []).2 = [ "docs/a.md" ] ∧
  length (opened (load_directory (lib := demo_lib) (unreadable_world resp_uploaded)
                    demo_cfg "docs" []).2) ≠ md_count demo_tree.
Proof. split_and!; [reflexivity..|]. vm_compute. lia. Qed.

(** C8, amended.  In [load_directory], when the files before [path] in
    the list of discovered files have been uploaded, the line announcing
    [path] can be written, and the call for [path] returns a status other
    than 200 with a text the standard output can encode, the failure is
    printed and the run goes on as the loop over the files after [path]:
    the next of them, if there is one whose announcing line can be
    written, is opened for its upload, and all of them are, the run
    returning normally, when their lines can be written, they can be
    opened and every call returns a response (with a JSON body when the
    status is 200, with a text the standard output can encode when it is
    not). *)
Theorem failed_upload_does_not_stop_load {lib : PyLib} (w : world) (cfg : config)
    (directory_path : string) (entries : list (string * fsnode))
    (before after : list string) (path content : string) (r : http_response)
    (h h1 : list event) :
  fs_dir w directory_path = Some entries →
  md_files directory_path entries = before ++ path :: after →
  upload_all w cfg before
    (h ++ [EvPrint ("Found " +:+ pretty (length (md_files directory_path entries))
                    +:+ " .md files. Uploading...")]) = (Ok tt, h1) →
  printable w ("Uploading: " +:+ path) = true →
  fs_open w path = Opened content →
  server w (h1 ++ [EvPrint ("Uploading: " +:+ path); EvOpen path])
    (upload_request cfg path content) = Some r →
  status_code r ≠ 200 →
  printable w (text r) = true →
  load_directory w cfg directory_path h
  = upload_all w cfg after
      (h1 ++ [ EvPrint ("Uploading: " +:+ path);
               EvOpen path;
               EvRequest (upload_request cfg path content);
               EvClose path;
               EvPrint ("Failed to upload file: " +:+ pretty (status_code r));
               EvPrint (text r) ]) ∧
  (∀ next, head after = Some next →
     printable w ("Uploading: " +:+ next) = true →
     ∃ calls, opened (load_directory w cfg directory_path h).2
              = opened h ++ before ++ path :: next :: calls) ∧
  (Forall (λ p, ∃ c, fs_open w p = Opened c) after →
   Forall (λ p, printable w ("Uploading: " +:+ p) = true) after →
   (∀ p c h',
      p ∈ after → fs_open w p = Opened c →
      ∃ r', server w h' (upload_request cfg p c) = Some r' ∧
            (status_code r' = 200 → is_Some (json_body r')) ∧
            (status_code r' ≠ 200 → printable w (text r') = true)) →
   (load_directory w cfg directory_path h).1 = Ok tt ∧
   opened (load_directory w cfg directory_path h).2
   = opened h ++ before ++ path :: after).
Proof.
  intros Hd Hmd Hbefore Hpp Ho Hs Hr Hpt.
  assert (Hrun : load_directory w cfg directory_path h
    = upload_all w cfg after
        (h1 ++ EvPrint ("Uploading: " +:+ path) :: failed_upload_events cfg path content r)).
  { rewrite (load_directory_run w cfg _ entries h Hd)
      by (rewrite Hmd; by destruct before).
    rewrite Hmd at 1. rewrite (upload_all_app w cfg _ _ _ _ Hbefore).
    rewrite upload_all_cons, Hpp.
    rewrite (upload_knowledge_failure w cfg r Hr path content), Hpt.
    - by rewrite <- app_assoc.
    - done.
    - by rewrite <- app_assoc. }
  split; [exact Hrun|].
  destruct (upload_all_opened w cfg before
              (h ++ [EvPrint ("Found " +:+ pretty (length (md_files directory_path entries))
                              +:+ " .md files. Uploading...")]))
    as (calls0 & Hc0 & _ & Hok0).
  rewrite Hbefore in Hc0, Hok0. simpl in Hc0, Hok0.
  rewrite (Hok0 eq_refl), opened_app in Hc0. simpl in Hc0. rewrite app_nil_r in Hc0.
  rewrite Hrun. set (h2 := h1 ++ _).
  assert (Hh2 : opened h2 = opened h ++ before ++ [path]).
  { unfold h2, failed_upload_events. rewrite !opened_app, Hc0. simpl.
    by rewrite <- app_assoc. }
  destruct (upload_all_opened w cfg after h2) as (calls & Hc & _ & Hok).
  split.
  - intros next Hnext Hpn. destruct after as [|next' after]; [done|].
    injection Hnext as ->.
    rewrite upload_all_cons, Hpn.
    pose proof (upload_knowledge_opened w cfg next
                  (h2 ++ [EvPrint ("Uploading: " +:+ next)])) as Hop.
    rewrite opened_app in Hop. simpl in Hop. rewrite app_nil_r, Hh2 in Hop.
    destruct (upload_knowledge w cfg next _) as [[[]|e] h3]; simpl in Hop.
    + destruct (upload_all_opened w cfg after h3) as (calls' & Hc' & _).
      exists calls'. rewrite Hc', Hop. by rewrite <- !app_assoc.
    + exists []. simpl. rewrite Hop. by rewrite <- !app_assoc.
  - intros Hopen Hprint Hsrv.
    pose proof (upload_all_returns w cfg after h2 Hopen Hprint Hsrv) as Hret.
    split; [done|]. rewrite Hc, (Hok Hret), Hh2. by rewrite <- !app_assoc.
Qed.

Lemma failed_upload_does_not_stop_load_witness :
  fs_dir (demo_world resp_500) "docs" = Some demo_tree ∧
  md_files "docs" demo_tree = [] ++ "docs/a.md" :: [ "docs/sub/C.MD" ] ∧
  fs_open (demo_world resp_500) "docs/a.md" = Opened "# notes" ∧
  status_code resp_500 ≠ 200 ∧
  printable (demo_world resp_500) (text resp_500) = true ∧
  load_directory (lib := demo_lib) (demo_world resp_500) demo_cfg "docs" []
  = upload_all (lib := demo_lib) (demo_world resp_500) demo_cfg [ "docs/sub/C.MD" ]
      ([ EvPrint "Found 2 .md files. Uploading..." ] ++
       [ EvPrint "Uploading: docs/a.md";
         EvOpen "docs/a.md";
         EvRequest (upload_request demo_cfg "docs/a.md" "# notes");
         EvClose "docs/a.md";
         EvPrint ("Failed to upload file: " +:+ pretty (status_code resp_500));
         EvPrint (text resp_500) ]) ∧
  opened (load_directory (lib := demo_lib) (demo_world resp_500) demo_cfg "docs" []).2
  = [ "docs/a.md"; "docs/sub/C.MD" ].
Proof.
  assert (Hr : status_code resp_500 ≠ 200) by (simpl; lia).
  destruct (failed_upload_does_not_stop_load (lib := demo_lib)
              (demo_world resp_500) demo_cfg "docs" demo_tree
              [] [ "docs/sub/C.MD" ] "docs/a.md" "# notes" resp_500
              [] [ EvPrint "Found 2 .md files. Uploading..." ]
              eq_refl eq_refl eq_refl eq_refl eq_refl eq_refl Hr eq_refl)
    as (Hrun & _ & Hall).
  split; [reflexivity|]. split; [reflexivity|]. split; [reflexivity|].
  split; [exact Hr|]. split; [reflexivity|]. split; [exact Hrun|].
  apply Hall.
  - repeat constructor. by exists "# notes".
  - repeat constructor.
  - intros p c h' _ _. exists resp_500. split; [reflexivity|]. split; [|reflexivity].
    intros E. by destruct Hr.
Defined.

(** C8 as stated fails: on a standard output of encoding ASCII the server
    answers the first upload with status 403 and a body that is not
    ASCII; printing the body raises, [load_directory] ends in that error
    and the second discovered file is never opened. *)
Lemma unencodable_failure_body_stops_load :
  md_files "docs" demo_tree = [ "docs/a.md"; "docs/sub/C.MD" ] ∧
  status_code resp_403_accent ≠ 200 ∧
  load_directory (lib := demo_lib) (ascii_world resp_403_accent) demo_cfg "docs" []
  = (Raise UnicodeEncodeError,
     [ EvPrint "Found 2 .md files. Uploading...";
       EvPrint "Uploading: docs/a.md";
       EvOpen "docs/a.md";
       EvRequest (upload_request demo_cfg "docs/a.md" "# notes");
       EvClose "docs/a.md";
       EvPrint "Failed to upload file: 403" ]) ∧
  opened (load_directory (lib := demo_lib) (ascii_world resp_403_accent)
            demo_cfg "docs" []).2 = [ "docs/a.md" ].
Proof. split; [reflexivity|]. split; [simpl; lia|]. split; reflexivity. Qed.

(** C10.  In [load_directory], when the files before [path] in the list
    of discovered files have been uploaded and [path] cannot be opened,
    the run ends there, in the error of [open], which nothing catches,
    once the line announcing [path] is written (in the error of [print]
    if the standard output cannot encode that line, the file then not
    being tried): no request is sent for [path], and the files after it
    are neither opened nor sent. *)
Theorem unreadable_file_aborts_load {lib : PyLib} (w : world) (cfg : config)
    (directory_path : string) (entries : list (string * fsnode))
    (before after : list string) (path : string) (k : oserror)
    (h h1 : list event) :
  fs_dir w directory_path = Some entries →
  md_files directory_path entries = before ++ path :: after →
  upload_all w cfg before
    (h ++ [EvPrint ("Found " +:+ pretty (length (md_files directory_path entries))
                    +:+ " .md files. Uploading...")]) = (Ok tt, h1) →
  fs_open w path = OpenFails k →
  load_directory w cfg directory_path h
  = (if printable w ("Uploading: " +:+ path)
     then (Raise (OSError k), h1 ++ [EvPrint ("Uploading: " +:+ path); EvOpen path])
     else (Raise UnicodeEncodeError, h1)) ∧
  opened (load_directory w cfg directory_path h).2
  = opened h ++ before
    ++ (if printable w ("Uploading: " +:+ path) then [path] else []) ∧
  requests_sent (load_directory w cfg directory_path h).2 = requests_sent h1 ∧
  (printable w ("Uploading: " +:+ path) = true →
   load_directory w cfg directory_path h
   = (Raise (OSError k), h1 ++ [EvPrint ("Uploading: " +:+ path); EvOpen path]) ∧
   opened (load_directory w cfg directory_path h).2 = opened h ++ before ++ [path]).
Proof.
  intros Hd Hmd Hbefore Ho.
  assert (Hrun : load_directory w cfg directory_path h
    = (if printable w ("Uploading: " +:+ path)
       then (Raise (OSError k), h1 ++ [EvPrint ("Uploading: " +:+ path); EvOpen path])
       else (Raise UnicodeEncodeError, h1))).
  { rewrite (load_directory_run w cfg _ entries h Hd)
      by (rewrite Hmd; by destruct before).
    rewrite Hmd at 1. rewrite (upload_all_app w cfg _ _ _ _ Hbefore).
    rewrite upload_all_cons.
    destruct (printable w ("Uploading: " +:+ path)); [|done].
    unfold upload_knowledge, mbind at 1, M_bind, with_open. rewrite Ho.
    by rewrite <- app_assoc. }
  destruct (upload_all_opened w cfg before
              (h ++ [EvPrint ("Found " +:+ pretty (length (md_files directory_path entries))
                              +:+ " .md files. Uploading...")]))
    as (calls0 & Hc0 & _ & Hok0).
  rewrite Hbefore in Hc0, Hok0. simpl in Hc0, Hok0.
  rewrite (Hok0 eq_refl), opened_app in Hc0. simpl in Hc0. rewrite app_nil_r in Hc0.
  rewrite Hrun. split; [done|].
  destruct (printable w ("Uploading: " +:+ path)); simpl.
  - rewrite opened_app, requests_sent_app, Hc0. simpl.
    rewrite app_nil_r, <- app_assoc. split_and!; try done.
  - rewrite Hc0, app_nil_r. split_and!; try done.
Qed.

Lemma unreadable_file_aborts_load_witness :
  fs_dir (unreadable_world resp_uploaded) "docs" = Some demo_tree ∧
  md_files "docs" demo_tree = [] ++ "docs/a.md" :: [ "docs/sub/C.MD" ] ∧
  fs_open (unreadable_world resp_uploaded) "docs/a.md" = OpenFails PermissionError ∧
  load_directory (lib := demo_lib) (unreadable_world resp_uploaded) demo_cfg "docs" []
  = (Raise (OSError PermissionError),
     [ EvPrint "Found 2 .md files. Uploading..." ] ++
     [ EvPrint ("Uploading: " +:+ "docs/a.md"); EvOpen "docs/a.md" ]) ∧
  opened (load_directory (lib := demo_lib) (unreadable_world resp_uploaded)
            demo_cfg "docs" []).2 = opened [] ++ [] ++ [ "docs/a.md" ].
Proof.
  split; [reflexivity|]. split; [reflexivity|]. split; [reflexivity|].
  destruct (unreadable_file_aborts_load (lib := demo_lib)
              (unreadable_world resp_uploaded) demo_cfg "docs" demo_tree
              [] [ "docs/sub/C.MD" ] "docs/a.md" PermissionError
              [] [ EvPrint "Found 2 .md files. Uploading..." ]
              eq_refl eq_refl eq_refl eq_refl) as (_ & _ & _ & Hprintable).
  exact (Hprintable eq_refl).
Defined.

(** * Further properties *)

(** ** The success path and the failures of an upload *)

Section UploadPaths.
Context {lib : PyLib} (w : world) (cfg : config).

Lemma upload_knowledge_with_block path content h :
  fs_open w path = Opened content →
  upload_knowledge w cfg path h
  = match server w (h ++ [EvOpen path]) (upload_request cfg path content) with
    | Some r =>
        (if decide (status_code r = 200)
         then print w "File uploaded successfully.";;
              data ← response_json r; print w (json_dumps_indent2 data)
         else print w ("Failed to upload file: " +:+ pretty (status_code r));;
              print w (text r))
          (h ++ [EvOpen path; EvRequest (upload_request cfg path content); EvClose path])
    | None =>
        (Raise RequestException,
         h ++ [EvOpen path; EvRequest (upload_request cfg path content); EvClose path])
    end.
Proof.
  intros Ho. unfold upload_knowledge.
  unfold mbind at 1, M_bind, with_open, requests_post, send. rewrite Ho.
  fold (upload_request cfg path content).
  destruct (server w _ _); by rewrite <- !app_assoc.
Qed.

Lemma upload_knowledge_success path content r data h :
  fs_open w path = Opened content →
  server w (h ++ [EvOpen path]) (upload_request cfg path content) = Some r →
  status_code r = 200 →
  json_body r = Some data →
  upload_knowledge w cfg path h
  = (Ok tt, h ++ [ EvOpen path;
                   EvRequest (upload_request cfg path content);
                   EvClose path;
                   EvPrint "File uploaded successfully.";
                   EvPrint (json_dumps_indent2 data) ]).
Proof.
  intros Ho Hs Hr Hj. rewrite (upload_knowledge_with_block _ _ _ Ho), Hs.
  destruct (decide _) as [_|]; [|done].
  rewrite bind_print_ok by done.
  unfold mbind, M_bind, response_json. rewrite Hj. simpl.
  rewrite print_ok by apply printable_ascii, json_dumps_ascii.
  by rewrite <- !app_assoc.
Qed.

(** An upload only adds events to the trace. *)
Lemma upload_knowledge_grows path h :
  ∃ evs, (upload_knowledge w cfg path h).2 = h ++ evs.
Proof.
  destruct (fs_open w path) as [content|k] eqn:Ho.
  - rewrite (upload_knowledge_with_block _ _ _ Ho).
    destruct (server w _ _) as [r|]; [|by eexists].
    destruct (decide _).
    + rewrite bind_print_ok by done.
      unfold mbind, M_bind, response_json.
      destruct (json_body r); simpl; [|rewrite <- ?app_assoc; by eexists].
      rewrite print_ok by apply printable_ascii, json_dumps_ascii.
      rewrite <- ?app_assoc; by eexists.
    + rewrite failure_report by done.
      destruct (printable w (text r)); rewrite <- ?app_assoc; by eexists.
  - unfold upload_knowledge, mbind at 1, M_bind, with_open. rewrite Ho. by eexists.
Qed.

Lemma upload_all_grows paths h :
  ∃ evs, (upload_all w cfg paths h).2 = h ++ evs.
Proof.
  revert h. induction paths as [|path paths IH]; intros h.
  - exists []. by rewrite app_nil_r.
  - rewrite upload_all_cons.
    destruct (printable w ("Uploading: " +:+ path));
      [|exists []; by rewrite app_nil_r].
    destruct (upload_knowledge_grows path (h ++ [EvPrint ("Uploading: " +:+ path)]))
      as [evs Hevs].
    destruct (upload_knowledge _ _ _ _) as [[[]|e] h1]; simpl in Hevs; subst h1.
    + destruct (IH ((h ++ [EvPrint ("Uploading: " +:+ path)]) ++ evs)) as [evs' ->].
      rewrite <- !app_assoc. by eexists.
    + rewrite <- !app_assoc. by eexists.
Qed.

(** The requests and the closed files of an upload follow from whether
    its file opens. *)
Lemma upload_knowledge_accounts path h :
  requests_sent (upload_knowledge w cfg path h).2
  = requests_sent h ++ omap (λ p, upload_request cfg p <$> content_at w p) [path] ∧
  closed (upload_knowledge w cfg path h).2
  = closed h ++ filter (λ p, is_Some (content_at w p)) [path].
Proof.
  unfold content_at. rewrite filter_cons, filter_nil. simpl omap.
  destruct (fs_open w path) as [content|k] eqn:Ho.
  - rewrite decide_True by done. simpl.
    split; [by apply upload_knowledge_requests|].
    rewrite (upload_knowledge_with_block _ _ _ Ho).
    assert (Hk : ∀ line, keeps closed (print w line)).
    { intros line. apply print_keeps. intros h' l.
      unfold closed. rewrite omap_app. simpl. apply app_nil_r. }
    destruct (server w _ _) as [r|]; simpl.
    + rewrite (upload_report_keeps w closed r Hk).
      unfold closed. rewrite omap_app. simpl. done.
    + unfold closed. rewrite omap_app. simpl. done.
  - rewrite decide_False by (intros [? ?]; done). simpl.
    unfold upload_knowledge, mbind at 1, M_bind, with_open. rewrite Ho. simpl.
    unfold requests_sent, closed. rewrite !omap_app. simpl. by rewrite !app_nil_r.
Qed.
End UploadPaths.

(** X1.  When the file opens and the server answers the upload with
    status 200 and a JSON body, [upload_knowledge] closes the file,
    prints the success line and then the body as [json.dumps] with
    indent 2 renders it, and returns normally. *)
Theorem upload_success_prints_json {lib : PyLib} (w : world) (cfg : config)
    (path content : string) (r : http_response) (data : json) (h : list event) :
  fs_open w path = Opened content →
  server w (h ++ [EvOpen path]) (upload_request cfg path content) = Some r →
  status_code r = 200 →
  json_body r = Some data →
  upload_knowledge w cfg path h
  = (Ok tt, h ++ [ EvOpen path;
                   EvRequest (upload_request cfg path content);
                   EvClose path;
                   EvPrint "File uploaded successfully.";
                   EvPrint (json_dumps_indent2 data) ]).
Proof. apply upload_knowledge_success. Qed.

Lemma upload_success_prints_json_witness :
  fs_open (demo_world resp_uploaded) "docs/a.md" = Opened "# notes" ∧
  status_code resp_uploaded = 200 ∧
  upload_knowledge (lib := demo_lib) (demo_world resp_uploaded) demo_cfg "docs/a.md" []
  = (Ok tt, [] ++ [ EvOpen "docs/a.md";
                    EvRequest (upload_request demo_cfg "docs/a.md" "# notes");
                    EvClose "docs/a.md";
                    EvPrint "File uploaded successfully.";
                    EvPrint (@json_dumps_indent2 demo_lib (JObj ∅)) ]).
Proof.
  split; [reflexivity|]. split; [reflexivity|].
  apply (upload_success_prints_json (lib := demo_lib) (demo_world resp_uploaded)
           demo_cfg "docs/a.md" "# notes" resp_uploaded (JObj ∅) []); reflexivity.
Defined.

(** X2.  When the server answers an upload with status 200 and a body
    that is not JSON, [upload_knowledge] has already printed the success
    line when [response.json()] raises: the run ends in the decode error
    after that line. *)
Theorem upload_200_not_json_raises {lib : PyLib} (w : world) (cfg : config)
    (path content : string) (r : http_response) (h : list event) :
  fs_open w path = Opened content →
  server w (h ++ [EvOpen path]) (upload_request cfg path content) = Some r →
  status_code r = 200 →
  json_body r = None →
  upload_knowledge w cfg path h
  = (Raise JSONDecodeError,
     h ++ [ EvOpen path;
            EvRequest (upload_request cfg path content);
            EvClose path;
            EvPrint "File uploaded successfully." ]).
Proof.
  intros Ho Hs Hr Hj. rewrite (upload_knowledge_with_block w cfg _ _ _ Ho), Hs.
  destruct (decide _) as [_|]; [|done].
  rewrite bind_print_ok by done.
  unfold mbind, M_bind, response_json. rewrite Hj. simpl.
  by rewrite <- !app_assoc.
Qed.

Lemma upload_200_not_json_raises_witness :
  fs_open (demo_world resp_not_json) "docs/a.md" = Opened "# notes" ∧
  status_code resp_not_json = 200 ∧
  json_body resp_not_json = None ∧
  upload_knowledge (lib := demo_lib) (demo_world resp_not_json) demo_cfg "docs/a.md" []
  = (Raise JSONDecodeError,
     [] ++ [ EvOpen "docs/a.md";
             EvRequest (upload_request demo_cfg "docs/a.md" "# notes");
             EvClose "docs/a.md";
             EvPrint "File uploaded successfully." ]).
Proof.
  split; [reflexivity|]. split; [reflexivity|]. split; [reflexivity|].
  apply (upload_200_not_json_raises (lib := demo_lib) (demo_world resp_not_json)
           demo_cfg "docs/a.md" "# notes" resp_not_json []); reflexivity.
Defined.

(** X3.  When the file cannot be opened, [upload_knowledge] ends in the
    error of [open] right after the attempt: it sends no request, prints
    nothing and has no file to close. *)
Theorem upload_unopenable_sends_nothing {lib : PyLib} (w : world) (cfg : config)
    (path : string) (k : oserror) (h : list event) :
  fs_open w path = OpenFails k →
  upload_knowledge w cfg path h = (Raise (OSError k), h ++ [EvOpen path]) ∧
  requests_sent (upload_knowledge w cfg path h).2 = requests_sent h ∧
  printed (upload_knowledge w cfg path h).2 = printed h ∧
  closed (upload_knowledge w cfg path h).2 = closed h.
Proof.
  intros Ho.
  assert (Hrun : upload_knowledge w cfg path h = (Raise (OSError k), h ++ [EvOpen path])).
  { unfold upload_knowledge, mbind at 1, M_bind, with_open. by rewrite Ho. }
  rewrite Hrun. simpl. unfold requests_sent, printed, closed.
  rewrite !omap_app. simpl. by rewrite !app_nil_r.
Qed.

Lemma upload_unopenable_sends_nothing_witness :
  fs_open (unreadable_world resp_uploaded) "docs/a.md" = OpenFails PermissionError ∧
  upload_knowledge (lib := demo_lib) (unreadable_world resp_uploaded) demo_cfg "docs/a.md" []
  = (Raise (OSError PermissionError), [] ++ [EvOpen "docs/a.md"]).
Proof.
  split; [reflexivity|].
  apply (upload_unopenable_sends_nothing (lib := demo_lib)
           (unreadable_world resp_uploaded) demo_cfg "docs/a.md" PermissionError []).
  reflexivity.
Defined.

(** ** Answers the operations do not handle *)

Section Unhandled.
Context {lib : PyLib} (w : world) (cfg : config).

(** What the three JSON operations do once the request is answered. *)
Lemma list_knowledge_answered r h :
  server w h (list_knowledge_request cfg) = Some r →
  status_code r = 200 →
  list_knowledge w cfg h
  = (data ← response_json r;
     print w "Knowledge documents:";;
     docs ← lift (py_iter data);
     for_each docs (print_document w)) (h ++ [EvRequest (list_knowledge_request cfg)]).
Proof.
  intros Hs Hr. unfold list_knowledge, requests_get.
  fold (list_knowledge_request cfg).
  unfold mbind at 1, M_bind, send. rewrite Hs.
  by destruct (decide _).
Qed.

Lemma list_models_answered r h :
  server w h (list_models_request cfg) = Some r →
  status_code r = 200 →
  list_models w cfg h
  = (data ← response_json r;
     print w "Available models:";;
     models ← lift (py_get data "data" (JArr []));
     models ← lift (py_iter models);
     for_each models (print_model w)) (h ++ [EvRequest (list_models_request cfg)]).
Proof.
  intros Hs Hr. unfold list_models, requests_get.
  fold (list_models_request cfg).
  unfold mbind at 1, M_bind, send. rewrite Hs.
  by destruct (decide _).
Qed.

Lemma ask_question_answered question model knowledge_ids r h :
  server w h (ask_request cfg question model knowledge_ids) = Some r →
  status_code r = 200 →
  ask_question w cfg question model knowledge_ids h
  = (data ← response_json r;
     print w "Response:";;
     choices ← lift (py_get data "choices" (JArr []));
     choices ← lift (py_iter choices);
     for_each choices (print_choice w))
      (h ++ [EvRequest (ask_request cfg question model knowledge_ids)]).
Proof.
  intros Hs Hr. unfold ask_question, requests_post.
  fold (ask_request cfg question model knowledge_ids).
  unfold mbind at 1, M_bind, send. rewrite Hs.
  by destruct (decide _).
Qed.

(** The line of a model is written if the standard output can encode
    it; the loop stops at the first line it cannot. *)
Lemma print_model_entry model h :
  is_dict model = true →
  print_model w model h
  = (if lines_printable w (model_lines model) then Ok tt else Raise UnicodeEncodeError,
     h ++ printed_prefix w (model_lines model)).
Proof.
  intros Hm. destruct model; try done.
  unfold print_model, mbind, M_bind, lift. simpl py_get. cbv beta iota.
  apply prints_one.
Qed.

Lemma print_models_entries models h :
  forallb is_dict models = true →
  for_each models (print_model w) h
  = (if lines_printable w (models ≫= model_lines) then Ok tt else Raise UnicodeEncodeError,
     h ++ printed_prefix w (models ≫= model_lines)).
Proof.
  intros Hall. apply for_each_prints. intros model h' Hin.
  apply print_model_entry.
  rewrite forallb_forall in Hall. apply Hall. by apply list_elem_of_In.
Qed.

Lemma print_choice_bad_content c m v h :
  c !! "message" = Some (JObj m) → m !! "content" = Some v → is_str v = false →
  print_choice w (JObj c) h = (Raise AttributeError, h).
Proof.
  intros Hc Hm Hv. unfold print_choice, mbind, M_bind, lift. simpl.
  rewrite Hc. simpl. rewrite Hm. simpl. by destruct v.
Qed.
End Unhandled.

(** X4.  When no HTTP response arrives, each operation ends in the
    exception of [requests] right after the request: nothing is printed;
    [upload_knowledge] has closed its file. *)
Theorem transport_error_propagates {lib : PyLib} (w : world) (cfg : config)
    (h : list event) :
  (∀ path content,
     fs_open w path = Opened content →
     server w (h ++ [EvOpen path]) (upload_request cfg path content) = None →
     upload_knowledge w cfg path h
     = (Raise RequestException,
        h ++ [ EvOpen path; EvRequest (upload_request cfg path content); EvClose path ])) ∧
  (server w h (list_knowledge_request cfg) = None →
     list_knowledge w cfg h
     = (Raise RequestException, h ++ [EvRequest (list_knowledge_request cfg)])) ∧
  (server w h (list_models_request cfg) = None →
     list_models w cfg h
     = (Raise RequestException, h ++ [EvRequest (list_models_request cfg)])) ∧
  (∀ question model knowledge_ids,
     server w h (ask_request cfg question model knowledge_ids) = None →
     ask_question w cfg question model knowledge_ids h
     = (Raise RequestException,
        h ++ [EvRequest (ask_request cfg question model knowledge_ids)])).
Proof.
  split_and!.
  - intros path content Ho Hs.
    by rewrite (upload_knowledge_with_block w cfg _ _ _ Ho), Hs.
  - intros Hs. unfold list_knowledge, requests_get.
    fold (list_knowledge_request cfg). unfold mbind at 1, M_bind, send. by rewrite Hs.
  - intros Hs. unfold list_models, requests_get.
    fold (list_models_request cfg). unfold mbind at 1, M_bind, send. by rewrite Hs.
  - intros question model knowledge_ids Hs. unfold ask_question, requests_post.
    fold (ask_request cfg question model knowledge_ids).
    unfold mbind at 1, M_bind, send. by rewrite Hs.
Qed.

Lemma transport_error_propagates_witness :
  upload_knowledge (lib := demo_lib) (offline_world demo_tree) demo_cfg "docs/a.md" []
  = (Raise RequestException,
     [] ++ [ EvOpen "docs/a.md";
             EvRequest (upload_request demo_cfg "docs/a.md" "# notes");
             EvClose "docs/a.md" ]) ∧
  list_knowledge (lib := demo_lib) (offline_world demo_tree) demo_cfg []
  = (Raise RequestException, [] ++ [EvRequest (list_knowledge_request demo_cfg)]) ∧
  list_models (lib := demo_lib) (offline_world demo_tree) demo_cfg []
  = (Raise RequestException, [] ++ [EvRequest (list_models_request demo_cfg)]) ∧
  ask_question (offline_world demo_tree) demo_cfg "What is in my notes?" "llama3" None []
  = (Raise RequestException,
     [] ++ [EvRequest (ask_request demo_cfg "What is in my notes?" "llama3" None)]).
Proof.
  destruct (transport_error_propagates (lib := demo_lib)
              (offline_world demo_tree) demo_cfg [])
    as (Hup & Hlk & Hlm & Hask).
  split_and!.
  - apply (Hup "docs/a.md" "# notes"); reflexivity.
  - apply Hlk; reflexivity.
  - apply Hlm; reflexivity.
  - apply (Hask "What is in my notes?" "llama3" None); reflexivity.
Defined.

(** X5.  When the server answers status 200 with a body that is not
    JSON, [list_knowledge], [list_models] and [ask_question] end in the
    decode error before they print anything, their header line
    included. *)
Theorem not_json_200_raises_before_header {lib : PyLib} (w : world) (cfg : config)
    (r : http_response) (h : list event) :
  status_code r = 200 →
  json_body r = None →
  (server w h (list_knowledge_request cfg) = Some r →
     list_knowledge w cfg h
     = (Raise JSONDecodeError, h ++ [EvRequest (list_knowledge_request cfg)])) ∧
  (server w h (list_models_request cfg) = Some r →
     list_models w cfg h
     = (Raise JSONDecodeError, h ++ [EvRequest (list_models_request cfg)])) ∧
  (∀ question model knowledge_ids,
     server w h (ask_request cfg question model knowledge_ids) = Some r →
     ask_question w cfg question model knowledge_ids h
     = (Raise JSONDecodeError,
        h ++ [EvRequest (ask_request cfg question model knowledge_ids)])).
Proof.
  intros Hr Hj. split_and!.
  - intros Hs. rewrite (list_knowledge_answered w cfg r h Hs Hr).
    unfold response_json. by rewrite Hj.
  - intros Hs. rewrite (list_models_answered w cfg r h Hs Hr).
    unfold response_json. by rewrite Hj.
  - intros question model knowledge_ids Hs.
    rewrite (ask_question_answered w cfg _ _ _ r h Hs Hr).
    unfold response_json. by rewrite Hj.
Qed.

Lemma not_json_200_raises_before_header_witness :
  status_code resp_not_json = 200 ∧
  json_body resp_not_json = None ∧
  list_knowledge (lib := demo_lib) (demo_world resp_not_json) demo_cfg []
  = (Raise JSONDecodeError, [] ++ [EvRequest (list_knowledge_request demo_cfg)]) ∧
  list_models (lib := demo_lib) (demo_world resp_not_json) demo_cfg []
  = (Raise JSONDecodeError, [] ++ [EvRequest (list_models_request demo_cfg)]) ∧
  ask_question (demo_world resp_not_json) demo_cfg "What is in my notes?" "llama3" None []
  = (Raise JSONDecodeError,
     [] ++ [EvRequest (ask_request demo_cfg "What is in my notes?" "llama3" None)]).
Proof.
  destruct (not_json_200_raises_before_header (lib := demo_lib)
              (demo_world resp_not_json) demo_cfg resp_not_json [] eq_refl eq_refl)
    as (Hlk & Hlm & Hask).
  split; [reflexivity|]. split; [reflexivity|]. split_and!.
  - apply Hlk; reflexivity.
  - apply Hlm; reflexivity.
  - apply (Hask "What is in my notes?" "llama3" None); reflexivity.
Defined.

(** X6.  When the server answers status 200 with a JSON body of the
    wrong shape, the header line is printed and then the run ends in an
    exception: an [AttributeError] when the body of a model listing or of
    a chat answer is not a mapping, a [TypeError] when the body of a
    knowledge listing is null, a boolean or a number. *)
Theorem wrong_shape_raises_after_header {lib : PyLib} (w : world) (cfg : config)
    (r : http_response) (data : json) (h : list event) :
  status_code r = 200 →
  json_body r = Some data →
  (is_dict data = false →
   server w h (list_models_request cfg) = Some r →
     list_models w cfg h
     = (Raise AttributeError,
        h ++ [EvRequest (list_models_request cfg); EvPrint "Available models:"])) ∧
  (is_dict data = false →
   ∀ question model knowledge_ids,
     server w h (ask_request cfg question model knowledge_ids) = Some r →
     ask_question w cfg question model knowledge_ids h
     = (Raise AttributeError,
        h ++ [ EvRequest (ask_request cfg question model knowledge_ids);
               EvPrint "Response:" ])) ∧
  (is_scalar data = true →
   server w h (list_knowledge_request cfg) = Some r →
     list_knowledge w cfg h
     = (Raise TypeError,
        h ++ [EvRequest (list_knowledge_request cfg); EvPrint "Knowledge documents:"])).
Proof.
  intros Hr Hj. split_and!.
  - intros Hd Hs. rewrite (list_models_answered w cfg r h Hs Hr).
    unfold response_json. rewrite Hj.
    unfold mbind at 1, M_bind, mret, M_ret. rewrite bind_print_ok by done.
    unfold mbind, M_bind, lift.
    rewrite <- app_assoc. by destruct data.
  - intros Hd question model knowledge_ids Hs.
    rewrite (ask_question_answered w cfg _ _ _ r h Hs Hr).
    unfold response_json. rewrite Hj.
    unfold mbind at 1, M_bind, mret, M_ret. rewrite bind_print_ok by done.
    unfold mbind, M_bind, lift.
    rewrite <- app_assoc. by destruct data.
  - intros Hd Hs. rewrite (list_knowledge_answered w cfg r h Hs Hr).
    unfold response_json. rewrite Hj.
    unfold mbind at 1, M_bind, mret, M_ret. rewrite bind_print_ok by done.
    unfold mbind, M_bind, lift.
    rewrite <- app_assoc. by destruct data.
Qed.

Lemma wrong_shape_raises_after_header_witness :
  status_code resp_null_body = 200 ∧
  json_body resp_null_body = Some JNull ∧
  list_models (lib := demo_lib) (demo_world resp_null_body) demo_cfg []
  = (Raise AttributeError,
     [] ++ [EvRequest (list_models_request demo_cfg); EvPrint "Available models:"]) ∧
  ask_question (demo_world resp_null_body) demo_cfg "What is in my notes?" "llama3" None []
  = (Raise AttributeError,
     [] ++ [ EvRequest (ask_request demo_cfg "What is in my notes?" "llama3" None);
             EvPrint "Response:" ]) ∧
  list_knowledge (lib := demo_lib) (demo_world resp_null_body) demo_cfg []
  = (Raise TypeError,
     [] ++ [EvRequest (list_knowledge_request demo_cfg); EvPrint "Knowledge documents:"]).
Proof.
  destruct (wrong_shape_raises_after_header (lib := demo_lib)
              (demo_world resp_null_body) demo_cfg resp_null_body JNull []
              eq_refl eq_refl)
    as (Hlm & Hask & Hlk).
  split; [reflexivity|]. split; [reflexivity|]. split_and!.
  - apply Hlm; reflexivity.
  - apply (Hask eq_refl "What is in my notes?" "llama3" None); reflexivity.
  - apply Hlk; reflexivity.
Defined.

(** ** Listing the models *)

(** X7.  When the server answers the model listing with status 200 and a
    JSON mapping whose ["data"] (nothing when the key is absent) is a
    list of mappings, [list_models] prints ["Available models:"] and
    then one line [- name] per model in order, [- None] for a model
    without ["name"]; it returns normally when the standard output can
    encode every one of these lines, and otherwise ends in the
    [UnicodeEncodeError] of [print] at the first line it cannot encode,
    the lines before it written. *)
Theorem list_models_prints_names {lib : PyLib} (w : world) (cfg : config)
    (r : http_response) (data : gmap string json) (models : list json)
    (h : list event) :
  server w h (list_models_request cfg) = Some r →
  status_code r = 200 →
  json_body r = Some (JObj data) →
  default (JArr []) (data !! "data") = JArr models →
  forallb is_dict models = true →
  list_models w cfg h
  = (if lines_printable w (models ≫= model_lines)
     then Ok tt else Raise UnicodeEncodeError,
     h ++ [ EvRequest (list_models_request cfg); EvPrint "Available models:" ]
       ++ printed_prefix w (models ≫= model_lines)) ∧
  (lines_printable w (models ≫= model_lines) = true →
   list_models w cfg h
   = (Ok tt,
      h ++ [ EvRequest (list_models_request cfg); EvPrint "Available models:" ]
        ++ (models ≫= model_lines))) ∧
  ∀ m : gmap string json,
    (∀ name, m !! "name" = Some (JStr name) →
       model_lines (JObj m) = [EvPrint ("- " +:+ name)]) ∧
    (m !! "name" = None → model_lines (JObj m) = [EvPrint "- None"]).
Proof.
  intros Hs Hr Hj Hd Hall.
  assert (Hrun : list_models w cfg h
    = (if lines_printable w (models ≫= model_lines)
       then Ok tt else Raise UnicodeEncodeError,
       h ++ [ EvRequest (list_models_request cfg); EvPrint "Available models:" ]
         ++ printed_prefix w (models ≫= model_lines))).
  { rewrite (list_models_answered w cfg r h Hs Hr).
    unfold response_json. rewrite Hj.
    unfold mbind at 1, M_bind, mret, M_ret.
    rewrite bind_print_ok by done.
    unfold mbind at 1, M_bind, lift, py_get. rewrite Hd.
    unfold mbind at 1, M_bind, py_iter.
    rewrite print_models_entries by done. by rewrite <- !app_assoc. }
  split_and!.
  - exact Hrun.
  - intros Hp. by rewrite Hrun, Hp, (printed_prefix_all w _ Hp).
  - intros m. split.
    + intros name Hn. simpl. by rewrite Hn.
    + intros Hn. simpl. by rewrite Hn.
Qed.

(** On a standard output that encodes everything the two models are
    listed; on one of encoding ASCII the listing stops at a first model
    whose name has an accent. *)
Lemma list_models_prints_names_witness :
  server (demo_world resp_models) [] (list_models_request demo_cfg) = Some resp_models ∧
  status_code resp_models = 200 ∧
  printed (list_models (lib := demo_lib) (demo_world resp_models) demo_cfg []).2
  = [ "Available models:"; "- llama3"; "- None" ] ∧
  list_models (lib := demo_lib) (ascii_world resp_models_accent) demo_cfg []
  = (Raise UnicodeEncodeError,
     [ EvRequest (list_models_request demo_cfg); EvPrint "Available models:" ]).
Proof.
  split; [reflexivity|]. split; [reflexivity|].
  destruct (list_models_prints_names (lib := demo_lib)
              (demo_world resp_models) demo_cfg resp_models
              {[ "data" :=
                   JArr [ JObj {[ "id" := JStr "m1"; "name" := JStr "llama3" ]};
                          JObj {[ "id" := JStr "m2" ]} ] ]}
              [ JObj {[ "id" := JStr "m1"; "name" := JStr "llama3" ]};
                JObj {[ "id" := JStr "m2" ]} ] [])
    as (Hrun & _ & _); [reflexivity..|].
  destruct (list_models_prints_names (lib := demo_lib)
              (ascii_world resp_models_accent) demo_cfg resp_models_accent
              {[ "data" :=
                   JArr [ JObj {[ "name" := JStr ("mod" +:+ e_acute +:+ "le") ]};
                          JObj {[ "name" := JStr "llama3" ]} ] ]}
              [ JObj {[ "name" := JStr ("mod" +:+ e_acute +:+ "le") ]};
                JObj {[ "name" := JStr "llama3" ]} ] [])
    as (Hstop & _ & _); [reflexivity..|].
  split; [rewrite Hrun; reflexivity|]. rewrite Hstop. reflexivity.
Defined.
(** ** A choice without text *)

(** X8.  When a 200 chat answer holds a choice whose message content is
    present but not a string ([null], say), and the choices before it
    have a content, [ask_question] ends in an [AttributeError] at that
    choice: the earlier choices are printed, that one and the later ones
    are not.  (Should the standard output be unable to encode an earlier
    content, the run ends before, at that content, in the error of
    [print].) *)
Theorem ask_null_content_raises (w : world) (cfg : config)
    (question model : string) (knowledge_ids : option (list string))
    (r : http_response) (data : gmap string json)
    (before after : list json) (contents : list string)
    (c m : gmap string json) (v : json) (h : list event) :
  server w h (ask_request cfg question model knowledge_ids) = Some r →
  status_code r = 200 →
  json_body r = Some (JObj data) →
  data !! "choices" = Some (JArr (before ++ JObj c :: after)) →
  mapM content_of before = Some contents →
  c !! "message" = Some (JObj m) →
  m !! "content" = Some v →
  is_str v = false →
  ask_question w cfg question model knowledge_ids h
  = (if lines_printable w (contents ≫= λ s, [EvPrint (unescape_newlines s); EvPrint ""])
     then Raise AttributeError else Raise UnicodeEncodeError,
     h ++ [ EvRequest (ask_request cfg question model knowledge_ids);
            EvPrint "Response:" ]
       ++ printed_prefix w
            (contents ≫= λ s, [EvPrint (unescape_newlines s); EvPrint ""])) ∧
  (Forall (λ s, printable w (unescape_newlines s) = true) contents →
   ask_question w cfg question model knowledge_ids h
   = (Raise AttributeError,
      h ++ [ EvRequest (ask_request cfg question model knowledge_ids);
             EvPrint "Response:" ]
        ++ (contents ≫= λ s, [EvPrint (unescape_newlines s); EvPrint ""]))).
Proof.
  intros Hs Hr Hj Hd Hb Hc Hm Hv. apply mapM_Some in Hb.
  assert (Hrun : ask_question w cfg question model knowledge_ids h
    = (if lines_printable w (contents ≫= λ s, [EvPrint (unescape_newlines s); EvPrint ""])
       then Raise AttributeError else Raise UnicodeEncodeError,
       h ++ [ EvRequest (ask_request cfg question model knowledge_ids);
              EvPrint "Response:" ]
         ++ printed_prefix w
              (contents ≫= λ s, [EvPrint (unescape_newlines s); EvPrint ""]))).
  { assert (Hd' : default (JArr []) (data !! "choices") = JArr (before ++ JObj c :: after))
      by (by rewrite Hd).
    rewrite (ask_question_200 w cfg _ _ _ r data _ h Hs Hr Hj Hd').
    pose proof (print_choices_contents w before contents
                  (h ++ [ EvRequest (ask_request cfg question model knowledge_ids);
                          EvPrint "Response:" ]) Hb) as Hloop.
    destruct (lines_printable w _) eqn:Hp.
    - rewrite (for_each_app _ _ _ _ _ Hloop). simpl.
      erewrite bind_raise by (by eapply print_choice_bad_content).
      by rewrite <- !app_assoc.
    - rewrite (for_each_app_raise _ _ _ _ _ _ Hloop). by rewrite <- !app_assoc. }
  split; [exact Hrun|].
  intros Hp. pose proof (contents_printable w contents Hp) as Hall.
  by rewrite Hrun, Hall, (printed_prefix_all w _ Hall).
Qed.

Lemma ask_null_content_raises_witness :
  server (demo_world resp_chat_null_content) []
    (ask_request demo_cfg "What is in my notes?" "llama3" None)
    = Some resp_chat_null_content ∧
  status_code resp_chat_null_content = 200 ∧
  ask_question (demo_world resp_chat_null_content) demo_cfg
    "What is in my notes?" "llama3" None []
  = (Raise AttributeError,
     [ EvRequest (ask_request demo_cfg "What is in my notes?" "llama3" None);
       EvPrint "Response:"; EvPrint "first"; EvPrint "" ]).
Proof.
  split; [reflexivity|]. split; [reflexivity|].
  refine (proj2 (ask_null_content_raises (demo_world resp_chat_null_content) demo_cfg
             "What is in my notes?" "llama3" None resp_chat_null_content
             {[ "choices" :=
                  JArr [ JObj {[ "message" := JObj {[ "content" := JStr "first" ]} ]};
                         JObj {[ "message" := JObj {[ "content" := JNull ]} ]};
                         JObj {[ "message" := JObj {[ "content" := JStr "third" ]} ]} ] ]}
             [ JObj {[ "message" := JObj {[ "content" := JStr "first" ]} ]} ]
             [ JObj {[ "message" := JObj {[ "content" := JStr "third" ]} ]} ]
             [ "first" ]
             {[ "message" := JObj {[ "content" := JNull ]} ]}
             {[ "content" := JNull ]} JNull []
             eq_refl eq_refl eq_refl eq_refl eq_refl eq_refl eq_refl eq_refl) _).
  repeat constructor.
Defined.

(** ** More on loading a directory *)

Section DirectoryLoad.
Context {lib : PyLib} (w : world) (cfg : config).

Lemma upload_all_accounts paths h :
  ∃ calls,
    opened (upload_all w cfg paths h).2 = opened h ++ calls ∧
    requests_sent (upload_all w cfg paths h).2
    = requests_sent h ++ omap (λ p, upload_request cfg p <$> content_at w p) calls ∧
    closed (upload_all w cfg paths h).2
    = closed h ++ filter (λ p, is_Some (content_at w p)) calls.
Proof.
  revert h. induction paths as [|path paths IH]; intros h.
  - exists []. simpl. by rewrite !app_nil_r.
  - rewrite upload_all_cons.
    destruct (printable w ("Uploading: " +:+ path));
      [|exists []; simpl; by rewrite !app_nil_r].
    set (h0 := h ++ [EvPrint ("Uploading: " +:+ path)]).
    pose proof (upload_knowledge_opened w cfg path h0) as Hop.
    destruct (upload_knowledge_accounts w cfg path h0) as [Hrq Hcl].
    assert (Hh0 : opened h0 = opened h ∧ requests_sent h0 = requests_sent h ∧
                  closed h0 = closed h).
    { unfold h0, opened, requests_sent, closed. rewrite !omap_app. simpl.
      by rewrite !app_nil_r. }
    destruct Hh0 as (Ho0 & Hr0 & Hc0). rewrite Ho0 in Hop. rewrite Hr0 in Hrq.
    rewrite Hc0 in Hcl.
    destruct (upload_knowledge w cfg path h0) as [[[]|e] h1]; simpl in Hop, Hrq, Hcl.
    + destruct (IH h1) as (calls & Hc1 & Hc2 & Hc3).
      exists (path :: calls). rewrite Hc1, Hc2, Hc3, Hop, Hrq, Hcl.
      change (path :: calls) with ([path] ++ calls).
      rewrite omap_app, filter_app, <- !app_assoc. done.
    + exists [path]. by simpl.
Qed.

Lemma load_directory_accounts directory_path h :
  ∃ calls,
    opened (load_directory w cfg directory_path h).2 = opened h ++ calls ∧
    requests_sent (load_directory w cfg directory_path h).2
    = requests_sent h ++ omap (λ p, upload_request cfg p <$> content_at w p) calls ∧
    closed (load_directory w cfg directory_path h).2
    = closed h ++ filter (λ p, is_Some (content_at w p)) calls.
Proof.
  assert (Hline : ∀ line,
    opened (h ++ [EvPrint line]) = opened h ∧
    requests_sent (h ++ [EvPrint line]) = requests_sent h ∧
    closed (h ++ [EvPrint line]) = closed h).
  { intros line. unfold opened, requests_sent, closed. rewrite !omap_app. simpl.
    by rewrite !app_nil_r. }
  assert (Hprint : ∀ line,
    opened (print w line h).2 = opened h ∧
    requests_sent (print w line h).2 = requests_sent h ∧
    closed (print w line h).2 = closed h).
  { intros line. unfold print. destruct (printable w line); [apply Hline|done]. }
  unfold load_directory. destruct (fs_dir w directory_path) as [entries|].
  - destruct (md_files directory_path entries) as [|path paths] eqn:Hmd.
    + exists []. simpl. destruct (Hprint ("No .md files found in " +:+ directory_path))
        as (-> & -> & ->). by rewrite !app_nil_r.
    + rewrite bind_print_ok by apply printable_found.
      fold (upload_all w cfg (path :: paths)).
      set (line := "Found " +:+ _).
      destruct (upload_all_accounts (path :: paths) (h ++ [EvPrint line]))
        as (calls & H1 & H2 & H3).
      destruct (Hline line) as (E1 & E2 & E3). rewrite E1 in H1. rewrite E2 in H2.
      rewrite E3 in H3. by exists calls.
  - exists []. simpl.
    destruct (Hprint ("Error: " +:+ directory_path +:+ " is not a valid directory"))
      as (-> & -> & ->). by rewrite !app_nil_r.
Qed.

(** A loop whose files all open, are announced and are answered with
    status 200 and a JSON body: each file prints its three lines, the
    last of them the body the server returned for that file. *)
Lemma upload_all_success paths h :
  Forall (λ path, ∃ content, fs_open w path = Opened content) paths →
  Forall (λ path, printable w ("Uploading: " +:+ path) = true) paths →
  (∀ path content h', path ∈ paths → fs_open w path = Opened content →
     ∃ r data, server w h' (upload_request cfg path content) = Some r ∧
               status_code r = 200 ∧ json_body r = Some data) →
  (upload_all w cfg paths h).1 = Ok tt ∧
  ∃ datas,
    Forall2 (λ path data, ∃ content h' r,
               fs_open w path = Opened content ∧
               server w h' (upload_request cfg path content) = Some r ∧
               json_body r = Some data) paths datas ∧
    printed (upload_all w cfg paths h).2
    = printed h ++ (zip paths datas ≫= λ pd, uploaded_lines pd.2 pd.1).
Proof.
  intros Hopen. revert h.
  induction Hopen as [|path paths [content Ho] _ IH]; intros h Hprint Hsrv.
  - split; [done|]. exists []. split; [constructor|]. simpl. by rewrite app_nil_r.
  - apply Forall_cons in Hprint as [Hp Hprint].
    destruct (Hsrv path content ((h ++ [EvPrint ("Uploading: " +:+ path)]) ++ [EvOpen path]))
      as (r & data & Hs & Hr & Hj); [by left|done|].
    rewrite upload_all_cons, Hp.
    rewrite (upload_knowledge_success w cfg path content r data _ Ho Hs Hr Hj).
    destruct (IH ((h ++ [EvPrint ("Uploading: " +:+ path)]) ++
                  [ EvOpen path; EvRequest (upload_request cfg path content);
                    EvClose path; EvPrint "File uploaded successfully.";
                    EvPrint (json_dumps_indent2 data) ]) Hprint)
      as (Hok & datas & Hall & Hpr).
    { intros p c h' Hin. apply Hsrv. by right. }
    split; [done|]. exists (data :: datas). split.
    + constructor; [|done].
      by exists content, ((h ++ [EvPrint ("Uploading: " +:+ path)]) ++ [EvOpen path]), r.
    + rewrite Hpr. unfold printed. rewrite !omap_app. csimpl.
      by rewrite <- !app_assoc.
Qed.
End DirectoryLoad.

(** X9.  [load_directory] does nothing but print one line when there is
    nothing to load: for a path that is not a directory the line says so,
    for a directory without a file whose name ends in [.md] it says that
    none was found.  In both cases it returns normally once the line is
    written (it ends in the [UnicodeEncodeError] of [print], with nothing
    written, when the standard output cannot encode the line, which
    holds the path); it opens no file and sends no request. *)
Theorem load_directory_nothing_to_load {lib : PyLib} (w : world) (cfg : config)
    (directory_path : string) (h : list event) :
  (fs_dir w directory_path = None →
     load_directory w cfg directory_path h
     = if printable w ("Error: " +:+ directory_path +:+ " is not a valid directory")
       then (Ok tt, h ++ [EvPrint ("Error: " +:+ directory_path
                                   +:+ " is not a valid directory")])
       else (Raise UnicodeEncodeError, h)) ∧
  (∀ entries,
     fs_dir w directory_path = Some entries →
     md_count entries = 0%nat →
     load_directory w cfg directory_path h
     = if printable w ("No .md files found in " +:+ directory_path)
       then (Ok tt, h ++ [EvPrint ("No .md files found in " +:+ directory_path)])
       else (Raise UnicodeEncodeError, h)) ∧
  ((fs_dir w directory_path = None ∨
    ∃ entries, fs_dir w directory_path = Some entries ∧ md_count entries = 0%nat) →
   opened (load_directory w cfg directory_path h).2 = opened h ∧
   requests_sent (load_directory w cfg directory_path h).2 = requests_sent h).
Proof.
  assert (Hnot : fs_dir w directory_path = None →
     load_directory w cfg directory_path h
     = print w ("Error: " +:+ directory_path +:+ " is not a valid directory") h).
  { intros Hd. unfold load_directory. by rewrite Hd. }
  assert (Hnone : ∀ entries,
     fs_dir w directory_path = Some entries →
     md_count entries = 0%nat →
     load_directory w cfg directory_path h
     = print w ("No .md files found in " +:+ directory_path) h).
  { intros entries Hd Hn. unfold load_directory. rewrite Hd.
    rewrite <- (md_files_length directory_path) in Hn.
    by destruct (md_files directory_path entries). }
  split_and!.
  - intros Hd. by rewrite (Hnot Hd).
  - intros entries Hd Hn. by rewrite (Hnone entries Hd Hn).
  - intros [Hd|(entries & Hd & Hn)].
    + rewrite (Hnot Hd).
      split; [apply keeps_opened_print|apply keeps_requests_print].
    + rewrite (Hnone entries Hd Hn).
      split; [apply keeps_opened_print|apply keeps_requests_print].
Qed.

Lemma load_directory_nothing_to_load_witness :
  fs_dir (offline_world plain_tree) "notes" = None ∧
  load_directory (lib := demo_lib) (offline_world plain_tree) demo_cfg "notes" []
  = (Ok tt, [] ++ [EvPrint "Error: notes is not a valid directory"]) ∧
  fs_dir (offline_world plain_tree) "docs" = Some plain_tree ∧
  md_count plain_tree = 0%nat ∧
  load_directory (lib := demo_lib) (offline_world plain_tree) demo_cfg "docs" []
  = (Ok tt, [] ++ [EvPrint "No .md files found in docs"]).
Proof.
  destruct (load_directory_nothing_to_load (lib := demo_lib)
              (offline_world plain_tree) demo_cfg "notes" []) as (Hnot & _ & _).
  destruct (load_directory_nothing_to_load (lib := demo_lib)
              (offline_world plain_tree) demo_cfg "docs" []) as (_ & Hnone & _).
  split; [reflexivity|]. split; [apply Hnot; reflexivity|].
  split; [reflexivity|]. split; [reflexivity|].
  apply (Hnone plain_tree); reflexivity.
Defined.

(** X10.  For a directory with N > 0 files whose names end in [.md],
    the first thing [load_directory] does is print
    [Found N .md files. Uploading...], with N the number of these files
    at any depth, whatever happens to the uploads afterwards. *)
Theorem load_directory_announces_count {lib : PyLib} (w : world) (cfg : config)
    (directory_path : string) (entries : list (string * fsnode)) (h : list event) :
  fs_dir w directory_path = Some entries →
  md_count entries ≠ 0%nat →
  ∃ evs,
    (load_directory w cfg directory_path h).2
    = h ++ EvPrint ("Found " +:+ pretty (md_count entries) +:+ " .md files. Uploading...")
        :: evs.
Proof.
  intros Hd Hn.
  assert (Hmd : md_files directory_path entries ≠ []).
  { intros E. apply Hn. by rewrite <- (md_files_length directory_path), E. }
  rewrite (load_directory_run w cfg _ _ h Hd Hmd).
  rewrite (md_files_length directory_path).
  destruct (upload_all_grows w cfg (md_files directory_path entries)
              (h ++ [EvPrint ("Found " +:+ pretty (md_count entries)
                              +:+ " .md files. Uploading...")])) as [evs ->].
  exists evs. by rewrite <- app_assoc.
Qed.

Lemma load_directory_announces_count_witness :
  fs_dir (unreadable_world resp_uploaded) "docs" = Some demo_tree ∧
  md_count demo_tree ≠ 0%nat ∧
  ∃ evs,
    (load_directory (lib := demo_lib) (unreadable_world resp_uploaded) demo_cfg "docs" []).2
    = [] ++ EvPrint ("Found " +:+ pretty (md_count demo_tree) +:+ " .md files. Uploading...")
         :: evs.
Proof.
  assert (Hn : md_count demo_tree ≠ 0%nat) by (vm_compute; lia).
  split; [reflexivity|]. split; [exact Hn|].
  exact (load_directory_announces_count (lib := demo_lib)
           (unreadable_world resp_uploaded) demo_cfg "docs" demo_tree [] eq_refl Hn).
Defined.

(** X11.  When every Markdown file of the directory opens, the line
    announcing it can be written, and the server answers every upload of
    such a file with status 200 and a JSON body (not necessarily the same
    from one upload to the next), [load_directory] returns normally and
    prints the count line, then for each file in the order of the walk
    the line [Uploading: path], the success line and the body the server
    returned for that file, as [json.dumps] renders it. *)
Theorem load_directory_all_uploaded {lib : PyLib} (w : world) (cfg : config)
    (directory_path : string) (entries : list (string * fsnode)) (h : list event) :
  fs_dir w directory_path = Some entries →
  md_count entries ≠ 0%nat →
  Forall (λ path, ∃ content, fs_open w path = Opened content)
    (md_files directory_path entries) →
  Forall (λ path, printable w ("Uploading: " +:+ path) = true)
    (md_files directory_path entries) →
  (∀ path content h',
     path ∈ md_files directory_path entries →
     fs_open w path = Opened content →
     ∃ r data, server w h' (upload_request cfg path content) = Some r ∧
               status_code r = 200 ∧ json_body r = Some data) →
  (load_directory w cfg directory_path h).1 = Ok tt ∧
  ∃ datas : list json,
    Forall2 (λ path data, ∃ content h' r,
               fs_open w path = Opened content ∧
               server w h' (upload_request cfg path content) = Some r ∧
               json_body r = Some data)
      (md_files directory_path entries) datas ∧
    printed (load_directory w cfg directory_path h).2
    = printed h
      ++ ("Found " +:+ pretty (md_count entries) +:+ " .md files. Uploading...")
      :: (zip (md_files directory_path entries) datas
            ≫= λ pd, uploaded_lines pd.2 pd.1).
Proof.
  intros Hd Hn Hopen Hprint Hsrv.
  assert (Hmd : md_files directory_path entries ≠ []).
  { intros E. apply Hn. by rewrite <- (md_files_length directory_path), E. }
  rewrite (load_directory_run w cfg _ _ h Hd Hmd).
  rewrite (md_files_length directory_path).
  destruct (upload_all_success w cfg (md_files directory_path entries)
              (h ++ [EvPrint ("Found " +:+ pretty (md_count entries)
                              +:+ " .md files. Uploading...")])
              Hopen Hprint Hsrv) as (Hok & datas & Hall & Hpr).
  split; [done|]. exists datas. split; [done|].
  rewrite Hpr. unfold printed. rewrite omap_app. simpl.
  by rewrite <- app_assoc.
Qed.

(** A server whose answer changes with every upload. *)
Lemma load_directory_all_uploaded_witness :
  fs_dir counting_world "docs" = Some demo_tree ∧
  md_count demo_tree ≠ 0%nat ∧
  (load_directory (lib := demo_lib) counting_world demo_cfg "docs" []).1 = Ok tt ∧
  ∃ datas : list json,
    Forall2 (λ path data, ∃ content h' r,
               fs_open counting_world path = Opened content ∧
               server counting_world h' (upload_request demo_cfg path content) = Some r ∧
               json_body r = Some data)
      (md_files "docs" demo_tree) datas ∧
    printed (load_directory (lib := demo_lib) counting_world demo_cfg "docs" []).2
    = printed []
      ++ ("Found " +:+ pretty (md_count demo_tree) +:+ " .md files. Uploading...")
      :: (zip (md_files "docs" demo_tree) datas
            ≫= λ pd, uploaded_lines (lib := demo_lib) pd.2 pd.1).
Proof.
  assert (Hn : md_count demo_tree ≠ 0%nat) by (vm_compute; lia).
  split; [reflexivity|]. split; [exact Hn|].
  apply (load_directory_all_uploaded (lib := demo_lib)
           counting_world demo_cfg "docs" demo_tree [] eq_refl Hn).
  - apply Forall_forall. intros path _. by exists "# notes".
  - apply Forall_forall. intros path _. unfold printable. apply orb_true_r.
  - intros path content h' _ _. by eexists _, _.
Defined.

(** X12.  Whatever the directory and the answers, [load_directory] sends
    exactly one request per file it managed to open, the multipart
    upload of that file, in order, and closes exactly the files it
    opened: no file is left open and none is sent twice. *)
Theorem load_directory_accounts_for_files {lib : PyLib} (w : world) (cfg : config)
    (directory_path : string) (h : list event) :
  ∃ calls : list string,
    opened (load_directory w cfg directory_path h).2 = opened h ++ calls ∧
    requests_sent (load_directory w cfg directory_path h).2
    = requests_sent h ++ omap (λ p, upload_request cfg p <$> content_at w p) calls ∧
    closed (load_directory w cfg directory_path h).2
    = closed h ++ filter (λ p, is_Some (content_at w p)) calls.
Proof. apply load_directory_accounts. Qed.

(** ** What the listing and question operations touch *)

Lemma closed_app h1 h2 : closed (h1 ++ h2) = closed h1 ++ closed h2.
Proof. apply omap_app. Qed.

Lemma keeps_closed_print w line : keeps closed (print w line).
Proof.
  apply print_keeps. intros h l. rewrite closed_app. simpl. apply app_nil_r.
Qed.

Lemma keeps_opened_send w rq : keeps opened (send w rq).
Proof.
  intros h. unfold send. destruct (server w h rq); simpl;
    rewrite opened_app; simpl; apply app_nil_r.
Qed.

Lemma keeps_closed_send w rq : keeps closed (send w rq).
Proof.
  intros h. unfold send. destruct (server w h rq); simpl;
    rewrite closed_app; simpl; apply app_nil_r.
Qed.

#[local] Hint Resolve keeps_closed_print keeps_opened_send keeps_closed_send : keeps.

Section ReadOnly.
Context {lib : PyLib} (w : world) (cfg : config).

Lemma list_knowledge_requests h :
  requests_sent (list_knowledge w cfg h).2
  = requests_sent h ++ [list_knowledge_request cfg].
Proof.
  unfold list_knowledge, requests_get. apply after_send_requests.
  intros r. destruct (decide _); keeps_tac.
Qed.

Lemma list_models_requests h :
  requests_sent (list_models w cfg h).2
  = requests_sent h ++ [list_models_request cfg].
Proof.
  unfold list_models, requests_get. apply after_send_requests.
  intros r. destruct (decide _); keeps_tac.
Qed.

Lemma list_knowledge_keeps {B} (π : list event → list B) :
  (∀ line, keeps π (print w line)) → (∀ rq, keeps π (send w rq)) →
  keeps π (list_knowledge w cfg).
Proof.
  intros Hp Hs. unfold list_knowledge, requests_get.
  apply keeps_bind; [apply Hs|]. intros r.
  destruct (decide _); repeat first
    [ progress intros | apply keeps_for_each | apply keeps_bind
    | apply Hp | apply keeps_lift | apply keeps_response_json ].
Qed.

Lemma list_models_keeps {B} (π : list event → list B) :
  (∀ line, keeps π (print w line)) → (∀ rq, keeps π (send w rq)) →
  keeps π (list_models w cfg).
Proof.
  intros Hp Hs. unfold list_models, requests_get.
  apply keeps_bind; [apply Hs|]. intros r.
  destruct (decide _); repeat first
    [ progress intros | apply keeps_for_each | apply keeps_bind
    | apply Hp | apply keeps_lift | apply keeps_response_json ].
Qed.

Lemma ask_question_keeps {B} (π : list event → list B) question model knowledge_ids :
  (∀ line, keeps π (print w line)) → (∀ rq, keeps π (send w rq)) →
  keeps π (ask_question w cfg question model knowledge_ids).
Proof.
  intros Hp Hs. unfold ask_question, requests_post.
  apply keeps_bind; [apply Hs|]. intros r.
  destruct (decide _); repeat first
    [ progress intros | apply keeps_for_each | apply keeps_bind
    | apply Hp | apply keeps_lift | apply keeps_response_json ].
Qed.
End ReadOnly.

(** X13.  Whatever the server answers, and if it does not answer,
    [list_knowledge] and [list_models] each send exactly one request: a
    GET without body, with the headers [HEADERS], to [/v1/files/] and to
    [/models] below the base URL. *)
Theorem listings_send_one_get {lib : PyLib} (w : world) (cfg : config) (h : list event) :
  requests_sent (list_knowledge w cfg h).2
  = requests_sent h ++
      [ {| rq_method := GET;
           rq_url := BASE_URL cfg +:+ "/v1/files/";
           rq_headers := HEADERS cfg;
           rq_body := NoBody |} ] ∧
  requests_sent (list_models w cfg h).2
  = requests_sent h ++
      [ {| rq_method := GET;
           rq_url := BASE_URL cfg +:+ "/models";
           rq_headers := HEADERS cfg;
           rq_body := NoBody |} ].
Proof.
  split; [apply list_knowledge_requests|apply list_models_requests].
Qed.

(** X14.  [list_knowledge], [list_models] and [ask_question] never open
    or close a file, whatever the answer of the server. *)
Theorem json_operations_touch_no_file {lib : PyLib} (w : world) (cfg : config)
    (h : list event) :
  (opened (list_knowledge w cfg h).2 = opened h ∧
   closed (list_knowledge w cfg h).2 = closed h) ∧
  (opened (list_models w cfg h).2 = opened h ∧
   closed (list_models w cfg h).2 = closed h) ∧
  (∀ question model knowledge_ids,
     opened (ask_question w cfg question model knowledge_ids h).2 = opened h ∧
     closed (ask_question w cfg question model knowledge_ids h).2 = closed h).
Proof.
  split; [|split].
  - split; apply list_knowledge_keeps; auto with keeps.
  - split; apply list_models_keeps; auto with keeps.
  - intros question model knowledge_ids.
    split; apply ask_question_keeps; auto with keeps.
Qed.

(** ** The configuration of a run *)

Lemma module_init_ok dotfile env cfg :
  module_init dotfile env = Ok cfg →
  ∃ key,
    load_dotenv dotfile env !! "OPEN_WEBUI_API_KEY" = Some key ∧ key ≠ "" ∧
    cfg = {| BASE_URL := default "http://localhost:3000/api"
                           (load_dotenv dotfile env !! "BASE_URL");
             API_KEY := key;
             HEADERS := {[ "Authorization" := bearer key;
                           "Content-Type" := "application/json" ]} |}.
Proof.
  unfold module_init. destruct (load_dotenv dotfile env !! "OPEN_WEBUI_API_KEY")
    as [key|]; [|done].
  case_bool_decide as Hk; [done|]. intros [= <-]. by exists key.
Qed.

Lemma load_dotenv_lookup dotfile env k :
  load_dotenv dotfile env !! k
  = match env !! k with
    | Some v => Some v
    | None => dotfile !! k
    end.
Proof.
  unfold load_dotenv. rewrite lookup_union.
  by destruct (env !! k), (dotfile !! k).
Qed.

(** X15.  The process environment wins over the [.env] file.  When the
    module body succeeds, the key and the base URL are those of the
    process environment if it sets them, else those of the [.env] file,
    the base URL falling back to [http://localhost:3000/api]; the key is
    not empty.  A key that the process environment sets to the empty
    string is fatal even when the [.env] file holds a key. *)
Theorem environment_wins_over_dotenv (dotfile env : gmap string string) :
  (env !! "OPEN_WEBUI_API_KEY" = Some "" →
   module_init dotfile env = Raise (ValueError api_key_message)) ∧
  (∀ cfg, module_init dotfile env = Ok cfg →
     API_KEY cfg ≠ "" ∧
     Some (API_KEY cfg)
     = match env !! "OPEN_WEBUI_API_KEY" with
       | Some key => Some key
       | None => dotfile !! "OPEN_WEBUI_API_KEY"
       end ∧
     BASE_URL cfg
     = match env !! "BASE_URL" with
       | Some url => url
       | None => default "http://localhost:3000/api" (dotfile !! "BASE_URL")
       end).
Proof.
  split.
  - intros He. apply module_init_no_key. right.
    by rewrite load_dotenv_lookup, He.
  - intros cfg Hinit. apply module_init_ok in Hinit as (key & Hkey & Hne & ->).
    simpl. rewrite load_dotenv_lookup in Hkey. rewrite load_dotenv_lookup.
    split; [done|]. split; [done|]. by destruct (env !! "BASE_URL").
Qed.

Lemma environment_wins_over_dotenv_witness :
  module_init {[ "OPEN_WEBUI_API_KEY" := "sk-file" ]} {[ "OPEN_WEBUI_API_KEY" := "" ]}
  = Raise (ValueError api_key_message) ∧
  ∃ cfg,
    module_init {[ "OPEN_WEBUI_API_KEY" := "sk-file"; "BASE_URL" := "http://file/api" ]}
                {[ "BASE_URL" := "http://host/api" ]} = Ok cfg ∧
    API_KEY cfg = "sk-file" ∧ BASE_URL cfg = "http://host/api".
Proof.
  split.
  - apply (environment_wins_over_dotenv
             {[ "OPEN_WEBUI_API_KEY" := "sk-file" ]} {[ "OPEN_WEBUI_API_KEY" := "" ]}).
    reflexivity.
  - eexists. split; [reflexivity|].
    destruct (environment_wins_over_dotenv
                {[ "OPEN_WEBUI_API_KEY" := "sk-file"; "BASE_URL" := "http://file/api" ]}
                {[ "BASE_URL" := "http://host/api" ]}) as [_ Hcfg].
    destruct (Hcfg _ eq_refl) as (_ & Hkey & Hurl).
    split; [exact (f_equal (default "") Hkey)|exact Hurl].
Defined.

(** ** The requests of a run *)

Section RunRequests.
Context {lib : PyLib} (w : world) (cfg : config).

Hypothesis headers_authorized :
  HEADERS cfg !! "Authorization" = Some (bearer (API_KEY cfg)).

Lemma upload_request_well_addressed path content :
  well_addressed cfg (upload_request cfg path content).
Proof.
  split; [apply lookup_singleton_eq|].
  exists "/v1/files/". split; [|done]. unfold endpoints. set_solver.
Qed.

Lemma dispatch_sends args h :
  ∃ rqs, requests_sent (dispatch w cfg args h).2 = requests_sent h ++ rqs ∧
         Forall (well_addressed cfg) rqs.
Proof.
  destruct args as [file|directory| | |question model knowledge]; simpl.
  - destruct (upload_knowledge_sends w cfg file h) as (rqs & Hrq & Hall).
    exists rqs. split; [done|]. eapply Forall_impl; [exact Hall|].
    intros rq [content ->]. apply upload_request_well_addressed.
  - destruct (load_directory_accounts w cfg directory h) as (calls & _ & Hrq & _).
    eexists. split; [exact Hrq|]. apply Forall_forall. intros rq Hin.
    apply list_elem_of_omap in Hin as (path & _ & Hrq').
    destruct (content_at w path) as [content|]; [|done].
    injection Hrq' as <-. apply upload_request_well_addressed.
  - exists [list_knowledge_request cfg]. split; [apply list_knowledge_requests|].
    repeat constructor; [done|]. exists "/v1/files/". split; [|done].
    unfold endpoints. set_solver.
  - exists [list_models_request cfg]. split; [apply list_models_requests|].
    repeat constructor; [done|]. exists "/models". split; [|done].
    unfold endpoints. set_solver.
  - exists [ask_request cfg question model knowledge].
    split; [apply ask_question_requests|].
    repeat constructor; [done|]. exists "/chat/completions". split; [|done].
    unfold endpoints. set_solver.
Qed.
End RunRequests.

(** X16.  Every request a run of the program sends, whatever the
    command, carries the header [Authorization: Bearer key] with the
    non-empty key read from the environment, and goes to one of
    [/v1/files/], [/models] and [/chat/completions] below the base URL
    read from the environment (or its default). *)
Theorem program_requests_are_authorized {lib : PyLib} (w : world)
    (dotfile env : gmap string string) (parsed : result namespace) :
  Forall (λ rq,
    ∃ key endpoint,
      load_dotenv dotfile env !! "OPEN_WEBUI_API_KEY" = Some key ∧
      key ≠ "" ∧
      rq_headers rq !! "Authorization" = Some ("Bearer " +:+ key) ∧
      endpoint ∈ endpoints ∧
      rq_url rq
      = default "http://localhost:3000/api" (load_dotenv dotfile env !! "BASE_URL")
        +:+ endpoint)
    (requests_sent (program w dotfile env parsed).2).
Proof.
  unfold program. destruct (module_init dotfile env) as [cfg|e] eqn:Hinit;
    [|constructor].
  apply module_init_ok in Hinit as (key & Hkey & Hne & ->).
  unfold main, mbind, M_bind, lift. destruct parsed as [args|e]; [|constructor].
  match goal with |- context [dispatch w ?c args []] => set (cfg := c) end.
  destruct (dispatch_sends w cfg (lookup_insert_eq _ _ _) args []) as (rqs & -> & Hall).
  simpl. eapply Forall_impl; [exact Hall|].
  intros rq [Hauth (endpoint & Hin & Hurl)]. by exists key, endpoint.
Qed.

(** ** Which names are Markdown files *)

Lemma endswith_refl s : endswith s s = true.
Proof.
  destruct s as [|c s]; [done|]. simpl. by rewrite bool_decide_eq_true_2.
Qed.

Lemma endswith_spec s suf : endswith s suf = true ↔ ∃ p, s = p +:+ suf.
Proof.
  split.
  - induction s as [|c s IH]; simpl.
    + intros Hs. apply bool_decide_eq_true_1 in Hs as ->. by exists "".
    + intros [Hs|Hs]%orb_prop.
      * apply bool_decide_eq_true_1 in Hs as <-. by exists "".
      * destruct (IH Hs) as [p ->]. by exists (String c p).
  - intros [p ->]. apply endswith_app, endswith_refl.
Qed.

Lemma lower_app_inv s p q :
  lower s = p +:+ q → ∃ s1 s2, s = s1 +:+ s2 ∧ lower s1 = p ∧ lower s2 = q.
Proof.
  revert s. induction p as [|c p IH]; intros s Hs.
  - by exists "", s.
  - destruct s as [|d s]; [done|]. simpl in Hs. injection Hs as Hc Hs.
    destruct (IH s Hs) as (s1 & s2 & -> & H1 & H2).
    exists (String d s1), s2. simpl. by rewrite Hc, H1.
Qed.

Lemma lower_ascii_dot c : lower_ascii c = "."%char → c = "."%char.
Proof. destruct c as [[] [] [] [] [] [] [] []]; vm_compute; congruence. Qed.

Lemma lower_ascii_m c : lower_ascii c = "m"%char → c = "m"%char ∨ c = "M"%char.
Proof.
  destruct c as [[] [] [] [] [] [] [] []]; vm_compute; intros E;
    first [discriminate E | by left | by right].
Qed.

Lemma lower_ascii_d c : lower_ascii c = "d"%char → c = "d"%char ∨ c = "D"%char.
Proof.
  destruct c as [[] [] [] [] [] [] [] []]; vm_compute; intros E;
    first [discriminate E | by left | by right].
Qed.

(** X17.  The test [file.lower().endswith('.md')] of [load_directory]
    holds exactly of the names that end in a dot, an [m] or [M], and a
    [d] or [D]: the four spellings of the extension, after any stem, the
    empty one included. *)
Theorem is_md_extension (file : string) :
  is_md file = true ↔
  ∃ (stem : string) (m d : ascii),
    file = stem +:+ String "."%char (String m (String d "")) ∧
    (m = "m"%char ∨ m = "M"%char) ∧ (d = "d"%char ∨ d = "D"%char).
Proof.
  unfold is_md. rewrite endswith_spec. split.
  - intros [p Hp]. apply lower_app_inv in Hp as (stem & ext & -> & _ & Hext).
    destruct ext as [|x [|m [|d [|? ?]]]]; try done.
    simpl in Hext. injection Hext as Hx Hm Hd.
    apply lower_ascii_dot in Hx as ->.
    exists stem, m, d. split; [done|].
    split; [by apply lower_ascii_m|by apply lower_ascii_d].
  - intros (stem & m & d & -> & Hm & Hd). exists (lower stem).
    rewrite lower_app. f_equal.
    by destruct Hm as [-> | ->], Hd as [-> | ->].
Qed.

(** ** Answers without escaped newlines *)

Lemma unescape_newlines_fixed s :
  (∀ p q, s ≠ p +:+ BSN +:+ q) → unescape_newlines s = s.
Proof.
  assert (Hgen : ∀ s,
    ((∀ p q, s ≠ p +:+ BSN +:+ q) → unescape_newlines s = s) ∧
    ∀ c, (∀ p q, String c s ≠ p +:+ BSN +:+ q) →
         unescape_newlines (String c s) = String c s); [|apply Hgen].
  clear. induction s as [|d s [IH1 IH2]].
  - split; [done|]. by intros c _.
  - split; [apply IH2|]. intros c Hc. rewrite unescape_newlines_cons2.
    destruct (decide _) as [[-> ->]|Hn].
    + by destruct (Hc "" s).
    + f_equal. apply IH2. intros p q E. apply (Hc (String c p) q).
      by rewrite E.
Qed.

(** X18.  A text that holds no backslash followed by [n] is printed as
    it is, and the conversion of [ask_question] applied to its own result
    changes nothing more. *)
Theorem str_replace_newlines_fixed (s : string) :
  ((∀ p q, s ≠ p +:+ BSN +:+ q) → str_replace s BSN NL = s) ∧
  str_replace (str_replace s BSN NL) BSN NL = str_replace s BSN NL.
Proof.
  rewrite !str_replace_unescape. split.
  - apply unescape_newlines_fixed.
  - apply unescape_newlines_fixed. apply unescape_newlines_complete.
Qed.

Lemma str_replace_newlines_fixed_witness :
  str_replace "plain text, a \ and an n" BSN NL = "plain text, a \ and an n" ∧
  str_replace (str_replace "line1\nline2" BSN NL) BSN NL
  = str_replace "line1\nline2" BSN NL.
Proof.
  split.
  - apply (proj1 (str_replace_newlines_fixed "plain text, a \ and an n")).
    intros p q E.
    repeat (destruct p as [|? p]; [discriminate E|injection E as _ E]).
    by destruct p.
  - apply (proj2 (str_replace_newlines_fixed "line1\nline2")).
Defined.

(** ** Where the collected paths lie *)

Lemma string_app_assoc (a b c : string) : (a +:+ b) +:+ c = a +:+ b +:+ c.
Proof.
  induction a as [|x a IH]; [done|].
  change (String x ((a +:+ b) +:+ c) = String x (a +:+ b +:+ c)). by rewrite IH.
Qed.

Lemma startswith_app_l s a x : startswith s a = true → startswith (s +:+ x) a = true.
Proof.
  revert s. induction a as [|c a IH]; intros s; [done|].
  destruct s as [|d s]; [done|]. simpl.
  destruct (decide (c = d)); [apply IH|done].
Qed.

Lemma startswith_refl s : startswith s s = true.
Proof. induction s as [|c s IH]; [done|]. simpl. by rewrite decide_True. Qed.

Lemma path_join_startswith a b top :
  startswith b "/" = false → startswith a top = true →
  startswith (path_join a b) top = true.
Proof.
  intros Hb Ha. unfold path_join. rewrite Hb.
  destruct (_ || _); by apply startswith_app_l.
Qed.

Lemma relative_names_dir entries :
  relative_names (Dir entries)
  = forallb (λ e, negb (startswith e.1 "/") && relative_names e.2) entries.
Proof.
  simpl. induction entries as [|[name sub] entries IH]; [done|].
  simpl. by rewrite IH.
Qed.

Lemma walk_files_relative entries :
  relative_names (Dir entries) = true →
  Forall (λ file, startswith file "/" = false) (walk_files entries).
Proof.
  rewrite relative_names_dir. intros Hall.
  induction entries as [|[name sub] entries IH]; [constructor|].
  simpl in Hall. apply andb_prop in Hall as [[Hn _]%andb_prop Hall].
  rewrite walk_files_cons. apply Forall_app. split; [|by apply IH].
  destruct (is_dir_entry sub); repeat constructor.
  by apply negb_true_iff.
Qed.

(** Every directory of the walk lies below the top, and its files have
    relative names. *)
Lemma walk_node_below n top0 top :
  relative_names n = true → startswith top top0 = true →
  Forall (λ t, startswith t.1.1 top0 = true ∧
               Forall (λ file, startswith file "/" = false) t.2)
    (walk_node top n).
Proof.
  revert top. induction n as [| |entries IH] using fsnode_entries_ind;
    intros top Hrel Htop; [constructor..|].
  rewrite walk_node_dir. constructor.
  { split; [done|]. by apply walk_files_relative. }
  rewrite relative_names_dir in Hrel. unfold sub_walks.
  induction IH as [|[name sub] entries Hsub _ IHes]; [constructor|].
  simpl in Hrel. apply andb_prop in Hrel as [[Hn Hs]%andb_prop Hrel].
  apply negb_true_iff in Hn.
  change (Forall (λ t, startswith t.1.1 top0 = true ∧
                       Forall (λ file, startswith file "/" = false) t.2)
            (walk_node (path_join top name) sub
             ++ (entries ≫= λ '(name, sub), walk_node (path_join top name) sub))).
  apply Forall_app. split; [|by apply IHes].
  apply Hsub; [done|]. by apply path_join_startswith.
Qed.

(** X19.  The paths [load_directory] collects all start with the
    directory path it was given (entry names being relative, as the names
    of a directory scan are): it uploads nothing from elsewhere. *)
Theorem md_files_below_directory (directory_path : string)
    (entries : list (string * fsnode)) :
  relative_names (Dir entries) = true →
  Forall (λ path, startswith path directory_path = true)
    (md_files directory_path entries).
Proof.
  intros Hrel. unfold md_files, walk.
  pose proof (walk_node_below (Dir entries) directory_path directory_path Hrel
                (startswith_refl _)) as Hwalk.
  apply Forall_forall. intros path Hp.
  apply list_elem_of_bind in Hp as ([[root dirs] files] & Hp & Ht).
  eapply Forall_forall in Hwalk as [Hroot Hfiles]; [|exact Ht]. simpl in *.
  apply list_elem_of_fmap in Hp as (file & -> & Hf).
  apply list_elem_of_filter in Hf as [_ Hf].
  eapply Forall_forall in Hfiles; [|exact Hf].
  by apply path_join_startswith.
Qed.

Lemma md_files_below_directory_witness :
  relative_names (Dir demo_tree) = true ∧
  Forall (λ path, startswith path "docs" = true) (md_files "docs" demo_tree).
Proof.
  split; [reflexivity|].
  apply (md_files_below_directory "docs" demo_tree). reflexivity.
Defined.

Lemma path_join_trailing_slash dir name :
  dir ≠ "" → endswith dir "/" = false → startswith name "/" = false →
  path_join (dir +:+ "/") name = path_join dir name.
Proof.
  intros Hd He Hn. unfold path_join. rewrite Hn, He.
  rewrite (endswith_app dir "/" "/") by done. rewrite orb_true_r.
  rewrite (bool_decide_eq_false_2 (dir = "")) by done. simpl.
  apply string_app_assoc.
Qed.

(** X20.  A trailing slash on the directory path changes nothing:
    [load_directory] collects the same paths, in the same order, for
    [dir/] as for [dir] (a non-empty [dir] that does not itself end in a
    slash), so no collected path holds a doubled slash after [dir]. *)
Theorem md_files_trailing_slash (dir : string) (entries : list (string * fsnode)) :
  dir ≠ "" →
  endswith dir "/" = false →
  relative_names (Dir entries) = true →
  md_files (dir +:+ "/") entries = md_files dir entries.
Proof.
  intros Hd He Hrel. unfold md_files, walk. rewrite !walk_node_dir.
  change (md_paths ((dir +:+ "/", walk_dirs entries, walk_files entries)
                    :: sub_walks (dir +:+ "/") entries)
          = md_paths ((dir, walk_dirs entries, walk_files entries)
                      :: sub_walks dir entries)).
  assert (Hsub : sub_walks (dir +:+ "/") entries = sub_walks dir entries).
  { rewrite relative_names_dir in Hrel. unfold sub_walks. clear -Hd He Hrel.
    induction entries as [|[name sub] entries IH]; [done|].
    simpl in Hrel. apply andb_prop in Hrel as [[Hn _]%andb_prop Hrel].
    apply negb_true_iff in Hn.
    change ((walk_node (path_join (dir +:+ "/") name) sub
             ++ (entries ≫= λ '(name, sub), walk_node (path_join (dir +:+ "/") name) sub))
            = (walk_node (path_join dir name) sub
               ++ (entries ≫= λ '(name, sub), walk_node (path_join dir name) sub))).
    by rewrite IH, path_join_trailing_slash. }
  rewrite Hsub.
  change (md_paths ((?t, ?d, ?f) :: ?rest))
    with ((path_join t <$> filter (λ file, is_md file = true) f) ++ md_paths rest).
  f_equal. apply Forall_fmap_ext_1.
  pose proof (walk_files_relative entries Hrel) as Hfiles.
  apply Forall_forall. intros file Hf. apply list_elem_of_filter in Hf as [_ Hf].
  eapply Forall_forall in Hfiles; [|exact Hf].
  by apply path_join_trailing_slash.
Qed.

Lemma md_files_trailing_slash_witness :
  "docs" ≠ "" ∧ endswith "docs" "/" = false ∧ relative_names (Dir demo_tree) = true ∧
  md_files ("docs" +:+ "/") demo_tree = md_files "docs" demo_tree.
Proof.
  assert (Hd : "docs" ≠ "") by discriminate.
  split; [exact Hd|]. split; [reflexivity|]. split; [reflexivity|].
  exact (md_files_trailing_slash "docs" demo_tree Hd eq_refl eq_refl).
Defined.

(** ** A knowledge listing that is not a list *)

(** X21.  When the 200 body of a knowledge listing is a non-empty mapping
    or a non-empty string, the loop of [list_knowledge] runs over its
    keys or characters and ends in an [AttributeError] at the first one,
    after the header line; when it is an empty mapping, string or list,
    only the header line is printed and the run returns normally. *)
Theorem list_knowledge_body_not_a_list {lib : PyLib} (w : world) (cfg : config)
    (r : http_response) (data : json) (h : list event) :
  server w h (list_knowledge_request cfg) = Some r →
  status_code r = 200 →
  json_body r = Some data →
  ((∃ m, data = JObj m ∧ m ≠ ∅) ∨ (∃ s, data = JStr s ∧ s ≠ "") →
   list_knowledge w cfg h
   = (Raise AttributeError,
      h ++ [EvRequest (list_knowledge_request cfg); EvPrint "Knowledge documents:"])) ∧
  (data = JObj ∅ ∨ data = JStr "" ∨ data = JArr [] →
   list_knowledge w cfg h
   = (Ok tt,
      h ++ [EvRequest (list_knowledge_request cfg); EvPrint "Knowledge documents:"])).
Proof.
  intros Hs Hr Hj. rewrite (list_knowledge_answered w cfg r h Hs Hr).
  unfold response_json. rewrite Hj.
  unfold mbind at 1, M_bind, mret, M_ret. rewrite bind_print_ok by done.
  split.
  - intros [(m & -> & Hm)|(s & -> & Hs')]; unfold mbind, M_bind, lift; simpl;
      rewrite <- app_assoc.
    + destruct (map_to_list m) as [|[k v] l] eqn:E.
      * by apply map_to_list_empty_iff in E.
      * done.
    + by destruct s.
  - intros [-> | [-> | ->]]; unfold mbind, M_bind, lift; simpl;
      rewrite <- app_assoc; [|reflexivity..].
    by rewrite map_to_list_empty.
Qed.

Lemma list_knowledge_body_not_a_list_witness :
  server (demo_world resp_wrapped_listing) [] (list_knowledge_request demo_cfg)
    = Some resp_wrapped_listing ∧
  status_code resp_wrapped_listing = 200 ∧
  list_knowledge (lib := demo_lib) (demo_world resp_wrapped_listing) demo_cfg []
  = (Raise AttributeError,
     [] ++ [EvRequest (list_knowledge_request demo_cfg); EvPrint "Knowledge documents:"]).
Proof.
  split; [reflexivity|]. split; [reflexivity|].
  destruct (list_knowledge_body_not_a_list (lib := demo_lib)
              (demo_world resp_wrapped_listing) demo_cfg resp_wrapped_listing
              (JObj {[ "files" := JArr [] ]}) [] eq_refl eq_refl eq_refl) as [Hraise _].
  apply Hraise. left. eexists. split; [reflexivity|].
  intros E. apply (f_equal (λ m : gmap string json, m !! "files")) in E.
  discriminate E.
Defined.

(** ** No file twice *)

Lemma has_slash_app a b : has_slash (a +:+ b) = has_slash a || has_slash b.
Proof.
  induction a as [|c a IH]; [done|].
  change (has_slash (String c a +:+ b))
    with (bool_decide (c = "/"%char) || has_slash (a +:+ b)).
  simpl. by rewrite IH, orb_assoc.
Qed.

Lemma proper_name_relative name : proper_name name = true → startswith name "/" = false.
Proof.
  intros [_ Hs%negb_true_iff]%andb_prop. destruct name as [|c name]; [done|].
  simpl in *. apply orb_false_elim in Hs as [Hc _].
  apply bool_decide_eq_false_1 in Hc. by rewrite decide_False by congruence.
Qed.

Lemma path_join_prefix top name :
  startswith name "/" = false → path_join top name = join_prefix top +:+ name.
Proof.
  intros Hn. unfold path_join, join_prefix. rewrite Hn.
  destruct (_ || _); [done|]. by rewrite string_app_assoc.
Qed.

Lemma endswith_slash_has_slash s : endswith s "/" = true → has_slash s = true.
Proof.
  intros [p ->]%endswith_spec. rewrite has_slash_app. simpl. apply orb_true_r.
Qed.

Lemma endswith_app_nonempty a b suf :
  b ≠ "" → endswith (a +:+ b) suf = true →
  (String.length suf ≤ String.length b)%nat →
  endswith b suf = true.
Proof.
  intros Hb Hab Hlen. apply endswith_spec in Hab as [p Hp].
  apply endswith_spec. revert a p Hp Hlen.
  assert (Hgen : ∀ a p : string, a +:+ b = p +:+ suf →
            (String.length suf ≤ String.length b)%nat → ∃ q, b = q +:+ suf);
    [|intros; by eapply Hgen].
  induction a as [|c a IH]; intros p Hp Hlen.
  - by exists p.
  - destruct p as [|d p].
    + exfalso. change (String c (a +:+ b) = suf) in Hp. subst suf.
      change (String.length (String c (a +:+ b)))
        with (S (String.length (a +:+ b))) in Hlen.
      assert (String.length b ≤ String.length (a +:+ b))%nat; [|lia].
      clear. induction a as [|x a IH]; [done|].
      change (String.length (String x a +:+ b)) with (S (String.length (a +:+ b))).
      lia.
    + injection Hp as _ Hp. by apply (IH p).
Qed.

Lemma join_prefix_sub top name :
  proper_name name = true →
  join_prefix (join_prefix top +:+ name) = join_prefix top +:+ name +:+ "/".
Proof.
  intros Hn. apply andb_prop in Hn as [Hne%negb_true_iff Hs%negb_true_iff].
  apply bool_decide_eq_false_1 in Hne.
  unfold join_prefix at 1.
  rewrite (bool_decide_eq_false_2 (join_prefix top +:+ name = "")).
  2:{ destruct (join_prefix top), name; done. }
  destruct (endswith (join_prefix top +:+ name) "/") eqn:He.
  - apply endswith_app_nonempty in He; [|done|].
    + apply endswith_slash_has_slash in He. congruence.
    + destruct name; [done|]. simpl. lia.
  - simpl. apply string_app_assoc.
Qed.

Lemma proper_names_dir entries :
  proper_names (Dir entries)
  = bool_decide (NoDup entries.*1) &&
    forallb (λ e, proper_name e.1 && proper_names e.2) entries.
Proof.
  simpl. f_equal. induction entries as [|[name sub] entries IH]; [done|].
  simpl. by rewrite IH.
Qed.

Lemma md_paths_sub_walks top entries :
  md_paths (sub_walks top entries)
  = '(name, sub) ← entries; md_paths (walk_node (path_join top name) sub).
Proof.
  unfold sub_walks. induction entries as [|[name sub] entries IH]; [done|].
  change (md_paths (walk_node (path_join top name) sub
                    ++ (entries ≫= λ '(name, sub), walk_node (path_join top name) sub))
          = md_paths (walk_node (path_join top name) sub)
            ++ (entries ≫= λ '(name, sub), md_paths (walk_node (path_join top name) sub))).
  by rewrite md_paths_app, IH.
Qed.

Lemma md_paths_dir top entries :
  md_paths (walk_node top (Dir entries))
  = (path_join top <$> filter (λ file, is_md file = true) (walk_files entries))
    ++ ('(name, sub) ← entries; md_paths (walk_node (path_join top name) sub)).
Proof. rewrite walk_node_dir, <- md_paths_sub_walks. done. Qed.

Lemma walk_files_names entries file :
  file ∈ walk_files entries → file ∈ entries.*1.
Proof.
  unfold walk_files. intros ([name sub] & -> & Hin%list_elem_of_filter)%list_elem_of_fmap.
  apply list_elem_of_fmap. exists (name, sub). by destruct Hin.
Qed.

Lemma walk_files_NoDup entries : NoDup entries.*1 → NoDup (walk_files entries).
Proof.
  unfold walk_files. induction entries as [|[name sub] entries IH]; [constructor|].
  rewrite fmap_cons, NoDup_cons. intros [Hn Hnd]. rewrite filter_cons.
  destruct (decide _); [|by apply IH].
  rewrite fmap_cons. apply NoDup_cons. split; [|by apply IH].
  intros Hin. apply Hn. by apply walk_files_names.
Qed.

Lemma proper_entry entries name sub :
  forallb (λ e, proper_name e.1 && proper_names e.2) entries = true →
  (name, sub) ∈ entries → proper_name name = true ∧ proper_names sub = true.
Proof.
  intros Hall Hin. rewrite forallb_forall in Hall.
  apply list_elem_of_In in Hin. by apply Hall, andb_prop in Hin.
Qed.

(** Every collected path is the prefix of the top followed by a relative
    path. *)
Lemma md_paths_below n top :
  proper_names n = true →
  Forall (λ path, ∃ rest, path = join_prefix top +:+ rest) (md_paths (walk_node top n)).
Proof.
  revert top. induction n as [| |entries IH] using fsnode_entries_ind;
    intros top Hp; [constructor..|].
  rewrite proper_names_dir in Hp. apply andb_prop in Hp as [_ Hall].
  rewrite md_paths_dir. apply Forall_app. split.
  - apply Forall_forall. intros path (file & -> & Hf)%list_elem_of_fmap.
    apply list_elem_of_filter in Hf as [_ Hf].
    apply walk_files_names, list_elem_of_fmap in Hf as ([name sub] & -> & Hin).
    destruct (proper_entry _ _ _ Hall Hin) as [Hn _].
    exists name. by apply path_join_prefix, proper_name_relative.
  - apply Forall_forall. intros path ([name sub] & Hpath & Hin)%list_elem_of_bind.
    destruct (proper_entry _ _ _ Hall Hin) as [Hn Hs].
    rewrite Forall_forall in IH. specialize (IH _ Hin (path_join top name) Hs).
    rewrite Forall_forall in IH. destruct (IH _ Hpath) as [rest ->].
    rewrite path_join_prefix by (by apply proper_name_relative).
    rewrite join_prefix_sub by done.
    exists (name +:+ "/" +:+ rest). by rewrite !string_app_assoc.
Qed.

Lemma sub_paths_below top name sub path :
  proper_name name = true → proper_names sub = true →
  path ∈ md_paths (walk_node (path_join top name) sub) →
  ∃ rest, path = join_prefix top +:+ name +:+ "/" +:+ rest.
Proof.
  intros Hn Hs Hpath.
  pose proof (md_paths_below sub (path_join top name) Hs) as Hall.
  rewrite Forall_forall in Hall. destruct (Hall _ Hpath) as [rest ->].
  rewrite path_join_prefix by (by apply proper_name_relative).
  rewrite join_prefix_sub by done.
  exists rest. by rewrite !string_app_assoc.
Qed.

Lemma split_at_slash d1 d2 r1 r2 :
  has_slash d1 = false → has_slash d2 = false →
  d1 +:+ "/" +:+ r1 = d2 +:+ "/" +:+ r2 → d1 = d2.
Proof.
  revert d2. induction d1 as [|c d1 IH]; intros [|c' d2] H1 H2 E; try done.
  - injection E as <- _. by simpl in H2.
  - injection E as -> _. by simpl in H1.
  - injection E as -> E. simpl in H1, H2.
    apply orb_false_elim in H1 as [_ H1]. apply orb_false_elim in H2 as [_ H2].
    f_equal. by apply IH.
Qed.

Lemma entries_functional (entries : list (string * fsnode)) name sub1 sub2 :
  NoDup entries.*1 → (name, sub1) ∈ entries → (name, sub2) ∈ entries → sub1 = sub2.
Proof.
  induction entries as [|[n s] entries IH]; intros Hnd H1 H2; [by inv H1|].
  rewrite fmap_cons in Hnd. apply NoDup_cons in Hnd as [Hn Hnd].
  assert (Hnot : ∀ s', (n, s') ∉ entries).
  { intros s' Hin. apply Hn. apply list_elem_of_fmap. by exists (n, s'). }
  apply elem_of_cons in H1. apply elem_of_cons in H2.
  destruct H1 as [E1|H1], H2 as [E2|H2].
  - congruence.
  - injection E1 as -> ->. by destruct (Hnot _ H2).
  - injection E2 as -> ->. by destruct (Hnot _ H1).
  - by apply IH.
Qed.

Lemma md_paths_NoDup n top :
  proper_names n = true → NoDup (md_paths (walk_node top n)).
Proof.
  revert top. induction n as [| |entries IH] using fsnode_entries_ind;
    intros top Hp; [constructor..|].
  pose proof Hp as Hp0.
  rewrite proper_names_dir in Hp. apply andb_prop in Hp as [Hnd Hall].
  apply bool_decide_eq_true_1 in Hnd.
  rewrite md_paths_dir. apply NoDup_app. split_and!.
  - apply NoDup_fmap_2_strong; [|by apply NoDup_filter, walk_files_NoDup].
    intros f1 f2 [_ Hf1]%list_elem_of_filter [_ Hf2]%list_elem_of_filter E.
    apply walk_files_names, list_elem_of_fmap in Hf1 as ([n1 s1] & -> & Hin1).
    apply walk_files_names, list_elem_of_fmap in Hf2 as ([n2 s2] & -> & Hin2).
    destruct (proper_entry _ _ _ Hall Hin1) as [Hn1 _].
    destruct (proper_entry _ _ _ Hall Hin2) as [Hn2 _].
    rewrite !path_join_prefix in E by (by apply proper_name_relative).
    by apply (inj (String.app _)) in E.
  - intros path (file & -> & Hf)%list_elem_of_fmap
      ([name sub] & Hpath & Hin)%list_elem_of_bind.
    apply list_elem_of_filter in Hf as [_ Hf].
    apply walk_files_names, list_elem_of_fmap in Hf as ([n1 s1] & -> & Hin1).
    destruct (proper_entry _ _ _ Hall Hin1) as [Hn1 _].
    destruct (proper_entry _ _ _ Hall Hin) as [Hn Hs].
    destruct (sub_paths_below top name sub _ Hn Hs Hpath) as [rest E].
    rewrite path_join_prefix in E by (by apply proper_name_relative).
    apply (inj (String.app _)) in E. simpl in E.
    apply andb_prop in Hn1 as [_ Hs1%negb_true_iff].
    rewrite E, !has_slash_app in Hs1. simpl in Hs1.
    by rewrite orb_true_r in Hs1.
  - apply NoDup_bind; [| |by eapply NoDup_fmap_1].
    + intros [n1 s1] [n2 s2] path Hin1 Hin2 Hp1 Hp2.
      destruct (proper_entry _ _ _ Hall Hin1) as [Hn1 Hs1].
      destruct (proper_entry _ _ _ Hall Hin2) as [Hn2 Hs2].
      destruct (sub_paths_below top n1 s1 _ Hn1 Hs1 Hp1) as [r1 E1].
      destruct (sub_paths_below top n2 s2 _ Hn2 Hs2 Hp2) as [r2 E2].
      rewrite E1 in E2. apply (inj (String.app _)) in E2.
      apply andb_prop in Hn1 as [_ Hh1%negb_true_iff].
      apply andb_prop in Hn2 as [_ Hh2%negb_true_iff].
      apply split_at_slash in E2; [|done..]. subst n2.
      f_equal. by eapply entries_functional.
    + intros [name sub] Hin.
      destruct (proper_entry _ _ _ Hall Hin) as [_ Hs].
      rewrite Forall_forall in IH. by apply (IH _ Hin).
Qed.

(** X22.  In a tree as a file system holds it (names not empty and
    without slash, no name twice in a directory), the paths
    [load_directory] collects are pairwise different, whatever the
    directory path, and so are the files it opens for upload: no file is
    uploaded twice. *)
Theorem load_directory_uploads_no_file_twice {lib : PyLib} (w : world) (cfg : config)
    (directory_path : string) (entries : list (string * fsnode)) (h : list event) :
  fs_dir w directory_path = Some entries →
  proper_names (Dir entries) = true →
  NoDup (md_files directory_path entries) ∧
  ∃ calls,
    opened (load_directory w cfg directory_path h).2 = opened h ++ calls ∧
    NoDup calls.
Proof.
  intros Hd Hp.
  assert (Hnd : NoDup (md_files directory_path entries))
    by (by apply md_paths_NoDup).
  split; [exact Hnd|].
  destruct (decide (md_files directory_path entries = [])) as [Hnil|Hne].
  - exists []. split; [|constructor]. unfold load_directory. rewrite Hd, Hnil.
    rewrite app_nil_r. apply keeps_opened_print.
  - rewrite (load_directory_run w cfg _ _ h Hd Hne).
    destruct (upload_all_opened w cfg (md_files directory_path entries)
                (h ++ [EvPrint ("Found " +:+
                         pretty (length (md_files directory_path entries))
                         +:+ " .md files. Uploading...")]))
      as (calls & Hc & [rest Hrest] & _).
    exists calls. split.
    + rewrite Hc, opened_app. simpl. by rewrite app_nil_r.
    + rewrite Hrest in Hnd. by apply NoDup_app in Hnd as [? _].
Qed.

Lemma load_directory_uploads_no_file_twice_witness :
  fs_dir (demo_world resp_500) "docs" = Some demo_tree ∧
  proper_names (Dir demo_tree) = true ∧
  NoDup (md_files "docs" demo_tree) ∧
  ∃ calls,
    opened (load_directory (lib := demo_lib) (demo_world resp_500) demo_cfg "docs" []).2
    = opened [] ++ calls ∧
    NoDup calls.
Proof.
  assert (Hp : proper_names (Dir demo_tree) = true) by (vm_compute; reflexivity).
  split; [reflexivity|]. split; [exact Hp|].
  exact (load_directory_uploads_no_file_twice (lib := demo_lib)
           (demo_world resp_500) demo_cfg "docs" demo_tree [] eq_refl Hp).
Defined.

